(** * A4 Markdown Writer: the configuration store, the document assembler
      and the download link of [app.py], as Rocq functions.

    Python [str] values are sequences of Unicode code points, modelled as
    [list Z]; [bytes] values are lists of integers in [0, 256).  The Streamlit
    session state is a dictionary from key names to dynamically typed values. *)

From Stdlib Require Import ZArith List String Ascii Lia Decimal DecimalPos DecimalN DecimalZ Bool.
From stdpp Require Import base option list gmap strings.

Local Open Scope Z_scope.

(** ** Python strings *)

Module Py.

(** An ASCII literal of the source, as code points. *)
Definition lit (s : string) : list Z :=
  map (fun a => Z.of_N (N_of_ascii a)) (list_ascii_of_string s).

(** Pieces of a literal: ASCII text, a double quote, one code point given
    by number (the non-ASCII characters and a backslash that ends a line), or
    a replacement field of an f-string, already formatted. *)
Inductive piece :=
  | T (s : string)
  | Q
  | U (c : Z)
  | F (v : list Z).

Definition render_piece (p : piece) : list Z :=
  match p with
  | T s => lit s
  | Q => [34]
  | U c => [c]
  | F v => v
  end.

Definition render_line (l : list piece) : list Z :=
  flat_map render_piece l.

(** Every line of a triple-quoted literal, each followed by its newline. *)
Definition unlines (ls : list (list piece)) : list Z :=
  flat_map (fun l => render_line l ++ [10]) ls.

(** [s.replace(old, new)] for a one-character [old], the only form the
    source uses: every occurrence, left to right. *)
Fixpoint replace (old : Z) (new : list Z) (s : list Z) : list Z :=
  match s with
  | [] => []
  | c :: s' => (if c =? old then new else [c]) ++ replace old new s'
  end.

(** [str(n)] for an [int]: the decimal digits, with a sign when negative. *)
Fixpoint uint_codes (d : Decimal.uint) : list Z :=
  match d with
  | Nil => []
  | D0 d => 48 :: uint_codes d
  | D1 d => 49 :: uint_codes d
  | D2 d => 50 :: uint_codes d
  | D3 d => 51 :: uint_codes d
  | D4 d => 52 :: uint_codes d
  | D5 d => 53 :: uint_codes d
  | D6 d => 54 :: uint_codes d
  | D7 d => 55 :: uint_codes d
  | D8 d => 56 :: uint_codes d
  | D9 d => 57 :: uint_codes d
  end.

Definition str_int (n : Z) : list Z :=
  match Z.to_int n with
  | Decimal.Pos d => uint_codes d
  | Decimal.Neg d => 45 :: uint_codes d
  end.

End Py.

Import Py.

(** ** Presets and templates (lines 23-93) *)

Inductive value :=
  | VInt (n : Z)
  | VBool (b : bool)
  | VStr (s : list Z).

Definition PRESETS : list (string * list (string * value)) :=
  [ ("2-up", [("columns", VInt 2); ("margin_mm", VInt 12); ("gap_mm", VInt 10); ("font_px", VInt 11); ("show_guides", VBool true)]);
    ("3-up", [("columns", VInt 3); ("margin_mm", VInt 12); ("gap_mm", VInt 8); ("font_px", VInt 10); ("show_guides", VBool true)]);
    ("4-up", [("columns", VInt 4); ("margin_mm", VInt 10); ("gap_mm", VInt 6); ("font_px", VInt 10); ("show_guides", VBool true)]) ].

Definition template_lecture_notes : list Z :=
  unlines [
    [T "# Week X "; U 8212; T " Topic Title"];
    [];
    [T "## Key Ideas"];
    [T "- Concept 1"];
    [T "- Concept 2"];
    [];
    [T "## Definitions"];
    [T "- **Term**: meaning here"];
    [];
    [T "## Example"];
    [T "Let $f(x)=x^2-x$. Then $$f'(x)=2x-1$$"];
    [];
    [T "## Quick Derivation"];
    [T "1. Start from ..."];
    [T "2. Apply rule ..."];
    [];
    [T "## Takeaways"];
    [T "- Bullet 1"];
    [T "- Bullet 2"]
  ].

Definition template_code_snippets : list Z :=
  unlines [
    [T "# Handy Snippets"];
    [];
    [T "### Python"];
    [T "```python"];
    [T "from math import sqrt"];
    [T "def mean(xs):"];
    [T "    return sum(xs)/len(xs)"];
    [T "```"];
    [];
    [T "### Bash"];
    [T "```bash"];
    [T "python -m venv .venv && source .venv/bin/activate"];
    [T "pip install -r requirements.txt"];
    [T "```"];
    [];
    [T "### SQL"];
    [T "```sql"];
    [T "SELECT id, AVG(score) AS avg_score"];
    [T "FROM results"];
    [T "GROUP BY id;"];
    [T "```"]
  ].

Definition template_formula_sheet : list Z :=
  unlines [
    [T "# Formula Sheet"];
    [];
    [T "## Algebra"];
    [T "$ (a+b)^2 = a^2 + 2ab + b^2 $"; U 92];
    [T "$ (a-b)^2 = a^2 - 2ab + b^2 $"; U 92];
    [T "$ a^2-b^2=(a-b)(a+b) $"];
    [];
    [T "## Calculus"];
    [T "$\dfrac{d}{dx} x^n = nx^{n-1}$"; U 92];
    [T "$\int_0^1 x^2\,dx = 1/3$"];
    [];
    [T "## Trig"];
    [T "$\sin^2 x + \cos^2 x = 1$"]
  ].

Definition TEMPLATES : list (string * list Z) :=
  [ ("Blank", []);
    ("Lecture Notes", template_lecture_notes);
    ("Code Snippets", template_code_snippets);
    ("Formula Sheet", template_formula_sheet) ].

(** ** Default content (lines 130-152) *)

Definition default_md : list Z :=
  unlines [
    [T "# A4 Markdown Writer (Python)"];
    [];
    [T "Switch orientation, pick columns, then Print "; U 8594; T " Save as PDF."];
    [];
    [T "---"];
    [];
    [T "## Math"];
    [T "Inline: $E=mc^2$  Display: $$\int_0^1 x^2\,dx=1/3$$"];
    [];
    [T "## Code"];
    [T "```python"];
    [T "import math"];
    [T "print("; Q; T "hello"; Q; T ", math.pi)"];
    [T "```"];
    [];
    [T "## Lists"];
    [T "- One"];
    [T "- Two"];
    [T "- Three"]
  ].

(** ** The document assembler (lines 171-232) *)

Definition A4_W : Z := 210.
Definition A4_H : Z := 297.

Definition str_eqb (a b : list Z) : bool := bool_decide (a = b).

Definition page_w (orientation : list Z) : Z :=
  if str_eqb orientation (lit "portrait") then A4_W else A4_H.

Definition page_h (orientation : list Z) : Z :=
  if str_eqb orientation (lit "portrait") then A4_H else A4_W.

Definition rule_css (show_guides : bool) : list Z :=
  lit "column-rule: " ++ (if show_guides then lit "1px solid #ddd" else lit "none") ++ lit ";".

(** Escape for the JS template string: a backslash becomes four backslashes
    (the raw literal of line 178 has four), then a backtick and a dollar sign
    each get one backslash in front. *)
Definition md_js (md : list Z) : list Z :=
  replace 36 [92; 36]
    (replace 96 [92; 96]
      (replace 92 [92; 92; 92; 92] md)).

(** The f-string of lines 183-232, line by line, with its replacement
    fields as arguments. *)
Definition html_lines
    (page_w page_h margin_mm gap_mm font_px columns : Z)
    (orientation rule_css md_js : list Z) : list (list piece) :=
  [
    [];
    [T "<!doctype html>"];
    [T "<html>"];
    [T "<head>"];
    [T "  <meta charset="; Q; T "utf-8"; Q; T " />"];
    [T "  <meta name="; Q; T "viewport"; Q; T " content="; Q; T "width=device-width, initial-scale=1"; Q; T " />"];
    [T "  <link rel="; Q; T "stylesheet"; Q; T " href="; Q; T "https://cdnjs.cloudflare.com/ajax/libs/highlight.js/11.9.0/styles/github.min.css"; Q; T "/>"];
    [T "  <script src="; Q; T "https://cdnjs.cloudflare.com/ajax/libs/highlight.js/11.9.0/highlight.min.js"; Q; T "></script>"];
    [T "  <script src="; Q; T "https://cdn.jsdelivr.net/npm/dompurify@3.1.7/dist/purify.min.js"; Q; T "></script>"];
    [T "  <script src="; Q; T "https://cdn.jsdelivr.net/npm/marked/marked.min.js"; Q; T "></script>"];
    [T "  <script>"];
    [T "    window.MathJax = { tex: { inlineMath: [['$','$'], ['\(','\)']] }, svg: {fontCache: 'global'} };"];
    [T "  </script>"];
    [T "  <script src="; Q; T "https://cdn.jsdelivr.net/npm/mathjax@3/es5/tex-svg.js"; Q; T "></script>"];
    [T "  <style>"];
    [T "    :root {"];
    [T "      --page-w-mm: "; F (str_int page_w); T "mm;"];
    [T "      --page-h-mm: "; F (str_int page_h); T "mm;"];
    [T "      --margin-mm: "; F (str_int margin_mm); T "mm;"];
    [T "      --gap-mm: "; F (str_int gap_mm); T "mm;"];
    [T "      --font-px: "; F (str_int font_px); T "px;"];
    [T "      --cols: "; F (str_int columns); T ";"];
    [T "    }"];
    [T "    @page { size: A4 "; F orientation; T "; margin: var(--margin-mm); }"];
    [T "    html, body { height: 100%; }"];
    [T "    body { background: #f4f5f7; margin: 0; }"];
    [T "    .toolbar { position: sticky; top: 0; background: #fff; border-bottom: 1px solid #e5e7eb; padding: 8px 12px; z-index: 10; font-family: system-ui, -apple-system, Segoe UI, Roboto, Helvetica, Arial; }"];
    [T "    .page-shell { width: var(--page-w-mm); height: var(--page-h-mm); margin: 24px auto; background: #fff; box-shadow: 0 10px 25px rgba(0,0,0,.08); overflow: hidden; }"];
    [T "    .page-content { box-sizing: border-box; padding: var(--margin-mm); font-size: var(--font-px); line-height: 1.45; column-count: var(--cols); column-gap: var(--gap-mm); "; F rule_css; T " font-family: system-ui, -apple-system, Segoe UI, Roboto, Helvetica, Arial; }"];
    [T "    .page-content h1, .page-content h2, .page-content h3 { break-inside: avoid; }"];
    [T "    .page-content pre, .page-content code, .page-content img, .page-content table { break-inside: avoid; max-width: 100%; }"];
    [T "    .page-content pre { background: #f6f8fa; padding: 10px; border-radius: 6px; overflow: auto; }"];
    [T "    .page-content code { font-family: ui-monospace, SFMono-Regular, Menlo, Consolas, monospace; }"];
    [T "    @media print { body { -webkit-print-color-adjust: exact; print-color-adjust: exact; background: #fff; } .toolbar { display: none; } .page-shell { box-shadow: none; margin: 0 auto; } }"];
    [T "  </style>"];
    [T "</head>"];
    [T "<body>"];
    [T "  <div class="; Q; T "toolbar"; Q; T ">A4 preview "; U 8226; T " "; F orientation; T " "; U 8226; T " "; F (str_int columns); T " column(s)</div>"];
    [T "  <div class="; Q; T "page-shell"; Q; T "><div id="; Q; T "content"; Q; T " class="; Q; T "page-content"; Q; T "></div></div>"];
    [T "  <script>"];
    [T "    const raw = `"; F md_js; T "`;"];
    [T "    const html = DOMPurify.sanitize(marked.parse(raw));"];
    [T "    const container = document.getElementById('content');"];
    [T "    container.innerHTML = html;"];
    [T "    document.querySelectorAll('pre code').forEach(el => window.hljs.highlightElement(el));"];
    [T "    if (window.MathJax && window.MathJax.typeset) { window.MathJax.typeset([container]); }"];
    [T "  </script>"];
    [T "</body>"];
    [T "</html>"]
  ].

Definition html_template
    (page_w page_h margin_mm gap_mm font_px columns : Z)
    (orientation rule_css md_js : list Z) : list Z :=
  unlines (html_lines page_w page_h margin_mm gap_mm font_px columns
             orientation rule_css md_js).

Definition html_doc (orientation : list Z) (columns margin_mm gap_mm font_px : Z)
    (show_guides : bool) (md : list Z) : list Z :=
  html_template (page_w orientation) (page_h orientation) margin_mm gap_mm font_px columns
    orientation (rule_css show_guides) (md_js md).

(** ** The configuration store: Streamlit's session state and widgets *)

(** Lookup in a dictionary literal of the source; [None] is a [KeyError]. *)
Fixpoint dict_get {A} (k : string) (d : list (string * A)) : option A :=
  match d with
  | [] => None
  | (k', v) :: d' => if String.eqb k k' then Some v else dict_get k d'
  end.

(** [d.update(other)]: every item of [other] is stored, in order. *)
Definition dict_update (ss : gmap string value) (other : list (string * value))
    : gmap string value :=
  foldl (fun m kv => <[kv.1 := kv.2]> m) ss other.

(** [st.session_state.get(key, default)]. *)
Definition session_get (key : string) (dflt : value) (ss : gmap string value) : value :=
  default dflt (ss !! key).

(** A keyed widget returns the value stored under its key; on its first run
    the key is absent and the widget registers its initial value.  The model
    covers a value of the widget's own kind under the key: an integer for a
    slider, a truth value for a checkbox, a string for a selector; for a value
    of another kind it gives no result ([None]).

    A slider does not reject a value outside its bounds: it widens the bounds
    to hold the value, and raises when a bound is then no integer that
    JavaScript holds exactly.  What restricts the value to the bounds written
    in the call is the control in the browser (see [apply_event]). *)
Definition js_int (n : Z) : bool :=
  (- (2 ^ 53 - 1) <=? n) && (n <=? 2 ^ 53 - 1).

Definition slider (min_value max_value : Z) (value0 : value) (key : string)
    (ss : gmap string value) : option (Z * gmap string value) :=
  match value0 with
  | VInt v0 =>
      if js_int (Z.min v0 min_value) && js_int (Z.max v0 max_value) then
        match ss !! key with
        | Some (VInt v) => Some (v, ss)
        | Some _ => None
        | None => Some (v0, <[key := VInt v0]> ss)
        end
      else None
  | _ => None
  end.

Definition checkbox (value0 : value) (key : string)
    (ss : gmap string value) : option (bool * gmap string value) :=
  match ss !! key with
  | Some (VBool b) => Some (b, ss)
  | Some _ => None
  | None =>
      match value0 with
      | VBool b => Some (b, <[key := VBool b]> ss)
      | _ => None
      end
  end.

(** A selector whose key holds a string that is not one of its options
    falls back to the option at [index] and stores it. *)
Definition selectbox (options : list (list Z)) (index : nat) (key : string)
    (ss : gmap string value) : option (list Z * gmap string value) :=
  match ss !! key with
  | Some (VStr v) =>
      if bool_decide (v ∈ options) then Some (v, ss)
      else v0 ← options !! index; Some (v0, <[key := VStr v0]> ss)
  | Some _ => None
  | None => v ← options !! index; Some (v, <[key := VStr v]> ss)
  end.

(** The template selector has no key: its choice lives in the browser and
    comes with each interaction; [None] is the first run, before any choice. *)
Definition selectbox_nokey (options : list string) (index : nat)
    (choice : option string) : option string :=
  match choice with
  | Some c => if bool_decide (c ∈ options) then Some c else None
  | None => options !! index
  end.

(** The value of the text area: the text stored under its key (line 155
    has put one there). *)
Definition text_area (key : string) (ss : gmap string value) : option (list Z) :=
  match ss !! key with
  | Some (VStr s) => Some s
  | _ => None
  end.

(** What one interaction brings from the browser: the buttons that were
    clicked and the current choice of the keyless selector. *)
Record interaction := {
  click_2up : bool;
  click_3up : bool;
  click_4up : bool;
  template_choice : option string;
  click_replace : bool;
  click_append : bool;
  click_download : bool
}.

(** The variables in scope after the sidebar (line 125). *)
Record scope := {
  session_state : gmap string value;
  orientation : list Z;
  columns : Z;
  margin_mm : Z;
  gap_mm : Z;
  font_px : Z;
  show_guides : bool;
  show_print_button : bool;
  selected_template : string;
  load_replace : bool;
  load_append : bool
}.

Definition ORIENTATIONS : list (list Z) := [lit "portrait"; lit "landscape"].

(** Lines 100-108: [if st.button(name): st.session_state.update(PRESETS[name])]. *)
Definition preset_button (clicked : bool) (name : string)
    (ss : gmap string value) : option (gmap string value) :=
  if clicked then p ← dict_get name PRESETS; Some (dict_update ss p) else Some ss.

Definition presets_section (i : interaction) (ss : gmap string value)
    : option (gmap string value) :=
  ss ← preset_button (click_2up i) "2-up" ss;
  ss ← preset_button (click_3up i) "3-up" ss;
  preset_button (click_4up i) "4-up" ss.

(** Lines 110-125. *)
Definition controls_section (i : interaction) (ss : gmap string value) : option scope :=
  '(orientation, ss) ← selectbox ORIENTATIONS 0 "orientation" ss;
  '(columns, ss) ← slider 1 4 (session_get "columns" (VInt 2) ss) "columns" ss;
  '(margin_mm, ss) ← slider 5 25 (session_get "margin_mm" (VInt 12) ss) "margin_mm" ss;
  '(gap_mm, ss) ← slider 4 20 (session_get "gap_mm" (VInt 8) ss) "gap_mm" ss;
  '(font_px, ss) ← slider 9 16 (session_get "font_px" (VInt 11) ss) "font_px" ss;
  '(show_guides, ss) ← checkbox (session_get "show_guides" (VBool true) ss) "show_guides" ss;
  '(show_print_button, ss) ← checkbox (VBool true) "show_print_button" ss;
  selected_template ← selectbox_nokey (map fst TEMPLATES) 1 (template_choice i);
  Some {| session_state := ss;
          orientation := orientation;
          columns := columns;
          margin_mm := margin_mm;
          gap_mm := gap_mm;
          font_px := font_px;
          show_guides := show_guides;
          show_print_button := show_print_button;
          selected_template := selected_template;
          load_replace := click_replace i;
          load_append := click_append i |}.

Definition set_session (sc : scope) (ss : gmap string value) : scope :=
  {| session_state := ss;
     orientation := orientation sc;
     columns := columns sc;
     margin_mm := margin_mm sc;
     gap_mm := gap_mm sc;
     font_px := font_px sc;
     show_guides := show_guides sc;
     show_print_button := show_print_button sc;
     selected_template := selected_template sc;
     load_replace := load_replace sc;
     load_append := load_append sc |}.

(** Lines 154-155: [if "md" not in st.session_state: st.session_state.md = default_md]. *)
Definition init_md (sc : scope) : scope :=
  match session_state sc !! "md" with
  | None => set_session sc (<["md" := VStr default_md]> (session_state sc))
  | Some _ => sc
  end.

(** Lines 157-160: the two template actions. *)
Definition load_step (sc : scope) : option scope :=
  if load_replace sc then
    t ← dict_get (selected_template sc) TEMPLATES;
    Some (set_session sc (<["md" := VStr t]> (session_state sc)))
  else if load_append sc then
    match session_state sc !! "md" with
    | Some (VStr prior) =>
        t ← dict_get (selected_template sc) TEMPLATES;
        Some (set_session sc (<["md" := VStr (prior ++ ([] ++ t))]> (session_state sc)))
    | _ => None
    end
  else Some sc.

(** Lines 154-160. *)
Definition md_section (sc : scope) : option scope :=
  load_step (init_md sc).

(** The document built from the variables in scope and the text of the editor. *)
Definition assemble (sc : scope) (md : list Z) : list Z :=
  html_doc (orientation sc) (columns sc) (margin_mm sc) (gap_mm sc) (font_px sc)
    (show_guides sc) md.

(** ** Bytes: UTF-8 and base64 *)

Module Codec.

(** [s.encode("utf-8")], one code point: one to four bytes; a surrogate or
    a number outside Unicode cannot be encoded (an exception, [None]). *)
Definition utf8_char (c : Z) : option (list Z) :=
  if c <? 0 then None
  else if c <? 0x80 then Some [c]
  else if c <? 0x800 then
    Some [Z.lor 0xC0 (Z.shiftr c 6); Z.lor 0x80 (Z.land c 0x3F)]
  else if c <? 0x10000 then
    if (0xD800 <=? c) && (c <=? 0xDFFF) then None
    else Some [Z.lor 0xE0 (Z.shiftr c 12);
               Z.lor 0x80 (Z.land (Z.shiftr c 6) 0x3F);
               Z.lor 0x80 (Z.land c 0x3F)]
  else if c <? 0x110000 then
    Some [Z.lor 0xF0 (Z.shiftr c 18);
          Z.lor 0x80 (Z.land (Z.shiftr c 12) 0x3F);
          Z.lor 0x80 (Z.land (Z.shiftr c 6) 0x3F);
          Z.lor 0x80 (Z.land c 0x3F)]
  else None.

Fixpoint encode_utf8 (s : list Z) : option (list Z) :=
  match s with
  | [] => Some []
  | c :: s' => b ← utf8_char c; r ← encode_utf8 s'; Some (b ++ r)
  end.

Definition continuation (b : Z) : bool := (0x80 <=? b) && (b <? 0xC0).

(** [b.decode()]: strict UTF-8, shortest form only, no surrogates. *)
Fixpoint decode_utf8 (bs : list Z) : option (list Z) :=
  match bs with
  | [] => Some []
  | b0 :: r0 =>
      if b0 <? 0 then None
      else if b0 <? 0x80 then s ← decode_utf8 r0; Some (b0 :: s)
      else if b0 <? 0xC0 then None
      else if b0 <? 0xE0 then
        match r0 with
        | b1 :: r1 =>
            let c := Z.lor (Z.shiftl (Z.land b0 0x1F) 6) (Z.land b1 0x3F) in
            if continuation b1 && (0x80 <=? c)
            then s ← decode_utf8 r1; Some (c :: s) else None
        | _ => None
        end
      else if b0 <? 0xF0 then
        match r0 with
        | b1 :: b2 :: r2 =>
            let c := Z.lor (Z.lor (Z.shiftl (Z.land b0 0x0F) 12)
                                  (Z.shiftl (Z.land b1 0x3F) 6)) (Z.land b2 0x3F) in
            if continuation b1 && continuation b2 && (0x800 <=? c)
               && negb ((0xD800 <=? c) && (c <=? 0xDFFF))
            then s ← decode_utf8 r2; Some (c :: s) else None
        | _ => None
        end
      else if b0 <? 0xF8 then
        match r0 with
        | b1 :: b2 :: b3 :: r3 =>
            let c := Z.lor (Z.lor (Z.lor (Z.shiftl (Z.land b0 0x07) 18)
                                         (Z.shiftl (Z.land b1 0x3F) 12))
                                  (Z.shiftl (Z.land b2 0x3F) 6)) (Z.land b3 0x3F) in
            if continuation b1 && continuation b2 && continuation b3
               && (0x10000 <=? c) && (c <? 0x110000)
            then s ← decode_utf8 r3; Some (c :: s) else None
        | _ => None
        end
      else None
  end.

Definition b64_alphabet : list Z :=
  lit "ABCDEFGHIJKLMNOPQRSTUVWXYZabcdefghijklmnopqrstuvwxyz0123456789+/".

Definition b64_char (i : Z) : Z := nth (Z.to_nat i) b64_alphabet 0.

(** [base64.b64encode]: three bytes give four characters; one or two
    trailing bytes are padded with [=]. *)
Fixpoint b64encode (bs : list Z) : list Z :=
  match bs with
  | [] => []
  | [a] =>
      [b64_char (Z.shiftr a 2); b64_char (Z.shiftl (Z.land a 3) 4); 61; 61]
  | [a; b] =>
      [b64_char (Z.shiftr a 2);
       b64_char (Z.lor (Z.shiftl (Z.land a 3) 4) (Z.shiftr b 4));
       b64_char (Z.shiftl (Z.land b 15) 2); 61]
  | a :: b :: c :: r =>
      b64_char (Z.shiftr a 2)
      :: b64_char (Z.lor (Z.shiftl (Z.land a 3) 4) (Z.shiftr b 4))
      :: b64_char (Z.lor (Z.shiftl (Z.land b 15) 2) (Z.shiftr c 6))
      :: b64_char (Z.land c 63)
      :: b64encode r
  end.

Fixpoint index_of (c : Z) (l : list Z) (i : Z) : option Z :=
  match l with
  | [] => None
  | x :: l' => if x =? c then Some i else index_of c l' (i + 1)
  end.

Definition b64_index (c : Z) : option Z := index_of c b64_alphabet 0.

(** The reader's side of the link: base64 decoding of padded input. *)
Fixpoint b64decode (cs : list Z) : option (list Z) :=
  match cs with
  | [] => Some []
  | c0 :: c1 :: c2 :: c3 :: r =>
      i0 ← b64_index c0;
      i1 ← b64_index c1;
      let b0 := Z.lor (Z.shiftl i0 2) (Z.shiftr i1 4) in
      if c2 =? 61 then
        if (c3 =? 61) && bool_decide (r = []) then Some [b0] else None
      else
        i2 ← b64_index c2;
        let b1 := Z.lor (Z.shiftl (Z.land i1 15) 4) (Z.shiftr i2 2) in
        if c3 =? 61 then
          if bool_decide (r = []) then Some [b0; b1] else None
        else
          i3 ← b64_index c3;
          let b2 := Z.lor (Z.shiftl (Z.land i2 3) 6) i3 in
          rest ← b64decode r;
          Some (b0 :: b1 :: b2 :: rest)
  | _ => None
  end.

End Codec.

Import Codec.

(** ** Text search used to read a generated document back *)

Fixpoint strip_prefix (p s : list Z) : option (list Z) :=
  match p, s with
  | [], _ => Some s
  | a :: p', b :: s' => if a =? b then strip_prefix p' s' else None
  | _ :: _, [] => None
  end.

(** The text after the first occurrence of [pat]. *)
Fixpoint find_after (pat s : list Z) : option (list Z) :=
  match strip_prefix pat s with
  | Some r => Some r
  | None =>
      match s with
      | [] => None
      | _ :: s' => find_after pat s'
      end
  end.

(** The text before the first occurrence of [pat]. *)
Fixpoint before (pat s : list Z) : option (list Z) :=
  match strip_prefix pat s with
  | Some _ => Some []
  | None =>
      match s with
      | [] => None
      | c :: s' => b ← before pat s'; Some (c :: b)
      end
  end.

(** The text up to the first [c]. *)
Fixpoint take_until (c : Z) (s : list Z) : list Z :=
  match s with
  | [] => []
  | x :: s' => if x =? c then [] else x :: take_until c s'
  end.

(** [sub] occurs somewhere in [s]. *)
Definition contains (sub s : list Z) : bool :=
  match find_after sub s with
  | Some _ => true
  | None => false
  end.

(** ** The download link (lines 240-243) *)

Definition download_href (html_doc : list Z) : option (list Z) :=
  b ← encode_utf8 html_doc;
  payload ← decode_utf8 (b64encode b);
  Some (lit "data:text/html;base64," ++ payload).

Definition download_markdown (html_doc : list Z) : option (list Z) :=
  href ← download_href html_doc;
  Some (lit "[Download the HTML file](" ++ href ++ lit ")").

(** Following the link: the target of the Markdown link, its media type and
    encoding marker, then the payload decoded back to text. *)
Definition link_target (link : list Z) : option (list Z) :=
  r ← find_after (lit "](") link;
  Some (take_until 41 r).

Definition open_link (link : list Z) : option (list Z) :=
  url ← link_target link;
  payload ← strip_prefix (lit "data:text/html;base64,") url;
  b ← encode_utf8 payload;
  bytes ← b64decode b;
  decode_utf8 bytes.

(** ** One run of the script *)

(** A widget's text goes to the browser encoded as UTF-8.  A text that
    holds a lone surrogate, or a number that is no code point, cannot be
    encoded: the call that shows it raises. *)
Definition scalarb (c : Z) : bool :=
  (0 <=? c) && (c <? 0x110000) && negb ((0xD800 <=? c) && (c <=? 0xDFFF)).

Definition sent (s : list Z) : option (list Z) :=
  if forallb scalarb s then Some s else None.

Record output := {
  out_html : list Z;
  out_link : option (list Z);
  out_print_button : bool
}.

Definition run (i : interaction) (ss : gmap string value)
    : option (gmap string value * output) :=
  ss ← presets_section i ss;
  sc ← controls_section i ss;
  sc ← md_section sc;
  md ← text_area "md" (session_state sc);
  md ← sent md;
  let doc := assemble sc md in
  link ← (if click_download i then l ← download_markdown doc; Some (Some l) else Some None);
  Some (session_state sc,
        {| out_html := doc; out_link := link; out_print_button := show_print_button sc |}).

(** ** What the controls in the browser can send between two runs *)

Inductive ui_event :=
  | PickOrientation (index : nat)
  | MoveSlider (key : string) (v : Z)
  | ToggleCheckbox (key : string) (b : bool)
  | EditText (s : list Z).

(** The bounds given to the four sliders on lines 111-114. *)
Definition slider_bounds : list (string * (Z * Z)) :=
  [ ("columns", (1, 4)); ("margin_mm", (5, 25)); ("gap_mm", (4, 20)); ("font_px", (9, 16)) ].

(** The store after a message of a control.  A slider's message outside
    the bounds written in its call is dropped: the store stays as it is.
    [None] is a message no control of this page sends. *)
Definition apply_event (e : ui_event) (ss : gmap string value)
    : option (gmap string value) :=
  match e with
  | PickOrientation index =>
      v ← ORIENTATIONS !! index; Some (<["orientation" := VStr v]> ss)
  | MoveSlider key v =>
      '(lo, hi) ← dict_get key slider_bounds;
      if (lo <=? v) && (v <=? hi) then Some (<[key := VInt v]> ss) else Some ss
  | ToggleCheckbox key b =>
      if bool_decide (key ∈ ["show_guides"; "show_print_button"])
      then Some (<[key := VBool b]> ss) else None
  | EditText s => Some (<["md" := VStr s]> ss)
  end.

(** The invariants of the layout configuration, on the store: what is kept
    under a slider's key is an integer within that slider's bounds. *)
Definition int_within (lo hi : Z) (v : value) : bool :=
  match v with
  | VInt n => (lo <=? n) && (n <=? hi)
  | _ => false
  end.

Definition slot_ok (p : value -> bool) (key : string) (ss : gmap string value) : bool :=
  match ss !! key with
  | Some v => p v
  | None => true
  end.

Definition layout_ok (ss : gmap string value) : bool :=
  slot_ok (int_within 1 4) "columns" ss
  && slot_ok (int_within 5 25) "margin_mm" ss
  && slot_ok (int_within 4 20) "gap_mm" ss
  && slot_ok (int_within 9 16) "font_px" ss.

(** ... and on the variables the assembler reads. *)
Definition layout_bounds (sc : scope) : Prop :=
  1 <= columns sc <= 4 /\ 5 <= margin_mm sc <= 25
  /\ 4 <= gap_mm sc <= 20 /\ 9 <= font_px sc <= 16.

(** ** Reading the generated document: JavaScript, HTML and CSS *)

Module Js.




End Js.

Module Html.

Definition lower (c : Z) : Z :=
  if (65 <=? c) && (c <=? 90) then c + 32 else c.

Definition is_alpha (c : Z) : bool :=
  ((65 <=? c) && (c <=? 90)) || ((97 <=? c) && (c <=? 122)).

(** What ends a tag name: white space, [/] or [>].  A carriage return,
    which the parser's input stage turns into a line feed, counts as white
    space. *)
Definition ends_name (c : Z) : bool :=
  bool_decide (c ∈ [9; 10; 12; 13; 32; 47; 62]).


(** The states in which the tokenizer reads the content of a script
    element: script data, the section escaped by [<!--], and the section
    escaped twice by a [<script] inside it, in which an end tag does not end
    the element.  A name state carries the letters read so far, in lower
    case. *)
Inductive state :=
  | Data
  | DataLt
  | DataEndOpen
  | DataEndName (name : list Z)
  | EscStart
  | EscStartDash
  | Esc
  | EscDash
  | EscDashDash
  | EscLt
  | EscEndOpen
  | EscEndName (name : list Z)
  | DblStart (name : list Z)
  | Dbl
  | DblDash
  | DblDashDash
  | DblLt
  | DblEnd (name : list Z).

(** A character read again in one of the three main states. *)
Definition data_step (c : Z) : state :=
  if c =? 60 then DataLt else Data.

Definition esc_step (c : Z) : state :=
  if c =? 45 then EscDash else if c =? 60 then EscLt else Esc.

Definition dbl_step (c : Z) : state :=
  if c =? 45 then DblDash else if c =? 60 then DblLt else Dbl.

(** One character; [None] when it completes the end tag of the script. *)
Definition step (st : state) (c : Z) : option state :=
  match st with
  | Data => Some (data_step c)
  | DataLt =>
      if c =? 47 then Some DataEndOpen
      else if c =? 33 then Some EscStart
      else Some (data_step c)
  | DataEndOpen =>
      if is_alpha c then Some (DataEndName [lower c]) else Some (data_step c)
  | DataEndName name =>
      if ends_name c then
        if bool_decide (name = lit "script") then None else Some (data_step c)
      else if is_alpha c then Some (DataEndName (name ++ [lower c]))
      else Some (data_step c)
  | EscStart =>
      if c =? 45 then Some EscStartDash else Some (data_step c)
  | EscStartDash =>
      if c =? 45 then Some EscDashDash else Some (data_step c)
  | Esc => Some (esc_step c)
  | EscDash =>
      if c =? 45 then Some EscDashDash
      else if c =? 60 then Some EscLt
      else Some Esc
  | EscDashDash =>
      if c =? 45 then Some EscDashDash
      else if c =? 60 then Some EscLt
      else if c =? 62 then Some Data
      else Some Esc
  | EscLt =>
      if c =? 47 then Some EscEndOpen
      else if is_alpha c then Some (DblStart [lower c])
      else Some (esc_step c)
  | EscEndOpen =>
      if is_alpha c then Some (EscEndName [lower c]) else Some (esc_step c)
  | EscEndName name =>
      if ends_name c then
        if bool_decide (name = lit "script") then None else Some (esc_step c)
      else if is_alpha c then Some (EscEndName (name ++ [lower c]))
      else Some (esc_step c)
  | DblStart name =>
      if ends_name c then
        if bool_decide (name = lit "script") then Some Dbl else Some Esc
      else if is_alpha c then Some (DblStart (name ++ [lower c]))
      else Some (esc_step c)
  | Dbl => Some (dbl_step c)
  | DblDash =>
      if c =? 45 then Some DblDashDash
      else if c =? 60 then Some DblLt
      else Some Dbl
  | DblDashDash =>
      if c =? 45 then Some DblDashDash
      else if c =? 60 then Some DblLt
      else if c =? 62 then Some Data
      else Some Dbl
  | DblLt =>
      if c =? 47 then Some (DblEnd []) else Some (dbl_step c)
  | DblEnd name =>
      if ends_name c then
        if bool_decide (name = lit "script") then Some Esc else Some Dbl
      else if is_alpha c then Some (DblEnd (name ++ [lower c]))
      else Some (dbl_step c)
  end.

(** The state after a text; [None] when the text holds the end tag. *)
Fixpoint states (st : state) (s : list Z) : option state :=
  match s with
  | [] => Some st
  | c :: r => st' ← step st c; states st' r
  end.

(** How many characters are read before the one that completes the end
    tag; [None] when the input ends first. *)
Fixpoint script_end (st : state) (s : list Z) : option nat :=
  match s with
  | [] => None
  | c :: r =>
      match step st c with
      | None => Some O
      | Some st' => S <$> script_end st' r
      end
  end.

(** The text the parser hands on: its input stage turns a carriage
    return, with the line feed that follows it if there is one, into one line
    feed ([cr] says that the character before was a carriage return), and the
    tokenizer replaces a null character. *)
Fixpoint newlines (cr : bool) (s : list Z) : list Z :=
  match s with
  | [] => []
  | c :: r =>
      if c =? 13 then 10 :: newlines true r
      else if (c =? 10) && cr then newlines false r
      else c :: newlines false r
  end.

Definition text_char (c : Z) : Z := if c =? 0 then 0xFFFD else c.

Definition text (s : list Z) : list Z := map text_char (newlines false s).

(** The text of a script element whose start tag has been read, and the
    input from its end tag on: the text is everything before the eight
    characters [</script] of the end tag. *)
Definition script_data (s : list Z) : option (list Z * list Z) :=
  n ← script_end Data s;
  Some (text (take (n - 8) s), drop (n - 8) s).

Definition double_escaped (st : state) : bool :=
  match st with
  | Dbl | DblDash | DblDashDash | DblLt | DblEnd _ => true
  | _ => false
  end.

(** A text does no harm inside a script element when the tokenizer,
    reading it in the script data state, meets no end tag of the script and
    is not left in the section escaped twice, which would hide the end tag
    that follows the text. *)
Definition harmless (s : list Z) : bool :=
  match states Data s with
  | Some st => negb (double_escaped st)
  | None => false
  end.


End Html.

Module Css.

Definition digit (c : Z) : option (Decimal.uint -> Decimal.uint) :=
  if c =? 48 then Some D0 else if c =? 49 then Some D1
  else if c =? 50 then Some D2 else if c =? 51 then Some D3
  else if c =? 52 then Some D4 else if c =? 53 then Some D5
  else if c =? 54 then Some D6 else if c =? 55 then Some D7
  else if c =? 56 then Some D8 else if c =? 57 then Some D9
  else None.

(** The leading decimal digits of a value and what follows them. *)
Fixpoint read_uint (s : list Z) : Decimal.uint * list Z :=
  match s with
  | [] => (Nil, [])
  | c :: r =>
      match digit c with
      | Some d => let '(u, r') := read_uint r in (d u, r')
      | None => (Nil, s)
      end
  end.

(** The text of the first style element. *)
Definition style_text (doc : list Z) : option (list Z) :=
  r ← find_after (lit "<style>") doc;
  before (lit "</style>") r.

(** The value of the first declaration of a property: the text between
    [name: ] and the next semicolon. *)
Definition declared (name : string) (css : list Z) : option (list Z) :=
  r ← find_after (lit name ++ lit ": ") css;
  Some (take_until 59 r).

(** A numeric value: the number and its unit. *)
Definition number (name : string) (css : list Z) : option (Z * list Z) :=
  v ← declared name css;
  match read_uint v with
  | (Nil, _) => None
  | (u, unit) => Some (Z.of_uint u, unit)
  end.

End Css.

(** The script element that holds the text, from the opening backtick of
    [const raw = `] on: its text, as the HTML parser hands it to JavaScript,
    and the document from its end tag on.  The characters of the script
    before that backtick have no role in the tokenizer, which is in its first
    state there. *)
Definition embedded_from (doc : list Z) : option (list Z) :=
  find_after (lit "const raw = `") doc.

Definition embedding_script (doc : list Z) : option (list Z * list Z) :=
  r ← embedded_from doc; Html.script_data r.

(** What the template writes after the closing backtick, up to the end tag
    of the script (lines 223-229), and from that end tag on (lines 229-231). *)
Definition script_tail : list Z :=
  lit ";" ++ [10]
  ++ unlines (firstn 5 (skipn 41 (html_lines 0 0 0 0 0 0 [] [] []))) ++ lit "  ".

Definition document_tail : list Z :=
  lit "</script>" ++ [10] ++ unlines (skipn 47 (html_lines 0 0 0 0 0 0 [] [] [])).

(** The script element is intact: it ends at the end tag the template
    wrote, and not before or after it. *)
Definition script_intact (doc : list Z) : bool :=
  match embedding_script doc with
  | Some (_, rest) => bool_decide (rest = document_tail)
  | None => false
  end.



(** Unicode scalar values: what a text typed in the browser consists of. *)
Definition scalar (c : Z) : Prop :=
  0 <= c < 0x110000 /\ ~ (0xD800 <= c <= 0xDFFF).

(** What a preset leaves in the store, as the five values the script will
    read back through its controls. *)
Definition preset_applied (c m g f : Z) (ss' : gmap string value) : Prop :=
  ss' !! "columns" = Some (VInt c)
  /\ ss' !! "margin_mm" = Some (VInt m)
  /\ ss' !! "gap_mm" = Some (VInt g)
  /\ ss' !! "font_px" = Some (VInt f)
  /\ ss' !! "show_guides" = Some (VBool true).

(** ** Auxiliary notions for the proofs *)

(** [p] and [a] differ at a position both have. *)
Fixpoint mismatch (p a : list Z) : bool :=
  match p, a with
  | x :: p', y :: a' => if x =? y then mismatch p' a' else true
  | _, _ => false
  end.

(** No occurrence of [pat] can start inside [a], whatever follows [a]. *)
Fixpoint no_start (pat a : list Z) : bool :=
  match a with
  | [] => true
  | _ :: a' => mismatch pat a && no_start pat a'
  end.

(** Every character of a piece satisfies [P]; for a replacement field this
    is a condition on the value substituted. *)
Definition piece_all (P : Z -> bool) (p : piece) : bool :=
  forallb P (render_piece p).

Definition is_digit (c : Z) : bool := (48 <=? c) && (c <=? 57).

(** The lines of the template before the style element, inside it, and
    after it. *)
Definition head_lines : list (list piece) :=
  firstn 14 (html_lines 0 0 0 0 0 0 [] [] []).

Definition style_lines
    (page_w page_h margin_mm gap_mm font_px columns : Z)
    (orientation rule_css : list Z) : list (list piece) :=
  firstn 19 (skipn 15 (html_lines page_w page_h margin_mm gap_mm font_px columns
                         orientation rule_css [])).

Definition body_lines (columns : Z) (orientation md_js : list Z) : list (list piece) :=
  skipn 35 (html_lines 0 0 0 0 0 columns orientation [] md_js).

(** What the template writes after the embedded text: the closing
    backtick and the rest of the document. *)
Definition after_literal : list Z :=
  lit "`;" ++ [10] ++ unlines (skipn 41 (html_lines 0 0 0 0 0 0 [] [] [])).

(** What one character of the text becomes in [md_js]. *)
Definition escaped (c : Z) : list Z :=
  if c =? 92 then [92; 92; 92; 92]
  else if c =? 96 then [92; 96]
  else if c =? 36 then [92; 36]
  else [c].

(** The main state a character without a role in the tokenizer leads to,
    and those characters: no letter, white space, [/], [>], [<], [-] or [!]. *)
Definition settled (st : Html.state) : Html.state :=
  match st with
  | Html.Data | Html.DataLt | Html.DataEndOpen | Html.DataEndName _
  | Html.EscStart | Html.EscStartDash => Html.Data
  | Html.Esc | Html.EscDash | Html.EscDashDash | Html.EscLt | Html.EscEndOpen
  | Html.EscEndName _ | Html.DblStart _ => Html.Esc
  | Html.Dbl | Html.DblDash | Html.DblDashDash | Html.DblLt | Html.DblEnd _ => Html.Dbl
  end.

Definition ordinary (c : Z) : bool :=
  negb (Html.is_alpha c || Html.ends_name c || (c =? 60) || (c =? 45) || (c =? 33)).


(** Checks by enumeration: whether [f] holds on the [2^k] integers from
    [lo], and the first integer after them. *)
Fixpoint all_from (k : nat) (lo : Z) (f : Z -> bool) : bool * Z :=
  match k with
  | O => (f lo, lo + 1)
  | S k' =>
      let '(a, mid) := all_from k' lo f in
      let '(b, hi) := all_from k' mid f in
      (a && b, hi)
  end.

Definition byteb (b : Z) : bool := (0 <=? b) && (b <? 256).

(** The bytes of one encoded character are what the decoder expects and
    give the character back. *)
Definition utf8_char_ok (c : Z) : bool :=
  match utf8_char c with
  | Some [b0] => (0 <=? b0) && (b0 <? 0x80) && (b0 =? c)
  | Some [b0; b1] =>
      (0xC0 <=? b0) && (b0 <? 0xE0) && continuation b1
      && (Z.lor (Z.shiftl (Z.land b0 0x1F) 6) (Z.land b1 0x3F) =? c)
      && (0x80 <=? c)
  | Some [b0; b1; b2] =>
      (0xE0 <=? b0) && (b0 <? 0xF0) && continuation b1 && continuation b2
      && (Z.lor (Z.lor (Z.shiftl (Z.land b0 0x0F) 12)
                       (Z.shiftl (Z.land b1 0x3F) 6)) (Z.land b2 0x3F) =? c)
      && (0x800 <=? c) && negb ((0xD800 <=? c) && (c <=? 0xDFFF))
  | Some [b0; b1; b2; b3] =>
      (0xF0 <=? b0) && (b0 <? 0xF8) && continuation b1 && continuation b2
      && continuation b3
      && (Z.lor (Z.lor (Z.lor (Z.shiftl (Z.land b0 0x07) 18)
                              (Z.shiftl (Z.land b1 0x3F) 12))
                       (Z.shiftl (Z.land b2 0x3F) 6)) (Z.land b3 0x3F) =? c)
      && (0x10000 <=? c) && (c <? 0x110000)
  | _ => false
  end.

(** The arithmetic of one base64 group on two neighbouring bytes: the
    sextets are in range and recombine to the bytes. *)
Definition sextets_ok (a b : Z) : bool :=
  let i0 := Z.shiftr a 2 in
  let i1 := Z.lor (Z.shiftl (Z.land a 3) 4) (Z.shiftr b 4) in
  let i2 := Z.lor (Z.shiftl (Z.land a 15) 2) (Z.shiftr b 6) in
  let i3 := Z.land b 63 in
  (0 <=? i0) && (i0 <? 64) && (0 <=? i1) && (i1 <? 64)
  && (0 <=? i2) && (i2 <? 64) && (0 <=? i3) && (i3 <? 64)
  && (Z.lor (Z.shiftl i0 2) (Z.shiftr i1 4) =? a)
  && (Z.land i1 15 =? Z.shiftr b 4)
  && (Z.lor (Z.shiftl (Z.shiftr a 4) 4) (Z.shiftr i2 2) =? a)
  && (Z.lor (Z.shiftl (Z.land i2 3) 6) i3 =? b)
  && (Z.lor (Z.shiftl i0 2) (Z.shiftr (Z.shiftl (Z.land a 3) 4) 4) =? a)
  && (Z.lor (Z.shiftl (Z.shiftr a 4) 4) (Z.shiftr (Z.shiftl (Z.land a 15) 2) 2) =? a)
  && (0 <=? Z.shiftl (Z.land a 3) 4) && (Z.shiftl (Z.land a 3) 4 <? 64)
  && (0 <=? Z.shiftl (Z.land a 15) 2) && (Z.shiftl (Z.land a 15) 2 <? 64).

(** ASCII characters other than the closing parenthesis. *)
Definition link_char (c : Z) : bool :=
  (0 <=? c) && (c <? 128) && negb (c =? 41).

(** The type each widget key holds in a store the script itself filled. *)
Definition type_ok (key : string) (v : value) : bool :=
  if bool_decide (key ∈ ["orientation"; "md"]) then
    match v with VStr _ => true | _ => false end
  else if bool_decide (key ∈ ["columns"; "margin_mm"; "gap_mm"; "font_px"]) then
    match v with VInt _ => true | _ => false end
  else if bool_decide (key ∈ ["show_guides"; "show_print_button"]) then
    match v with VBool _ => true | _ => false end
  else true.

Definition store_typed (ss : gmap string value) : Prop :=
  forall k v, ss !! k = Some v -> type_ok k v = true.

(** The variables a test may fix: a scope with given values and store. *)
Definition sample_scope (ss : gmap string value) (sel : string) (r a : bool) : scope :=
  {| session_state := ss; orientation := lit "portrait"; columns := 2;
     margin_mm := 12; gap_mm := 8; font_px := 11; show_guides := true;
     show_print_button := true; selected_template := sel;
     load_replace := r; load_append := a |}.

(** The fields of the scope other than the store. *)
Definition same_variables (a b : scope) : Prop :=
  orientation a = orientation b
  /\ columns a = columns b
  /\ margin_mm a = margin_mm b
  /\ gap_mm a = gap_mm b
  /\ font_px a = font_px b
  /\ show_guides a = show_guides b
  /\ show_print_button a = show_print_button b
  /\ selected_template a = selected_template b.

Definition same_but_md (a b : gmap string value) : Prop :=
  forall k : string, k <> "md" -> a !! k = b !! k.

(** ** Further notions: the value JavaScript gives the literal *)

(** The string value of a template literal without substitutions whose
    opening backtick has been read: [\\], [\`] and [\$] stand for their second
    character, a carriage return (with a line feed after it, if any) reads as
    one line feed, every other character stands for itself.  [None] when the
    literal is not closed, opens a substitution, or holds another escape. *)
Fixpoint template_value (s : list Z) : option (list Z) :=
  match s with
  | [] => None
  | c :: r =>
      if c =? 96 then Some []
      else if c =? 92 then
        match r with
        | e :: r' =>
            if (e =? 92) || (e =? 96) || (e =? 36)
            then v ← template_value r'; Some (e :: v)
            else None
        | [] => None
        end
      else if c =? 36 then
        match r with
        | n :: _ => if n =? 123 then None else v ← template_value r; Some (c :: v)
        | [] => None
        end
      else if c =? 13 then
        match r with
        | n :: r' =>
            if n =? 10 then v ← template_value r'; Some (10 :: v)
            else v ← template_value r; Some (10 :: v)
        | [] => None
        end
      else v ← template_value r; Some (c :: v)
  end.

(** The value of [raw] in the script of a document, read from the text of
    the script element. *)
Definition script_raw (doc : list Z) : option (list Z) :=
  '(d, _) ← embedding_script doc; template_value d.

(** Characters the escaping leaves alone. *)
Definition plain (c : Z) : bool :=
  negb ((c =? 92) || (c =? 96) || (c =? 36)).

(** ** Further notions: the store *)

(** The keys a preset sets. *)
Definition preset_keys : list string :=
  ["columns"; "margin_mm"; "gap_mm"; "font_px"; "show_guides"].

(** The value each keyed widget of lines 110-116 registers on its first run. *)
Definition widget_defaults : list (string * value) :=
  [ ("orientation", VStr (lit "portrait"));
    ("columns", VInt 2);
    ("margin_mm", VInt 12);
    ("gap_mm", VInt 8);
    ("font_px", VInt 11);
    ("show_guides", VBool true);
    ("show_print_button", VBool true) ].

(** What a keyed widget does to the store: nothing when its key is there,
    its initial value under the key otherwise. *)
Definition register (key : string) (v : value) (ss : gmap string value)
    : gmap string value :=
  match ss !! key with
  | Some _ => ss
  | None => <[key := v]> ss
  end.

(** A selection kept under the orientation key that the selector does
    not offer, and the store without it. *)
Definition stale_orientation (k : string) (v : value) : bool :=
  match v with
  | VStr o => bool_decide (k = "orientation") && negb (bool_decide (o ∈ ORIENTATIONS))
  | _ => false
  end.

Definition without_stale (ss : gmap string value) : gmap string value :=
  match ss !! "orientation" with
  | Some (VStr o) => if bool_decide (o ∈ ORIENTATIONS) then ss else delete "orientation" ss
  | _ => ss
  end.

(** A slider shows a value: its bounds, widened to hold the value, are
    integers JavaScript holds exactly. *)
Definition widened_ok (lo hi v : Z) : bool :=
  js_int (Z.min v lo) && js_int (Z.max v hi).

(** The values the widgets of the sidebar can have returned. *)
Definition returned (sc : scope) : Prop :=
  In (orientation sc) ORIENTATIONS
  /\ widened_ok 1 4 (columns sc) = true
  /\ widened_ok 5 25 (margin_mm sc) = true
  /\ widened_ok 4 20 (gap_mm sc) = true
  /\ widened_ok 9 16 (font_px sc) = true.

(** A store the script and the browser's controls can have produced: values
    of the widgets' kinds, slider values within the sliders' bounds, a text of
    Unicode scalar values. *)
Definition store_wf (ss : gmap string value) : Prop :=
  store_typed ss
  /\ layout_ok ss = true
  /\ (forall s, ss !! "md" = Some (VStr s) -> Forall scalar s).

(** An interaction in which no button is clicked. *)
Definition quiet (choice : option string) (download : bool) : interaction :=
  {| click_2up := false; click_3up := false; click_4up := false;
     template_choice := choice;
     click_replace := false; click_append := false; click_download := download |}.

(** After the sidebar the store holds, under each widget's key, the value
    the script got from that widget. *)
Definition mirrors (sc : scope) : Prop :=
  session_state sc !! "orientation" = Some (VStr (orientation sc))
  /\ session_state sc !! "columns" = Some (VInt (columns sc))
  /\ session_state sc !! "margin_mm" = Some (VInt (margin_mm sc))
  /\ session_state sc !! "gap_mm" = Some (VInt (gap_mm sc))
  /\ session_state sc !! "font_px" = Some (VInt (font_px sc))
  /\ session_state sc !! "show_guides" = Some (VBool (show_guides sc))
  /\ session_state sc !! "show_print_button" = Some (VBool (show_print_button sc)).

(** The store of a session after its first run without any click. *)
Definition first_store : gmap string value :=
  <["md" := VStr default_md]> (dict_update ∅ widget_defaults).

(** That store with an orientation the selector does not offer. *)
Definition stale_store : gmap string value :=
  <["orientation" := VStr (lit "sideways")]> first_store.

(** The preset that is in force after the three buttons of lines 100-108. *)
Definition winner (i : interaction) : option string :=
  if click_4up i then Some "4-up"
  else if click_3up i then Some "3-up"
  else if click_2up i then Some "2-up"
  else None.

(** ** Further notions: parts of the document *)

(** The document up to the opening backtick of the embedded text. *)
Definition doc_prefix (orientation : list Z) (columns margin_mm gap_mm font_px : Z)
    (show_guides : bool) : list Z :=
  unlines (firstn 40 (html_lines (page_w orientation) (page_h orientation)
                        margin_mm gap_mm font_px columns orientation
                        (rule_css show_guides) []))
  ++ lit "    const raw = `".

(** The document before its style element: the same for every
    configuration and text. *)
Definition document_head : list Z := unlines head_lines ++ lit "  ".

(** The line the toolbar shows. *)
Definition toolbar_text (orientation : list Z) (columns : Z) : list Z :=
  lit "A4 preview " ++ [8226] ++ lit " " ++ orientation ++ lit " " ++ [8226]
  ++ lit " " ++ str_int columns ++ lit " column(s)".

(** What the first run of a session shows, and the store and document of
    a first run in which the 3-up button is clicked. *)
Definition first_output : output :=
  {| out_html := html_doc (lit "portrait") 2 12 8 11 true default_md;
     out_link := None;
     out_print_button := true |}.

Definition click_3up_only : interaction :=
  {| click_2up := false; click_3up := true; click_4up := false;
     template_choice := None;
     click_replace := false; click_append := false; click_download := false |}.

Definition store_3up : gmap string value :=
  <["md" := VStr default_md]>
    (dict_update (dict_update ∅ widget_defaults)
       (default [] (dict_get "3-up" PRESETS))).

Definition output_3up : output :=
  {| out_html := html_doc (lit "portrait") 3 12 8 10 true default_md;
     out_link := None;
     out_print_button := true |}.

(* ------------------------------------------------------------------ *)
(** * Properties *)

(** ** Page dimensions *)

(** C3: orientation "portrait" gives a page of 210mm by 297mm, "landscape"
    one of 297mm by 210mm; for every orientation value the assembler picks
    one of these two pairs of the fixed A4 dimensions. *)
Theorem page_dimensions_by_orientation :
  (page_w (lit "portrait") = 210 /\ page_h (lit "portrait") = 297)
  /\ (page_w (lit "landscape") = 297 /\ page_h (lit "landscape") = 210)
  /\ forall o : list Z,
       (page_w o = A4_W /\ page_h o = A4_H) \/ (page_w o = A4_H /\ page_h o = A4_W).
Proof.
  split; [split; reflexivity|].
  split; [split; reflexivity|].
  intros o. unfold page_w, page_h.
  destruct (str_eqb o (lit "portrait")); [left | right]; split; reflexivity.
Qed.

(** ** Presets *)

Section Presets.
Variable ss : gmap string value.

Lemma preset_2up_store :
  preset_button true "2-up" ss
  = Some (<["show_guides" := VBool true]> (<["font_px" := VInt 11]>
          (<["gap_mm" := VInt 10]> (<["margin_mm" := VInt 12]>
          (<["columns" := VInt 2]> ss))))).
Proof. reflexivity. Qed.

Lemma preset_3up_store :
  preset_button true "3-up" ss
  = Some (<["show_guides" := VBool true]> (<["font_px" := VInt 10]>
          (<["gap_mm" := VInt 8]> (<["margin_mm" := VInt 12]>
          (<["columns" := VInt 3]> ss))))).
Proof. reflexivity. Qed.

Lemma preset_4up_store :
  preset_button true "4-up" ss
  = Some (<["show_guides" := VBool true]> (<["font_px" := VInt 10]>
          (<["gap_mm" := VInt 6]> (<["margin_mm" := VInt 10]>
          (<["columns" := VInt 4]> ss))))).
Proof. reflexivity. Qed.

Lemma preset_not_clicked name : preset_button false name ss = Some ss.
Proof. reflexivity. Qed.
End Presets.

Lemma preset_applied_inserts (c m g f : Z) (ss : gmap string value) :
  preset_applied c m g f
    (<["show_guides" := VBool true]> (<["font_px" := VInt f]>
      (<["gap_mm" := VInt g]> (<["margin_mm" := VInt m]>
      (<["columns" := VInt c]> ss))))).
Proof. unfold preset_applied. repeat split; by simplify_map_eq. Qed.

(** C4: applying preset "2-up" sets columns=2, margin=12, gap=10, font=11,
    guides=true; "3-up" sets 3, 12, 8, 10, true; "4-up" sets 4, 10, 6, 10,
    true. *)
Theorem presets_set_layout (ss : gmap string value) :
  (exists ss', preset_button true "2-up" ss = Some ss' /\ preset_applied 2 12 10 11 ss')
  /\ (exists ss', preset_button true "3-up" ss = Some ss' /\ preset_applied 3 12 8 10 ss')
  /\ (exists ss', preset_button true "4-up" ss = Some ss' /\ preset_applied 4 10 6 10 ss').
Proof.
  split; [|split].
  - eexists; split; [apply preset_2up_store | apply preset_applied_inserts].
  - eexists; split; [apply preset_3up_store | apply preset_applied_inserts].
  - eexists; split; [apply preset_4up_store | apply preset_applied_inserts].
Qed.

(** ** Template actions *)

Lemma session_set_session sc ss : session_state (set_session sc ss) = ss.
Proof. reflexivity. Qed.

Lemma init_md_present sc v :
  session_state sc !! "md" = Some v -> init_md sc = sc.
Proof. intros H. unfold init_md. by rewrite H. Qed.

Lemma init_md_absent sc :
  session_state sc !! "md" = None ->
  init_md sc = set_session sc (<["md" := VStr default_md]> (session_state sc)).
Proof. intros H. unfold init_md. by rewrite H. Qed.

Lemma init_md_flags sc :
  load_replace (init_md sc) = load_replace sc
  /\ load_append (init_md sc) = load_append sc
  /\ selected_template (init_md sc) = selected_template sc.
Proof. unfold init_md. destruct (session_state sc !! "md"); auto. Qed.

(** C5: for every prior document text, the empty one included, and every
    selected template, load-append sets the document text to the prior text
    followed by the whole text of the template: nothing of either is cut. *)
Theorem load_append_concatenates (sc : scope) (prior t : list Z) :
  load_replace sc = false ->
  load_append sc = true ->
  session_state sc !! "md" = Some (VStr prior) ->
  dict_get (selected_template sc) TEMPLATES = Some t ->
  exists sc',
    md_section sc = Some sc'
    /\ text_area "md" (session_state sc') = Some (prior ++ t)
    /\ length (prior ++ t) = (length prior + length t)%nat.
Proof.
  intros Hr Ha Hmd Ht.
  unfold md_section. rewrite (init_md_present _ _ Hmd).
  unfold load_step. rewrite Hr, Ha, Hmd, Ht. simpl.
  eexists; split; [reflexivity|].
  split; [|apply length_app].
  unfold text_area. simpl. by simplify_map_eq.
Qed.

Lemma load_append_concatenates_witness :
  exists sc',
    md_section (sample_scope {["md" := VStr []]} "Formula Sheet" false true) = Some sc'
    /\ text_area "md" (session_state sc') = Some ([] ++ template_formula_sheet)
    /\ length ([] ++ template_formula_sheet) = (length (@nil Z) + length template_formula_sheet)%nat.
Proof.
  apply (load_append_concatenates
           (sample_scope {["md" := VStr []]} "Formula Sheet" false true)
           [] template_formula_sheet); reflexivity.
Defined.

(** C6: whatever the document text was, load-replace with template "Blank"
    selected sets it to the empty string. *)
Theorem load_replace_blank_empties (sc : scope) :
  load_replace sc = true ->
  selected_template sc = "Blank" ->
  exists sc',
    md_section sc = Some sc'
    /\ session_state sc' !! "md" = Some (VStr [])
    /\ text_area "md" (session_state sc') = Some [].
Proof.
  intros Hr Hs.
  destruct (init_md_flags sc) as (Hr' & _ & Hs').
  unfold md_section, load_step. rewrite Hr', Hr, Hs', Hs. simpl.
  eexists; split; [reflexivity|].
  unfold text_area. simpl. by simplify_map_eq.
Qed.

Lemma load_replace_blank_empties_witness :
  exists sc',
    md_section (sample_scope {["md" := VStr default_md]} "Blank" true false) = Some sc'
    /\ session_state sc' !! "md" = Some (VStr [])
    /\ text_area "md" (session_state sc') = Some [].
Proof.
  apply (load_replace_blank_empties
           (sample_scope {["md" := VStr default_md]} "Blank" true false)); reflexivity.
Defined.

Lemma set_session_frame sc v :
  same_variables (set_session sc (<["md" := v]> (session_state sc))) sc
  /\ same_but_md (session_state (set_session sc (<["md" := v]> (session_state sc))))
                 (session_state sc).
Proof.
  split; [repeat split|].
  intros k Hk. rewrite session_set_session. by rewrite lookup_insert_ne.
Qed.

Lemma frame_refl sc : same_variables sc sc /\ same_but_md (session_state sc) (session_state sc).
Proof. split; [repeat split | intros k _; reflexivity]. Qed.

Lemma init_md_frame sc :
  same_variables (init_md sc) sc
  /\ same_but_md (session_state (init_md sc)) (session_state sc).
Proof.
  unfold init_md. destruct (session_state sc !! "md").
  - apply frame_refl.
  - apply set_session_frame.
Qed.

Lemma load_step_frame sc sc' :
  load_step sc = Some sc' ->
  same_variables sc' sc /\ same_but_md (session_state sc') (session_state sc).
Proof.
  unfold load_step. intros H.
  destruct (load_replace sc).
  - destruct (dict_get (selected_template sc) TEMPLATES); simplify_eq/=.
    apply set_session_frame.
  - destruct (load_append sc); [|simplify_eq; apply frame_refl].
    destruct (session_state sc !! "md") as [[| |prior]|]; try discriminate.
    destruct (dict_get (selected_template sc) TEMPLATES); simplify_eq/=.
    apply set_session_frame.
Qed.

Lemma md_section_frame sc sc' :
  md_section sc = Some sc' ->
  same_variables sc' sc /\ same_but_md (session_state sc') (session_state sc).
Proof.
  unfold md_section. intros H.
  destruct (load_step_frame _ _ H) as [Hv Hs].
  destruct (init_md_frame sc) as [Hv0 Hs0].
  split.
  - unfold same_variables in *. intuition congruence.
  - intros k Hk. rewrite (Hs k Hk). apply (Hs0 k Hk).
Qed.

(** C10: the two template actions change the document text only:
    orientation, columns, margin, gap, font size, guides and the selected
    template are as before, and so is every other key of the store; when both
    actions are signalled at once, load-replace wins and nothing is appended. *)
Theorem template_actions_frame (sc sc' : scope) :
  md_section sc = Some sc' ->
  same_variables sc' sc
  /\ same_but_md (session_state sc') (session_state sc)
  /\ (load_replace sc = true ->
      exists t, dict_get (selected_template sc) TEMPLATES = Some t
                /\ session_state sc' !! "md" = Some (VStr t)).
Proof.
  intros H. destruct (md_section_frame _ _ H) as [Hv Hs].
  split; [exact Hv|]. split; [exact Hs|].
  intros Hr. destruct (init_md_flags sc) as (Hr' & _ & Hs').
  unfold md_section, load_step in H. rewrite Hr', Hr, Hs' in H.
  destruct (dict_get (selected_template sc) TEMPLATES) as [t|]; [|discriminate].
  exists t. split; [reflexivity|]. simplify_eq/=.
  simpl. by simplify_map_eq.
Qed.

Lemma template_actions_frame_witness :
  let sc := sample_scope {["md" := VStr default_md; "columns" := VInt 3]} "Code Snippets" true true in
  let sc' := set_session sc (<["md" := VStr template_code_snippets]> (session_state sc)) in
  same_variables sc' sc
  /\ same_but_md (session_state sc') (session_state sc)
  /\ (load_replace sc = true ->
      exists t, dict_get (selected_template sc) TEMPLATES = Some t
                /\ session_state sc' !! "md" = Some (VStr t)).
Proof.
  intros sc sc'. apply (template_actions_frame sc sc'). reflexivity.
Defined.

(** ** The layout invariants *)

Lemma slot_ok_insert_ne p k k' v (ss : gmap string value) :
  k <> k' -> slot_ok p k' (<[k := v]> ss) = slot_ok p k' ss.
Proof. intros H. unfold slot_ok. by rewrite lookup_insert_ne. Qed.

Lemma slot_ok_insert_eq p k v (ss : gmap string value) :
  slot_ok p k (<[k := v]> ss) = p v.
Proof. unfold slot_ok. by rewrite lookup_insert_eq. Qed.

Lemma layout_ok_empty : layout_ok ∅ = true.
Proof. reflexivity. Qed.

Lemma layout_ok_slots ss :
  layout_ok ss = true <->
  slot_ok (int_within 1 4) "columns" ss = true
  /\ slot_ok (int_within 5 25) "margin_mm" ss = true
  /\ slot_ok (int_within 4 20) "gap_mm" ss = true
  /\ slot_ok (int_within 9 16) "font_px" ss = true.
Proof. unfold layout_ok. rewrite !andb_true_iff. tauto. Qed.

(** A key that is not a slider's does not matter. *)
Lemma layout_ok_insert_other k v ss :
  dict_get k slider_bounds = None ->
  layout_ok (<[k := v]> ss) = layout_ok ss.
Proof.
  intros H. unfold layout_ok.
  assert (k <> "columns" /\ k <> "margin_mm" /\ k <> "gap_mm" /\ k <> "font_px")
    as (H1 & H2 & H3 & H4)
    by (repeat split; intros ->; vm_compute in H; discriminate).
  by rewrite !slot_ok_insert_ne.
Qed.

Lemma layout_ok_insert_slider k lo hi n ss :
  dict_get k slider_bounds = Some (lo, hi) ->
  lo <= n <= hi ->
  layout_ok ss = true ->
  layout_ok (<[k := VInt n]> ss) = true.
Proof.
  intros Hk Hn. rewrite !layout_ok_slots. intros (H1 & H2 & H3 & H4).
  assert (int_within lo hi (VInt n) = true) as Hw by (simpl; lia).
  simpl in Hk.
  repeat match type of Hk with
  | (if String.eqb k ?s then _ else _) = _ =>
      destruct (String.eqb_spec k s) as [->|?]
  end; simplify_eq;
  rewrite ?slot_ok_insert_eq, ?slot_ok_insert_ne by done; auto.
Qed.

Lemma apply_event_layout e ss ss' :
  layout_ok ss = true -> apply_event e ss = Some ss' -> layout_ok ss' = true.
Proof.
  intros Hok. destruct e as [index|key v|key b|s]; cbn [apply_event].
  - destruct (ORIENTATIONS !! index); intros; simplify_eq/=.
    by rewrite layout_ok_insert_other.
  - destruct (dict_get key slider_bounds) as [[lo hi]|] eqn:Hk; [|by intros; simplify_eq/=].
    cbn [mbind option_bind].
    destruct ((lo <=? v) && (v <=? hi)) eqn:Hb; intros; simplify_eq; [|done].
    apply (layout_ok_insert_slider key lo hi); [done | lia | done].
  - case_bool_decide as Hin; intros; simplify_eq.
    rewrite layout_ok_insert_other; [done|].
    set_unfold. destruct Hin as [->| [->|[]]]; reflexivity.
  - intros; simplify_eq. by rewrite layout_ok_insert_other.
Qed.

Lemma preset_button_layout clicked name ss ss' :
  layout_ok ss = true -> preset_button clicked name ss = Some ss' -> layout_ok ss' = true.
Proof.
  intros Hok. unfold preset_button. destruct clicked; [|intros; by simplify_eq].
  destruct (dict_get name PRESETS) as [p|] eqn:Hp; [|by intros; simplify_eq/=].
  cbn [mbind option_bind]. intros; simplify_eq.
  simpl in Hp.
  repeat match type of Hp with
  | (if String.eqb name ?s then _ else _) = _ =>
      destruct (String.eqb_spec name s) as [->|?]
  end; simplify_eq; cbn -[layout_ok];
  (rewrite layout_ok_insert_other by reflexivity);
  repeat (eapply layout_ok_insert_slider; [reflexivity | lia |]); done.
Qed.

Lemma presets_section_layout i ss ss' :
  layout_ok ss = true -> presets_section i ss = Some ss' -> layout_ok ss' = true.
Proof.
  intros Hok. unfold presets_section. intros H.
  destruct (preset_button (click_2up i) "2-up" ss) as [s1|] eqn:H1; [|discriminate].
  simpl in H.
  destruct (preset_button (click_3up i) "3-up" s1) as [s2|] eqn:H2; [|discriminate].
  simpl in H.
  eauto using preset_button_layout.
Qed.

Lemma layout_ok_slot k lo hi ss :
  dict_get k slider_bounds = Some (lo, hi) ->
  layout_ok ss = true ->
  slot_ok (int_within lo hi) k ss = true.
Proof.
  intros Hk. rewrite layout_ok_slots. intros (H1 & H2 & H3 & H4).
  simpl in Hk.
  repeat match type of Hk with
  | (if String.eqb k ?s then _ else _) = _ =>
      destruct (String.eqb_spec k s) as [->|?]
  end; by simplify_eq.
Qed.

Lemma slider_read lo hi d key ss v ss' :
  slider lo hi (session_get key (VInt d) ss) key ss = Some (v, ss') ->
  (ss !! key = Some (VInt v) /\ ss' = ss)
  \/ (ss !! key = None /\ v = d /\ ss' = <[key := VInt d]> ss).
Proof.
  unfold slider, session_get.
  destruct (ss !! key) as [[n|b|s]|]; simpl; try discriminate;
    destruct (js_int _ && js_int _); intros; simplify_eq; auto.
Qed.

Lemma slider_layout lo hi d key ss v ss' :
  dict_get key slider_bounds = Some (lo, hi) ->
  lo <= d <= hi ->
  layout_ok ss = true ->
  slider lo hi (session_get key (VInt d) ss) key ss = Some (v, ss') ->
  lo <= v <= hi /\ layout_ok ss' = true.
Proof.
  intros Hk Hd Hok Hs.
  destruct (slider_read _ _ _ _ _ _ _ Hs) as [[Hv ->]|(Hv & -> & ->)].
  - split; [|done].
    pose proof (layout_ok_slot _ _ _ _ Hk Hok) as Hslot.
    unfold slot_ok in Hslot. rewrite Hv in Hslot. simpl in Hslot. lia.
  - split; [done|]. by apply (layout_ok_insert_slider key lo hi).
Qed.

Lemma checkbox_layout v0 key ss b ss' :
  dict_get key slider_bounds = None ->
  layout_ok ss = true ->
  checkbox v0 key ss = Some (b, ss') ->
  layout_ok ss' = true.
Proof.
  intros Hk Hok. unfold checkbox.
  destruct (ss !! key) as [[n|c|s]|]; try discriminate.
  - intros; by simplify_eq.
  - destruct v0; intros; simplify_eq. by rewrite layout_ok_insert_other.
Qed.

Lemma selectbox_layout options index key ss v ss' :
  dict_get key slider_bounds = None ->
  layout_ok ss = true ->
  selectbox options index key ss = Some (v, ss') ->
  layout_ok ss' = true.
Proof.
  intros Hk Hok. unfold selectbox.
  destruct (ss !! key) as [[n|c|s]|]; try discriminate.
  - case_bool_decide; [intros; by simplify_eq|].
    destruct (options !! index); intros; simplify_eq/=.
    by rewrite layout_ok_insert_other.
  - destruct (options !! index); intros; simplify_eq/=.
    by rewrite layout_ok_insert_other.
Qed.

Lemma controls_section_layout i ss sc :
  layout_ok ss = true ->
  controls_section i ss = Some sc ->
  layout_bounds sc /\ layout_ok (session_state sc) = true.
Proof.
  intros Hok. unfold controls_section. intros H.
  destruct (selectbox ORIENTATIONS 0 "orientation" ss) as [[o s0]|] eqn:E0; [|discriminate].
  cbn [mbind option_bind] in H.
  destruct (slider 1 4 (session_get "columns" (VInt 2) s0) "columns" s0)
    as [[c s1]|] eqn:E1; [|discriminate].
  cbn [mbind option_bind] in H.
  destruct (slider 5 25 (session_get "margin_mm" (VInt 12) s1) "margin_mm" s1)
    as [[m s2]|] eqn:E2; [|discriminate].
  cbn [mbind option_bind] in H.
  destruct (slider 4 20 (session_get "gap_mm" (VInt 8) s2) "gap_mm" s2)
    as [[g s3]|] eqn:E3; [|discriminate].
  cbn [mbind option_bind] in H.
  destruct (slider 9 16 (session_get "font_px" (VInt 11) s3) "font_px" s3)
    as [[f s4]|] eqn:E4; [|discriminate].
  cbn [mbind option_bind] in H.
  destruct (checkbox (session_get "show_guides" (VBool true) s4) "show_guides" s4)
    as [[sg s5]|] eqn:E5; [|discriminate].
  cbn [mbind option_bind] in H.
  destruct (checkbox (VBool true) "show_print_button" s5) as [[sp s6]|] eqn:E6; [|discriminate].
  cbn [mbind option_bind] in H.
  destruct (selectbox_nokey (map fst TEMPLATES) 1 (template_choice i)) as [sel|]; [|discriminate].
  cbn [mbind option_bind] in H. simplify_eq.
  pose proof (selectbox_layout _ _ "orientation" _ _ _ eq_refl Hok E0) as H0.
  destruct (slider_layout 1 4 2 "columns" _ _ _ eq_refl ltac:(lia) H0 E1) as [B1 H1].
  destruct (slider_layout 5 25 12 "margin_mm" _ _ _ eq_refl ltac:(lia) H1 E2) as [B2 H2].
  destruct (slider_layout 4 20 8 "gap_mm" _ _ _ eq_refl ltac:(lia) H2 E3) as [B3 H3].
  destruct (slider_layout 9 16 11 "font_px" _ _ _ eq_refl ltac:(lia) H3 E4) as [B4 H4].
  pose proof (checkbox_layout _ "show_guides" _ _ _ eq_refl H4 E5) as H5.
  pose proof (checkbox_layout _ "show_print_button" _ _ _ eq_refl H5 E6) as H6.
  split; [|exact H6]. unfold layout_bounds; cbn. tauto.
Qed.

Lemma md_section_layout sc sc' :
  layout_ok (session_state sc) = true ->
  md_section sc = Some sc' ->
  layout_ok (session_state sc') = true.
Proof.
  intros Hok H.
  destruct (md_section_frame sc sc' H) as [_ Hs].
  revert Hok. rewrite !layout_ok_slots. unfold slot_ok.
  rewrite !Hs by done. tauto.
Qed.

Lemma run_layout i ss ss' out :
  layout_ok ss = true -> run i ss = Some (ss', out) -> layout_ok ss' = true.
Proof.
  intros Hok. unfold run. intros H.
  destruct (presets_section i ss) as [s1|] eqn:E1; [|discriminate].
  cbn [mbind option_bind] in H.
  destruct (controls_section i s1) as [sc|] eqn:E2; [|discriminate].
  cbn [mbind option_bind] in H.
  destruct (md_section sc) as [sc'|] eqn:E3; [|discriminate].
  cbn [mbind option_bind] in H.
  destruct (text_area "md" (session_state sc')) as [md0|]; [|discriminate].
  cbn [mbind option_bind] in H.
  destruct (sent md0) as [md|]; [|discriminate].
  cbn [mbind option_bind] in H.
  destruct (if click_download i then _ else _); [|discriminate].
  cbn [mbind option_bind] in H. simplify_eq.
  eapply md_section_layout; [|exact E3].
  eapply controls_section_layout; [|exact E2].
  eapply presets_section_layout; [exact Hok | exact E1].
Qed.

(** ** The script runs to its end *)

Lemma store_typed_empty : store_typed ∅.
Proof. intros k v H. by rewrite lookup_empty in H. Qed.

Lemma store_typed_insert k v ss :
  type_ok k v = true -> store_typed ss -> store_typed (<[k := v]> ss).
Proof.
  intros Hv Hss k' v'. rewrite lookup_insert.
  case_decide; [intros; by simplify_eq | apply Hss].
Qed.

Lemma preset_button_total clicked name ss :
  In name (map fst PRESETS) ->
  store_typed ss ->
  exists ss', preset_button clicked name ss = Some ss' /\ store_typed ss'.
Proof.
  intros Hn Hss. destruct clicked; [|by exists ss].
  simpl in Hn. destruct Hn as [<-|[<-|[<-|[]]]];
    (eexists; split; [reflexivity|]);
    cbn; repeat (apply store_typed_insert; [reflexivity|]); exact Hss.
Qed.

Lemma presets_section_total i ss :
  store_typed ss -> exists ss', presets_section i ss = Some ss' /\ store_typed ss'.
Proof.
  intros Hss. unfold presets_section.
  destruct (preset_button_total (click_2up i) "2-up" ss) as (s1 & -> & H1);
    [simpl; auto | done |].
  cbn [mbind option_bind].
  destruct (preset_button_total (click_3up i) "3-up" s1) as (s2 & -> & H2);
    [simpl; auto | done |].
  cbn [mbind option_bind]. apply preset_button_total; [simpl; auto | done].
Qed.

Lemma slider_total lo hi d key ss :
  dict_get key slider_bounds = Some (lo, hi) ->
  js_int lo = true -> js_int hi = true ->
  lo <= d <= hi ->
  type_ok key (VInt d) = true ->
  store_typed ss ->
  layout_ok ss = true ->
  exists n ss', slider lo hi (session_get key (VInt d) ss) key ss = Some (n, ss')
                /\ store_typed ss' /\ layout_ok ss' = true.
Proof.
  intros Hk Hlo Hhi Hd Hty Hss Hok. unfold slider, session_get.
  pose proof (layout_ok_slot _ _ _ _ Hk Hok) as Hslot. unfold slot_ok in Hslot.
  destruct (ss !! key) as [v|] eqn:E.
  - destruct v as [n|b|s]; simpl in Hslot; try discriminate. simpl.
    rewrite Z.min_r, Z.max_r, Hlo, Hhi by lia. by exists n, ss.
  - simpl. rewrite Z.min_r, Z.max_r, Hlo, Hhi by lia.
    exists d, (<[key := VInt d]> ss). split; [done|].
    split; [by apply store_typed_insert|].
    by apply (layout_ok_insert_slider key lo hi).
Qed.

Lemma checkbox_total (b0 : bool) v0 key ss :
  (ss !! key = None -> v0 = VBool b0) ->
  type_ok key (VBool b0) = true ->
  (forall v, type_ok key v = true -> exists b, v = VBool b) ->
  store_typed ss ->
  exists b ss', checkbox v0 key ss = Some (b, ss') /\ store_typed ss'.
Proof.
  intros H0 Hd Hk Hss. unfold checkbox.
  destruct (ss !! key) as [v|] eqn:E.
  - destruct (Hk v (Hss _ _ E)) as [b ->]. by exists b, ss.
  - rewrite (H0 eq_refl). exists b0, (<[key := VBool b0]> ss).
    split; [done|]. by apply store_typed_insert.
Qed.

Lemma selectbox_total options index key ss o :
  options !! index = Some o ->
  type_ok key (VStr o) = true ->
  (forall v, type_ok key v = true -> exists s, v = VStr s) ->
  store_typed ss ->
  exists s ss', selectbox options index key ss = Some (s, ss') /\ store_typed ss'.
Proof.
  intros Ho Hd Hk Hss. unfold selectbox.
  destruct (ss !! key) as [v|] eqn:E.
  - destruct (Hk v (Hss _ _ E)) as [s ->]. case_bool_decide; [by exists s, ss|].
    rewrite Ho. cbn. exists o, (<[key := VStr o]> ss).
    split; [done|]. by apply store_typed_insert.
  - rewrite Ho. cbn. exists o, (<[key := VStr o]> ss).
    split; [done|]. by apply store_typed_insert.
Qed.

Ltac typed_key := intros [?|?|?]; cbn; intros; first [discriminate | eauto].

Lemma controls_section_total i ss :
  store_typed ss ->
  layout_ok ss = true ->
  is_Some (selectbox_nokey (map fst TEMPLATES) 1 (template_choice i)) ->
  exists sc, controls_section i ss = Some sc
             /\ store_typed (session_state sc)
             /\ In (selected_template sc) (map fst TEMPLATES).
Proof.
  intros H Hok [sel Hsel]. unfold controls_section.
  destruct (selectbox_total ORIENTATIONS 0 "orientation" ss (lit "portrait"))
    as (o & s0 & E0 & H0); [reflexivity | reflexivity | typed_key | done |].
  pose proof (selectbox_layout _ _ "orientation" _ _ _ eq_refl Hok E0) as L0.
  rewrite E0. cbn [mbind option_bind].
  destruct (slider_total 1 4 2 "columns" s0) as (c & s1 & -> & H1 & L1);
    [reflexivity | reflexivity | reflexivity | lia | reflexivity | done | done |].
  cbn [mbind option_bind].
  destruct (slider_total 5 25 12 "margin_mm" s1) as (m & s2 & -> & H2 & L2);
    [reflexivity | reflexivity | reflexivity | lia | reflexivity | done | done |].
  cbn [mbind option_bind].
  destruct (slider_total 4 20 8 "gap_mm" s2) as (g & s3 & -> & H3 & L3);
    [reflexivity | reflexivity | reflexivity | lia | reflexivity | done | done |].
  cbn [mbind option_bind].
  destruct (slider_total 9 16 11 "font_px" s3) as (f & s4 & -> & H4 & L4);
    [reflexivity | reflexivity | reflexivity | lia | reflexivity | done | done |].
  cbn [mbind option_bind].
  destruct (checkbox_total true (session_get "show_guides" (VBool true) s4) "show_guides" s4)
    as (sg & s5 & -> & H5);
    [by intros E; unfold session_get; rewrite E | reflexivity | typed_key | done |].
  cbn [mbind option_bind].
  destruct (checkbox_total true (VBool true) "show_print_button" s5)
    as (sp & s6 & -> & H6); [done | reflexivity | typed_key | done |].
  cbn [mbind option_bind]. rewrite Hsel. cbn [mbind option_bind].
  eexists. split; [reflexivity|]. split; [exact H6|]. cbn [selected_template].
  unfold selectbox_nokey in Hsel. destruct (template_choice i) as [ch|].
  - case_bool_decide as Hin; [|discriminate]. simplify_eq.
    by apply list_elem_of_In.
  - cbn in Hsel. simplify_eq. cbn. auto.
Qed.

Lemma dict_get_In {A} k (d : list (string * A)) :
  In k (map fst d) -> is_Some (dict_get k d).
Proof.
  induction d as [|[k' v] d IH]; [done|]. cbn.
  destruct (String.eqb_spec k k'); [eauto|]. intros [?|?]; [congruence | auto].
Qed.

Lemma md_section_total sc :
  store_typed (session_state sc) ->
  In (selected_template sc) (map fst TEMPLATES) ->
  exists sc' md, md_section sc = Some sc'
                 /\ store_typed (session_state sc')
                 /\ text_area "md" (session_state sc') = Some md.
Proof.
  intros Hss Hsel. destruct (dict_get_In _ _ Hsel) as [t Ht].
  assert (exists prior, session_state (init_md sc) !! "md" = Some (VStr prior)
                        /\ store_typed (session_state (init_md sc))) as (prior & Hp & Hty).
  { unfold init_md. destruct (session_state sc !! "md") as [v|] eqn:E.
    - pose proof (Hss _ _ E) as Hv. destruct v; try discriminate. eauto.
    - exists default_md. cbn. split; [by simplify_map_eq|].
      by apply store_typed_insert. }
  destruct (init_md_flags sc) as (Hr & Ha & Hs).
  unfold md_section, load_step. rewrite Hr, Ha, Hs, Ht, Hp. cbn [mbind option_bind].
  destruct (load_replace sc); [|destruct (load_append sc)].
  - eexists _, t. split; [reflexivity|]. cbn.
    split; [|unfold text_area; by simplify_map_eq].
    by apply store_typed_insert.
  - eexists _, _. split; [reflexivity|]. cbn.
    split; [|unfold text_area; by simplify_map_eq].
    by apply store_typed_insert.
  - exists (init_md sc), prior. split; [reflexivity|]. split; [done|].
    unfold text_area. by rewrite Hp.
Qed.

Lemma move_slider_applies key lo hi v ss :
  dict_get key slider_bounds = Some (lo, hi) ->
  lo <= v <= hi ->
  apply_event (MoveSlider key v) ss = Some (<[key := VInt v]> ss).
Proof.
  intros Hk Hv. cbn [apply_event]. rewrite Hk. cbn [mbind option_bind].
  destruct (Z.leb_spec lo v); [|lia]. destruct (Z.leb_spec v hi); [|lia]. reflexivity.
Qed.

Lemma presets_section_Some i ss : is_Some (presets_section i ss).
Proof.
  unfold presets_section, preset_button.
  destruct (click_2up i), (click_3up i), (click_4up i); cbn; eauto.
Qed.

(** C7: every operation that changes the layout configuration keeps columns
    in [1,4], margin in [5,25], gap in [4,20] and font size in [9,16]: a value
    sent by one of the bounded controls (a slider sends any value within its
    bounds, and only those), a preset applied in bulk, and a whole run of the
    script; the values the assembler then reads are within the same bounds.
    The empty store of a new session satisfies them. *)
Theorem layout_invariants_preserved :
  layout_ok ∅ = true
  /\ forall ss : gmap string value,
       layout_ok ss = true ->
       (forall key lo hi v,
           dict_get key slider_bounds = Some (lo, hi) -> lo <= v <= hi ->
           exists ss', apply_event (MoveSlider key v) ss = Some ss'
                       /\ layout_ok ss' = true)
       /\ (forall e ss', apply_event e ss = Some ss' -> layout_ok ss' = true)
       /\ (forall i, exists ss', presets_section i ss = Some ss'
                                 /\ layout_ok ss' = true)
       /\ (forall i sc, controls_section i ss = Some sc ->
             layout_bounds sc /\ layout_ok (session_state sc) = true)
       /\ (forall i ss' out, run i ss = Some (ss', out) -> layout_ok ss' = true).
Proof.
  split; [reflexivity|]. intros ss Hok.
  split; [|split; [|split; [|split]]].
  - intros key lo hi v Hk Hv. eexists. split; [by apply (move_slider_applies key lo hi)|].
    by apply (layout_ok_insert_slider key lo hi).
  - intros e ss'. by apply apply_event_layout.
  - intros i. destruct (presets_section_Some i ss) as [ss' Hp].
    exists ss'. split; [exact Hp|]. by apply (presets_section_layout i ss).
  - intros i sc. by apply controls_section_layout.
  - intros i ss' out. by apply run_layout.
Qed.

Lemma layout_invariants_preserved_witness :
  layout_ok (<["columns" := VInt 4]> ∅) = true
  /\ exists ss',
       apply_event (MoveSlider "gap_mm" 20) (<["columns" := VInt 4]> ∅) = Some ss'
       /\ layout_ok ss' = true.
Proof.
  assert (layout_ok (<["columns" := VInt 4]> ∅) = true) as Hok by reflexivity.
  split; [exact Hok|].
  apply (proj1 (proj2 layout_invariants_preserved (<["columns" := VInt 4]> ∅) Hok)
           "gap_mm" 4 20 20); [reflexivity | lia].
Defined.

(** ** The template, in three parts *)

Lemma html_lines_parts pw ph m g f c o rule js :
  html_lines pw ph m g f c o rule js
  = head_lines ++ [[T "  <style>"]] ++ style_lines pw ph m g f c o rule
    ++ [[T "  </style>"]] ++ body_lines c o js.
Proof. reflexivity. Qed.

(** ** Searching a text *)

Section Search.
Implicit Types pat p s a x r : list Z.

Lemma strip_prefix_app p s r x :
  strip_prefix p s = Some r -> strip_prefix p (s ++ x) = Some (r ++ x).
Proof.
  revert s. induction p as [|c p IH]; intros [|d s]; simpl; try discriminate.
  - intros; by simplify_eq.
  - intros; by simplify_eq.
  - destruct (c =? d); [apply IH | discriminate].
Qed.

Lemma strip_prefix_self p x : strip_prefix p (p ++ x) = Some x.
Proof. induction p as [|c p IH]; simpl; [done|]. by rewrite Z.eqb_refl. Qed.

Lemma strip_prefix_Some p s r : strip_prefix p s = Some r -> s = p ++ r.
Proof.
  revert s. induction p as [|c p IH]; intros [|d s]; simpl; try discriminate.
  - intros; by simplify_eq.
  - intros; by simplify_eq.
  - destruct (Z.eqb_spec c d) as [->|]; [|discriminate].
    intros H. by rewrite (IH _ H).
Qed.

Lemma mismatch_strip p a x : mismatch p a = true -> strip_prefix p (a ++ x) = None.
Proof.
  revert a. induction p as [|c p IH]; intros [|d a]; simpl; try discriminate.
  destruct (c =? d); [apply IH | done].
Qed.

Lemma find_after_skip pat a x :
  no_start pat a = true -> find_after pat (a ++ x) = find_after pat x.
Proof.
  induction a as [|c a IH]; [done|]. cbn [no_start].
  intros [Hm Hn]%andb_true_iff.
  change ((c :: a) ++ x) with (c :: (a ++ x)). cbn [find_after].
  change (c :: (a ++ x)) with ((c :: a) ++ x).
  rewrite (mismatch_strip _ _ _ Hm). by apply IH.
Qed.

Lemma find_after_here pat x : find_after pat (pat ++ x) = Some x.
Proof.
  destruct (pat ++ x) eqn:E; cbn [find_after]; rewrite <- E;
    by rewrite strip_prefix_self.
Qed.

Lemma before_skip pat a x :
  no_start pat a = true -> before pat (a ++ x) = (a ++.) <$> before pat x.
Proof.
  induction a as [|c a IH].
  - intros _. simpl. by destruct (before pat x).
  - cbn [no_start]. intros [Hm Hn]%andb_true_iff.
    change ((c :: a) ++ x) with (c :: (a ++ x)). cbn [before].
    change (c :: (a ++ x)) with ((c :: a) ++ x).
    rewrite (mismatch_strip _ _ _ Hm), (IH Hn).
    by destruct (before pat x).
Qed.

Lemma before_here pat x : before pat (pat ++ x) = Some [].
Proof.
  destruct (pat ++ x) eqn:E; cbn [before]; rewrite <- E;
    by rewrite strip_prefix_self.
Qed.

Lemma mismatch_app p a x : mismatch p a = true -> mismatch p (a ++ x) = true.
Proof.
  revert a. induction p as [|c p IH]; intros [|d a]; simpl; try discriminate.
  destruct (c =? d); [apply IH | done].
Qed.

Lemma no_start_app pat a b :
  no_start pat a = true -> no_start pat b = true -> no_start pat (a ++ b) = true.
Proof.
  intros Ha Hb. induction a as [|c a IH]; [done|].
  cbn [no_start] in Ha. apply andb_true_iff in Ha as [Hm Hn].
  change ((c :: a) ++ b) with (c :: (a ++ b)). cbn [no_start].
  change (c :: (a ++ b)) with ((c :: a) ++ b).
  rewrite (mismatch_app _ _ _ Hm). by apply IH.
Qed.

(** A text none of whose characters is the first of [pat]. *)
Lemma no_start_other c pat a :
  Forall (fun d => d <> c) a -> no_start (c :: pat) a = true.
Proof.
  induction 1 as [|d a Hd _ IH]; [done|]. cbn [no_start mismatch].
  destruct (Z.eqb_spec c d); [congruence|]. exact IH.
Qed.

Lemma take_until_skip c a x :
  Forall (fun d => d <> c) a -> take_until c (a ++ x) = a ++ take_until c x.
Proof.
  induction 1 as [|d a Hd _ IH]; [done|]. simpl.
  destruct (Z.eqb_spec d c); [congruence|]. by rewrite IH.
Qed.

Lemma take_until_here c x : take_until c (c :: x) = [].
Proof. simpl. by rewrite Z.eqb_refl. Qed.

Lemma contains_here p x : contains p (p ++ x) = true.
Proof. unfold contains. by rewrite find_after_here. Qed.

Lemma contains_cons p c s : contains p s = true -> contains p (c :: s) = true.
Proof.
  unfold contains. cbn [find_after].
  destruct (strip_prefix p (c :: s)); [done|]. done.
Qed.

Lemma contains_app_r p a s : contains p s = true -> contains p (a ++ s) = true.
Proof. intros H. induction a as [|c a IH]; [done|]. by apply contains_cons. Qed.

Lemma contains_app_l p s x : contains p s = true -> contains p (s ++ x) = true.
Proof.
  unfold contains. induction s as [|c s IH].
  - simpl. destruct p; [|discriminate]. intros _. by destruct x.
  - cbn [find_after]. destruct (strip_prefix p (c :: s)) eqn:E.
    + intros _. change ((c :: s) ++ x) with (c :: (s ++ x)). cbn [find_after].
      change (c :: (s ++ x)) with ((c :: s) ++ x).
      by rewrite (strip_prefix_app _ _ _ x E).
    + intros H. specialize (IH H).
      change ((c :: s) ++ x) with (c :: (s ++ x)). cbn [find_after].
      destruct (strip_prefix p (c :: s ++ x)); [done|]. exact IH.
Qed.

Lemma contains_infix p u v : contains p (u ++ p ++ v) = true.
Proof. apply contains_app_r, contains_here. Qed.
End Search.

(** ** Characters of the rendered template *)

Lemma lit_app s1 s2 : lit (s1 ++ s2)%string = lit s1 ++ lit s2.
Proof.
  unfold lit. induction s1 as [|a s1 IH]; [done|]. simpl. by rewrite IH.
Qed.

Lemma unlines_app l1 l2 : unlines (l1 ++ l2) = unlines l1 ++ unlines l2.
Proof. unfold unlines. apply flat_map_app. Qed.

Lemma unlines_cons l ls : unlines (l :: ls) = render_line l ++ [10] ++ unlines ls.
Proof. unfold unlines. simpl. by rewrite <- app_assoc. Qed.

Lemma render_line_cons p l : render_line (p :: l) = render_piece p ++ render_line l.
Proof. reflexivity. Qed.

Section Characters.
Variable P : Z -> bool.

Lemma render_line_all l :
  forallb (piece_all P) l = true -> forallb P (render_line l) = true.
Proof.
  induction l as [|p l IH]; [done|]. cbn [forallb].
  intros [Hp Hl]%andb_true_iff. rewrite render_line_cons, forallb_app.
  unfold piece_all in Hp. rewrite Hp. by apply IH.
Qed.

Lemma unlines_all ls :
  P 10 = true ->
  forallb (fun l => forallb (piece_all P) l) ls = true ->
  forallb P (unlines ls) = true.
Proof.
  intros Hnl. induction ls as [|l ls IH]; [done|]. cbn [forallb].
  intros [Hl Hls]%andb_true_iff.
  rewrite unlines_cons, !forallb_app, (render_line_all _ Hl), (IH Hls).
  simpl. by rewrite Hnl.
Qed.
End Characters.

Lemma uint_codes_digits d : forallb is_digit (uint_codes d) = true.
Proof. induction d; simpl; auto. Qed.

Lemma str_int_digits n : 0 <= n -> forallb is_digit (str_int n) = true.
Proof.
  intros Hn. unfold str_int. destruct n; simpl; try apply uint_codes_digits; lia.
Qed.

Lemma forallb_impl (P Q : Z -> bool) l :
  (forall c, P c = true -> Q c = true) -> forallb P l = true -> forallb Q l = true.
Proof.
  intros HPQ. induction l as [|c l IH]; [done|]. simpl.
  intros [Hc Hl]%andb_true_iff. rewrite (HPQ _ Hc). by apply IH.
Qed.

Lemma forallb_Forall_ne (c : Z) l :
  forallb (fun d => negb (d =? c)) l = true -> Forall (fun d => d <> c) l.
Proof.
  induction l as [|d l IH]; [constructor|]. simpl.
  intros [Hd Hl]%andb_true_iff. constructor; [|by apply IH].
  destruct (Z.eqb_spec d c); [discriminate | done].
Qed.

Lemma find_after_length pat s r : find_after pat s = Some r -> (length pat <= length s)%nat.
Proof.
  induction s as [|c s IH]; cbn [find_after].
  - destruct (strip_prefix pat []) eqn:E; [|discriminate].
    apply strip_prefix_Some in E. destruct pat; [simpl; lia | discriminate].
  - destruct (strip_prefix pat (c :: s)) eqn:E.
    + intros _. apply strip_prefix_Some in E.
      rewrite E, length_app. lia.
    + intros H. specialize (IH H). simpl. lia.
Qed.

Lemma strip_prefix_None_app p s x :
  strip_prefix p s = None -> (length p <= length s)%nat -> strip_prefix p (s ++ x) = None.
Proof.
  revert s. induction p as [|c p IH]; intros [|d s]; simpl; try discriminate; try lia.
  destruct (c =? d); [|done]. intros H Hl. apply IH; [done | lia].
Qed.

(** Found in a text, found at the same place in any extension of it. *)
Lemma find_after_app pat s r x :
  find_after pat s = Some r -> find_after pat (s ++ x) = Some (r ++ x).
Proof.
  induction s as [|c s IH]; cbn [find_after].
  - destruct (strip_prefix pat []) eqn:E; [|discriminate].
    intros; simplify_eq. pose proof (strip_prefix_Some _ _ _ E) as Hp.
    destruct pat; [|discriminate]. simpl in *. simplify_eq.
    destruct x; reflexivity.
  - destruct (strip_prefix pat (c :: s)) eqn:E.
    + intros; simplify_eq.
      change ((c :: s) ++ x) with (c :: (s ++ x)). cbn [find_after].
      change (c :: (s ++ x)) with ((c :: s) ++ x).
      by rewrite (strip_prefix_app _ _ _ x E).
    + intros H.
      change ((c :: s) ++ x) with (c :: (s ++ x)). cbn [find_after].
      change (c :: (s ++ x)) with ((c :: s) ++ x).
      rewrite (strip_prefix_None_app _ _ x E); [by apply IH|].
      apply find_after_length in H. simpl. lia.
Qed.

(** ** Walking the lines of the template *)

Section Lines.
Variable pat : list Z.

Lemma unlines_piece p l ls x :
  unlines ((p :: l) :: ls) ++ x = render_piece p ++ (unlines (l :: ls) ++ x).
Proof. rewrite !unlines_cons, render_line_cons, <- !app_assoc. reflexivity. Qed.

Lemma unlines_newline ls x : unlines ([] :: ls) ++ x = 10 :: (unlines ls ++ x).
Proof. reflexivity. Qed.

Lemma find_skip_piece p l ls x R :
  no_start pat (render_piece p) = true ->
  find_after pat (unlines (l :: ls) ++ x) = R ->
  find_after pat (unlines ((p :: l) :: ls) ++ x) = R.
Proof. intros Hn <-. rewrite unlines_piece. by apply find_after_skip. Qed.

Lemma find_skip_newline ls x R :
  no_start pat [10] = true ->
  find_after pat (unlines ls ++ x) = R ->
  find_after pat (unlines ([] :: ls) ++ x) = R.
Proof. intros Hn <-. rewrite unlines_newline. by apply (find_after_skip pat [10]). Qed.

Lemma find_hit_piece p l ls x :
  find_after pat (render_piece p) = Some [] ->
  find_after pat (unlines ((p :: l) :: ls) ++ x) = Some (unlines (l :: ls) ++ x).
Proof. intros H. rewrite unlines_piece. apply (find_after_app _ _ _ _ H). Qed.

End Lines.

Lemma no_start_find pat s :
  pat <> [] -> no_start pat s = true -> find_after pat s = None.
Proof.
  intros Hp H. rewrite <- (app_nil_r s), (find_after_skip _ _ _ H).
  destruct pat; [done|]. reflexivity.
Qed.

(** Decimal digits never start one of the patterns looked for. *)
Lemma no_start_digits c pat a :
  is_digit c = false -> forallb is_digit a = true -> no_start (c :: pat) a = true.
Proof.
  intros Hc Ha. apply no_start_other.
  induction a as [|d a IH]; [constructor|]. simpl in Ha.
  apply andb_true_iff in Ha as [Hd Ha]. constructor; [|by apply IH].
  intros ->. congruence.
Qed.

Lemma str_int_chars n :
  forallb (fun c => is_digit c || (c =? 45)) (str_int n) = true.
Proof.
  unfold str_int. destruct (Z.to_int n) as [d|d]; simpl;
    (eapply forallb_impl; [|apply uint_codes_digits]);
    intros c ->; reflexivity.
Qed.

Lemma str_int_all (P : Z -> bool) n :
  (forall c, is_digit c || (c =? 45) = true -> P c = true) ->
  forallb P (str_int n) = true.
Proof. intros H. eapply forallb_impl; [exact H | apply str_int_chars]. Qed.

Lemma digit_or_minus_ne c d :
  is_digit d || (d =? 45) = false -> is_digit c || (c =? 45) = true -> negb (c =? d) = true.
Proof.
  intros Hd Hc. destruct (Z.eqb_spec c d) as [->|]; [congruence | reflexivity].
Qed.

Lemma html_template_parts pw ph m g f c o rule js :
  html_template pw ph m g f c o rule js
  = (unlines head_lines ++ lit "  ") ++ lit "<style>"
    ++ ([10] ++ unlines (style_lines pw ph m g f c o rule) ++ lit "  ")
    ++ lit "</style>" ++ [10] ++ unlines (body_lines c o js).
Proof.
  unfold html_template. rewrite html_lines_parts, !unlines_app.
  change (unlines [[T "  <style>"]]) with (lit "  " ++ lit "<style>" ++ [10]).
  change (unlines [[T "  </style>"]]) with (lit "  " ++ lit "</style>" ++ [10]).
  rewrite <- !app_assoc. reflexivity.
Qed.

Ltac split_all :=
  repeat match goal with
  | |- _ && _ = true => apply andb_true_intro; split
  end.

Lemma style_no_lt pw ph m g f c o rule :
  forallb (fun d => negb (d =? 60)) o = true ->
  forallb (fun d => negb (d =? 60)) rule = true ->
  forallb (fun d => negb (d =? 60))
    (10 :: unlines (style_lines pw ph m g f c o rule) ++ lit "  ") = true.
Proof.
  intros Ho Hr.
  change (10 :: unlines (style_lines pw ph m g f c o rule) ++ lit "  ")
    with ([10] ++ unlines (style_lines pw ph m g f c o rule) ++ lit "  ").
  rewrite !forallb_app. split_all; [reflexivity| |reflexivity].
  apply unlines_all; [reflexivity|].
  unfold style_lines, html_lines. cbn [firstn skipn forallb]. unfold piece_all.
  cbn [render_piece].
  split_all; try assumption;
    try (apply str_int_all; intros d; apply digit_or_minus_ne; reflexivity);
    try (vm_compute; reflexivity).
Qed.

Lemma orientation_cases o : In o ORIENTATIONS -> o = lit "portrait" \/ o = lit "landscape".
Proof. simpl. intuition. Qed.

Lemma doc_style_text o c m g f sg md :
  In o ORIENTATIONS ->
  Css.style_text (html_doc o c m g f sg md)
  = Some ([10] ++ unlines (style_lines (page_w o) (page_h o) m g f c o (rule_css sg))
          ++ lit "  ").
Proof.
  intros Ho. unfold html_doc, Css.style_text. rewrite html_template_parts.
  rewrite find_after_skip by (vm_compute; reflexivity).
  rewrite find_after_here. cbn [mbind option_bind].
  rewrite before_skip, before_here; [simpl; by rewrite app_nil_r|].
  change (lit "</style>") with (60 :: lit "/style>").
  apply no_start_other, forallb_Forall_ne, style_no_lt.
  - destruct (orientation_cases o Ho) as [-> | ->]; vm_compute; reflexivity.
  - destruct sg; vm_compute; reflexivity.
Qed.

Ltac solve_no_start :=
  lazymatch goal with
  | |- no_start _ (render_piece (F (str_int _))) = true =>
      cbn [render_piece]; apply no_start_digits;
      [reflexivity | apply str_int_digits; first [lia | by vm_compute]]
  | |- _ => vm_compute; reflexivity
  end.

Ltac find_walk :=
  repeat first
    [ apply find_skip_newline; [vm_compute; reflexivity|]
    | apply find_skip_piece; [solve_no_start|] ].


Ltac declared_tac v tail :=
  unfold Css.declared;
  match goal with |- context [find_after (lit ?n ++ lit ?k) _] =>
    let p := eval vm_compute in (lit n ++ lit k) in
    change (lit n ++ lit k) with p
  end;
  rewrite (find_after_skip _ [10]) by (vm_compute; reflexivity);
  unfold style_lines, html_lines; cbn [firstn skipn];
  match goal with |- ?a ≫= _ = _ =>
    assert (exists rest, a = Some (str_int v ++ lit tail ++ rest)) as [rest ->]
  end;
  [ eexists; etransitivity;
    [ find_walk; apply find_hit_piece; vm_compute; reflexivity
    | rewrite !unlines_piece; cbn [render_piece]; reflexivity ]
  | cbn [mbind option_bind];
    rewrite take_until_skip
      by (apply forallb_Forall_ne, str_int_all; intros d; apply digit_or_minus_ne; reflexivity);
    reflexivity ].

Section Declarations.
Variables (pw ph m g f c : Z) (o rule x : list Z).
Hypotheses (Hpw : 0 <= pw) (Hph : 0 <= ph) (Hm : 0 <= m) (Hg : 0 <= g)
  (Hf : 0 <= f) (Hc : 0 <= c).

Lemma declared_page_w :
  Css.declared "--page-w-mm" ([10] ++ unlines (style_lines pw ph m g f c o rule) ++ x)
  = Some (str_int pw ++ lit "mm").
Proof. declared_tac pw "mm;". Qed.

Lemma declared_page_h :
  Css.declared "--page-h-mm" ([10] ++ unlines (style_lines pw ph m g f c o rule) ++ x)
  = Some (str_int ph ++ lit "mm").
Proof. declared_tac ph "mm;". Qed.

Lemma declared_margin :
  Css.declared "--margin-mm" ([10] ++ unlines (style_lines pw ph m g f c o rule) ++ x)
  = Some (str_int m ++ lit "mm").
Proof. declared_tac m "mm;". Qed.

Lemma declared_gap :
  Css.declared "--gap-mm" ([10] ++ unlines (style_lines pw ph m g f c o rule) ++ x)
  = Some (str_int g ++ lit "mm").
Proof. declared_tac g "mm;". Qed.

Lemma declared_font :
  Css.declared "--font-px" ([10] ++ unlines (style_lines pw ph m g f c o rule) ++ x)
  = Some (str_int f ++ lit "px").
Proof. declared_tac f "px;". Qed.

Lemma declared_cols :
  Css.declared "--cols" ([10] ++ unlines (style_lines pw ph m g f c o rule) ++ x)
  = Some (str_int c ++ []).
Proof. declared_tac c ";". Qed.
End Declarations.

Lemma read_uint_codes d r :
  match r with c :: _ => Css.digit c = None | [] => True end ->
  Css.read_uint (uint_codes d ++ r) = (d, r).
Proof.
  intros Hr. induction d; simpl; rewrite ?IHd; try reflexivity.
  destruct r as [|c r]; [reflexivity|]. simpl. by rewrite Hr.
Qed.

Lemma number_of_declared name css v unit :
  Css.declared name css = Some (str_int v ++ unit) ->
  0 < v ->
  match unit with c :: _ => Css.digit c = None | [] => True end ->
  Css.number name css = Some (v, unit).
Proof.
  intros Hd Hv Hu. unfold Css.number. rewrite Hd. cbn [mbind option_bind].
  destruct v as [|p|p]; try lia. unfold str_int. cbn [Z.to_int].
  rewrite (read_uint_codes _ _ Hu).
  assert (Z.of_uint (Pos.to_uint p) = Z.pos p) as Hz.
  { unfold Z.of_uint. by rewrite DecimalPos.Unsigned.of_to. }
  pose proof (DecimalPos.Unsigned.to_uint_nonnil p) as Hn.
  destruct (Pos.to_uint p); [done|..]; by rewrite Hz.
Qed.

(** The page dimensions chosen from the orientation are the ones the style
    declares. *)
Lemma page_dimensions_declared (sc : scope) (md : list Z) :
  In (orientation sc) ORIENTATIONS ->
  exists css,
    Css.style_text (assemble sc md) = Some css
    /\ Css.number "--page-w-mm" css = Some (page_w (orientation sc), lit "mm")
    /\ Css.number "--page-h-mm" css = Some (page_h (orientation sc), lit "mm").
Proof.
  intros Ho. unfold assemble. eexists. split; [by apply doc_style_text|].
  assert (0 < page_w (orientation sc) /\ 0 < page_h (orientation sc)) as [Hw Hh].
  { unfold page_w, page_h, A4_W, A4_H.
    destruct (str_eqb (orientation sc) (lit "portrait")); lia. }
  split; apply number_of_declared; try lia; try reflexivity.
  - apply declared_page_w; lia.
  - apply declared_page_h; lia.
Qed.

(** C2: for every valid configuration (columns in [1,4], margin in [5,25],
    gap in [4,20], font in [9,16]) the style of the assembled document
    declares --margin-mm, --gap-mm, --font-px and --cols with exactly the
    configuration's values: reading the numbers back gives them again. *)
Theorem style_values_round_trip (sc : scope) (md : list Z) :
  layout_bounds sc ->
  In (orientation sc) ORIENTATIONS ->
  exists css,
    Css.style_text (assemble sc md) = Some css
    /\ Css.number "--margin-mm" css = Some (margin_mm sc, lit "mm")
    /\ Css.number "--gap-mm" css = Some (gap_mm sc, lit "mm")
    /\ Css.number "--font-px" css = Some (font_px sc, lit "px")
    /\ Css.number "--cols" css = Some (columns sc, []).
Proof.
  intros (Hc & Hm & Hg & Hf) Ho. unfold assemble.
  eexists. split; [by apply doc_style_text|].
  assert (0 <= page_w (orientation sc) /\ 0 <= page_h (orientation sc)) as [Hw Hh].
  { unfold page_w, page_h, A4_W, A4_H.
    destruct (str_eqb (orientation sc) (lit "portrait")); lia. }
  repeat split; apply number_of_declared; try lia; try exact I; try reflexivity.
  - apply declared_margin; lia.
  - apply declared_gap; lia.
  - apply declared_font; lia.
  - apply declared_cols; lia.
Qed.

Lemma style_values_round_trip_witness :
  exists css,
    Css.style_text (assemble (sample_scope ∅ "Blank" false false) default_md) = Some css
    /\ Css.number "--margin-mm" css = Some (12, lit "mm")
    /\ Css.number "--gap-mm" css = Some (8, lit "mm")
    /\ Css.number "--font-px" css = Some (11, lit "px")
    /\ Css.number "--cols" css = Some (2, []).
Proof.
  apply (style_values_round_trip (sample_scope ∅ "Blank" false false) default_md).
  - unfold layout_bounds. simpl. lia.
  - simpl. auto.
Defined.

(** ** Whole-template checks by evaluation *)

Lemma contains_line p (ls : list (list piece)) (k : nat) line x :
  ls !! k = Some line ->
  contains p (render_line line) = true ->
  contains p (unlines ls ++ x) = true.
Proof.
  intros Hk Hc. rewrite <- (take_drop_middle ls k line Hk).
  rewrite unlines_app, unlines_cons, <- !app_assoc.
  apply contains_app_r. by apply contains_app_l.
Qed.

Lemma line_declaration (indent name tail : string) (v : list Z) :
  contains (lit name ++ v ++ lit tail)
    (render_line [T (indent ++ name); F v; T tail]) = true.
Proof.
  unfold render_line. cbn [flat_map render_piece]. rewrite lit_app, app_nil_r, <- !app_assoc.
  apply contains_app_r.
  rewrite <- (app_nil_r (lit tail)) at 2.
  rewrite (app_assoc v (lit tail)), (app_assoc (lit name) (v ++ lit tail)).
  apply contains_here.
Qed.

Lemma line_field (a b : string) (v : list Z) :
  contains v (render_line [T a; F v; T b]) = true.
Proof. unfold render_line. cbn [flat_map render_piece]. apply contains_infix. Qed.

Lemma no_start_line pat l :
  forallb (fun p => no_start pat (render_piece p)) l = true ->
  no_start pat [10] = true ->
  no_start pat (render_line l ++ [10]) = true.
Proof.
  intros Hl Hn. induction l as [|p l IH]; [exact Hn|].
  cbn [forallb] in Hl. apply andb_true_iff in Hl as [Hp Hl].
  rewrite render_line_cons, <- app_assoc. apply no_start_app; [done | by apply IH].
Qed.

Lemma no_start_unlines pat ls :
  no_start pat [10] = true ->
  forallb (fun l => forallb (fun p => no_start pat (render_piece p)) l) ls = true ->
  no_start pat (unlines ls) = true.
Proof.
  intros Hn. induction ls as [|l ls IH]; [done|]. cbn [forallb].
  intros [Hl Hls]%andb_true_iff. rewrite unlines_cons, app_assoc.
  apply no_start_app; [by apply no_start_line | by apply IH].
Qed.

(** A number never begins a pattern that starts with a letter. *)
Lemma no_start_str_int c pat n :
  is_digit c || (c =? 45) = false -> no_start (c :: pat) (str_int n) = true.
Proof.
  intros Hc. apply no_start_other, forallb_Forall_ne, str_int_all.
  intros d. by apply digit_or_minus_ne.
Qed.

Lemma style_lacks_other_rule pw ph m g f c o sg :
  In o ORIENTATIONS ->
  contains (rule_css (negb sg))
    ([10] ++ unlines (style_lines pw ph m g f c o (rule_css sg)) ++ lit "  ") = false.
Proof.
  intros Ho. unfold contains. rewrite no_start_find; [done | by destruct sg |].
  apply (no_start_app _ [10]); [by destruct sg|].
  apply no_start_app; [|by destruct sg].
  apply no_start_unlines; [by destruct sg|].
  unfold style_lines, html_lines; cbn [firstn skipn forallb render_piece].
  destruct (orientation_cases o Ho) as [-> | ->]; destruct sg.
  all: match goal with |- context [rule_css (negb ?b)] =>
         let p := eval vm_compute in (rule_css (negb b)) in
         change (rule_css (negb b)) with p
       end.
  all: rewrite !no_start_str_int by reflexivity.
  all: vm_compute; reflexivity.
Qed.

Ltac style_line idx lem :=
  apply contains_app_r; eapply contains_line with (k := idx); [reflexivity | apply lem].

Section StyleContents.
Variables (pw ph m g f c : Z) (o rule : list Z).

Lemma style_has_page_w :
  contains (lit "--page-w-mm: " ++ str_int pw ++ lit "mm;")
    ([10] ++ unlines (style_lines pw ph m g f c o rule) ++ lit "  ") = true.
Proof. style_line 1%nat (line_declaration "      " "--page-w-mm: " "mm;"). Qed.

Lemma style_has_page_h :
  contains (lit "--page-h-mm: " ++ str_int ph ++ lit "mm;")
    ([10] ++ unlines (style_lines pw ph m g f c o rule) ++ lit "  ") = true.
Proof. style_line 2%nat (line_declaration "      " "--page-h-mm: " "mm;"). Qed.

Lemma style_has_margin :
  contains (lit "--margin-mm: " ++ str_int m ++ lit "mm;")
    ([10] ++ unlines (style_lines pw ph m g f c o rule) ++ lit "  ") = true.
Proof. style_line 3%nat (line_declaration "      " "--margin-mm: " "mm;"). Qed.

Lemma style_has_gap :
  contains (lit "--gap-mm: " ++ str_int g ++ lit "mm;")
    ([10] ++ unlines (style_lines pw ph m g f c o rule) ++ lit "  ") = true.
Proof. style_line 4%nat (line_declaration "      " "--gap-mm: " "mm;"). Qed.

Lemma style_has_font :
  contains (lit "--font-px: " ++ str_int f ++ lit "px;")
    ([10] ++ unlines (style_lines pw ph m g f c o rule) ++ lit "  ") = true.
Proof. style_line 5%nat (line_declaration "      " "--font-px: " "px;"). Qed.

Lemma style_has_cols :
  contains (lit "--cols: " ++ str_int c ++ lit ";")
    ([10] ++ unlines (style_lines pw ph m g f c o rule) ++ lit "  ") = true.
Proof. style_line 6%nat (line_declaration "      " "--cols: " ";"). Qed.

Lemma style_has_rule :
  contains rule
    ([10] ++ unlines (style_lines pw ph m g f c o rule) ++ lit "  ") = true.
Proof. style_line 13%nat line_field. Qed.
End StyleContents.

(** C9: for every configuration the style of the assembled document holds
    the custom properties for page width, page height, margin, gap, font
    size and column count, and one rule chosen by the show-guides flag:
    [column-rule: 1px solid #ddd;] when it is set, [column-rule: none;] when
    it is not, and never the rule of the other setting. *)
Theorem style_carries_layout_and_rule (sc : scope) (md : list Z) :
  In (orientation sc) ORIENTATIONS ->
  exists css,
    Css.style_text (assemble sc md) = Some css
    /\ contains (lit "--page-w-mm: " ++ str_int (page_w (orientation sc)) ++ lit "mm;") css = true
    /\ contains (lit "--page-h-mm: " ++ str_int (page_h (orientation sc)) ++ lit "mm;") css = true
    /\ contains (lit "--margin-mm: " ++ str_int (margin_mm sc) ++ lit "mm;") css = true
    /\ contains (lit "--gap-mm: " ++ str_int (gap_mm sc) ++ lit "mm;") css = true
    /\ contains (lit "--font-px: " ++ str_int (font_px sc) ++ lit "px;") css = true
    /\ contains (lit "--cols: " ++ str_int (columns sc) ++ lit ";") css = true
    /\ contains (rule_css (show_guides sc)) css = true
    /\ contains (rule_css (negb (show_guides sc))) css = false
    /\ rule_css true = lit "column-rule: 1px solid #ddd;"
    /\ rule_css false = lit "column-rule: none;".
Proof.
  intros Ho. unfold assemble. eexists. split; [by apply doc_style_text|].
  split; [apply style_has_page_w|].
  split; [apply style_has_page_h|].
  split; [apply style_has_margin|].
  split; [apply style_has_gap|].
  split; [apply style_has_font|].
  split; [apply style_has_cols|].
  split; [apply style_has_rule|].
  split; [by apply style_lacks_other_rule|].
  split; reflexivity.
Qed.

Lemma style_carries_layout_and_rule_witness :
  exists css,
    Css.style_text (assemble (sample_scope ∅ "Blank" false false) default_md) = Some css
    /\ contains (lit "--page-w-mm: " ++ str_int 210 ++ lit "mm;") css = true
    /\ contains (lit "--page-h-mm: " ++ str_int 297 ++ lit "mm;") css = true
    /\ contains (lit "--margin-mm: " ++ str_int 12 ++ lit "mm;") css = true
    /\ contains (lit "--gap-mm: " ++ str_int 8 ++ lit "mm;") css = true
    /\ contains (lit "--font-px: " ++ str_int 11 ++ lit "px;") css = true
    /\ contains (lit "--cols: " ++ str_int 2 ++ lit ";") css = true
    /\ contains (rule_css true) css = true
    /\ contains (rule_css false) css = false
    /\ rule_css true = lit "column-rule: 1px solid #ddd;"
    /\ rule_css false = lit "column-rule: none;".
Proof.
  apply (style_carries_layout_and_rule (sample_scope ∅ "Blank" false false) default_md).
  simpl. auto.
Defined.

(** ** The escaped text inside the template literal *)

Lemma replace_app old new a b :
  replace old new (a ++ b) = replace old new a ++ replace old new b.
Proof. induction a as [|c a IH]; [done|]. simpl. by rewrite IH, <- app_assoc. Qed.

Lemma md_js_cons c md : md_js (c :: md) = escaped c ++ md_js md.
Proof.
  unfold md_js, escaped. cbn [replace]. rewrite !replace_app.
  destruct (Z.eqb_spec c 92) as [->|H92]; [reflexivity|].
  destruct (Z.eqb_spec c 96) as [->|H96]; [reflexivity|].
  destruct (Z.eqb_spec c 36) as [->|H36]; [reflexivity|].
  simpl.
  destruct (Z.eqb_spec c 96); [done|]. simpl.
  destruct (Z.eqb_spec c 36); [done|]. reflexivity.
Qed.

Lemma md_js_flat_map md : md_js md = flat_map escaped md.
Proof. induction md as [|c md IH]; [done|]. by rewrite md_js_cons, IH. Qed.



Lemma find_in_lines pat (ls : list (list piece)) (k : nat) (s : string) rest x :
  ls !! k = Some (T s :: rest) ->
  no_start pat (unlines (take k ls)) = true ->
  find_after pat (lit s) = Some [] ->
  find_after pat (unlines ls ++ x)
  = Some (render_line rest ++ [10] ++ unlines (drop (S k) ls) ++ x).
Proof.
  intros Hk Hn Hf. rewrite <- (take_drop_middle ls k _ Hk) at 1.
  rewrite unlines_app, unlines_cons, render_line_cons, <- !app_assoc.
  rewrite (find_after_skip _ _ _ Hn). cbn [render_piece].
  apply (find_after_app _ _ _ _ Hf).
Qed.

Lemma embedded_from_doc o c m g f sg md :
  In o ORIENTATIONS ->
  embedded_from (html_doc o c m g f sg md) = Some (md_js md ++ after_literal).
Proof.
  intros Ho. unfold embedded_from, html_doc, html_template.
  rewrite <- (app_nil_r (unlines _)).
  erewrite find_in_lines with (k := 40%nat); [| reflexivity | | vm_compute; reflexivity].
  - unfold after_literal. cbn [render_line flat_map render_piece].
    rewrite <- !app_assoc, !app_nil_r. reflexivity.
  - let p := eval vm_compute in (lit "const raw = `") in
    change (lit "const raw = `") with p.
    apply no_start_unlines; [reflexivity|].
    unfold html_lines; cbn [take firstn forallb render_piece].
    destruct (orientation_cases o Ho) as [-> | ->]; destruct sg.
    all: rewrite !no_start_str_int by reflexivity.
    all: vm_compute; reflexivity.
Qed.

Lemma replace_Forall (P : Z -> Prop) old new s :
  Forall P new -> Forall P s -> Forall P (replace old new s).
Proof.
  intros Hn. induction 1 as [|c s Hc _ IH]; [constructor|]. simpl.
  apply Forall_app. split; [|exact IH].
  destruct (c =? old); [exact Hn | by constructor].
Qed.

(** ** The script element around the literal *)

Lemma after_literal_tails : after_literal = 96 :: script_tail ++ document_tail.
Proof. reflexivity. Qed.

Lemma states_app st a b :
  Html.states st (a ++ b) = st' ← Html.states st a; Html.states st' b.
Proof.
  revert st. induction a as [|c a IH]; intros st; [reflexivity|]. simpl.
  destruct (Html.step st c) as [st'|]; [apply IH | reflexivity].
Qed.

Lemma script_end_app st a b :
  Html.script_end st (a ++ b)
  = match Html.states st a with
    | Some st' => (fun n => (length a + n)%nat) <$> Html.script_end st' b
    | None => Html.script_end st a
    end.
Proof.
  revert st. induction a as [|c a IH]; intros st; simpl.
  - by destruct (Html.script_end st b).
  - destruct (Html.step st c) as [st'|]; simpl; [|reflexivity].
    rewrite IH. destruct (Html.states st' a); [|reflexivity].
    by destruct (Html.script_end _ b).
Qed.

Lemma script_end_inside st a :
  Html.states st a = None ->
  exists n, Html.script_end st a = Some n /\ (n < length a)%nat.
Proof.
  revert st. induction a as [|c a IH]; intros st; simpl; [discriminate|].
  destruct (Html.step st c) as [st'|]; simpl.
  - intros H. destruct (IH _ H) as (n & -> & Hn). exists (S n). split; [done | lia].
  - intros _. exists O. split; [done | lia].
Qed.

(** A character without a role leads to the main state of the section,
    and the escaping only adds such characters. *)
Lemma step_ordinary st c : ordinary c = true -> Html.step st c = Some (settled st).
Proof.
  unfold ordinary. rewrite negb_true_iff, !orb_false_iff.
  intros ((((Ha & He) & H60) & H45) & H33).
  assert ((c =? 47) = false /\ (c =? 62) = false) as [H47 H62].
  { unfold Html.ends_name in He. apply bool_decide_eq_false in He.
    split; apply Z.eqb_neq; intros ->; apply He; set_solver. }
  destruct st; cbn [Html.step settled];
    unfold Html.data_step, Html.esc_step, Html.dbl_step;
    rewrite ?Ha, ?He, ?H60, ?H45, ?H33, ?H47, ?H62; reflexivity.
Qed.

Lemma settled_settled st : settled (settled st) = settled st.
Proof. by destruct st. Qed.

Lemma states_escaped st c : Html.states st (escaped c) = Html.step st c.
Proof.
  unfold escaped.
  destruct (Z.eqb_spec c 92) as [->|H92]; [|destruct (Z.eqb_spec c 96) as [->|H96];
    [|destruct (Z.eqb_spec c 36) as [->|H36]]].
  4: { cbn [Html.states]. by destruct (Html.step st c). }
  all: cbn [Html.states];
    repeat (rewrite step_ordinary by reflexivity; cbn [mbind option_bind]);
    by rewrite !settled_settled.
Qed.

Lemma states_md_js st md : Html.states st (md_js md) = Html.states st md.
Proof.
  revert st. induction md as [|c md IH]; intros st; [reflexivity|].
  rewrite md_js_cons, states_app, states_escaped. cbn [Html.states].
  destruct (Html.step st c) as [st'|]; [apply IH | reflexivity].
Qed.

(** The characters the parser rewrites, and the line feed it writes, are
    all left alone by the escaping. *)
Lemma text_char_md_js md :
  map Html.text_char (md_js md) = md_js (map Html.text_char md).
Proof.
  induction md as [|c md IH]; [reflexivity|].
  cbn [map]. rewrite !md_js_cons, map_app, IH. f_equal.
  unfold escaped, Html.text_char.
  destruct (Z.eqb_spec c 0) as [->|H0]; [reflexivity|].
  destruct (c =? 92); [reflexivity|]. destruct (c =? 96); [reflexivity|].
  destruct (c =? 36); [reflexivity|]. cbn. by destruct (Z.eqb_spec c 0).
Qed.

Lemma newlines_md_js cr md t :
  Html.newlines cr (md_js md ++ 96 :: t)
  = md_js (Html.newlines cr md) ++ 96 :: Html.newlines false t.
Proof.
  revert cr. induction md as [|c md IH]; intros cr.
  { reflexivity. }
  rewrite md_js_cons. unfold escaped.
  destruct (Z.eqb_spec c 92) as [->|H92].
  { cbn. rewrite IH. reflexivity. }
  destruct (Z.eqb_spec c 96) as [->|H96].
  { cbn. rewrite IH. reflexivity. }
  destruct (Z.eqb_spec c 36) as [->|H36].
  { cbn. rewrite IH. reflexivity. }
  cbn [app Html.newlines].
  destruct (Z.eqb_spec c 13) as [->|H13]; [by rewrite IH|].
  destruct ((c =? 10) && cr); [apply IH|].
  rewrite IH, md_js_cons. unfold escaped.
  destruct (Z.eqb_spec c 92); [done|]. destruct (Z.eqb_spec c 96); [done|].
  by destruct (Z.eqb_spec c 36).
Qed.

Lemma text_md_js md t :
  Html.text (md_js md ++ 96 :: t) = md_js (Html.text md) ++ 96 :: Html.text t.
Proof.
  unfold Html.text. by rewrite newlines_md_js, map_app, text_char_md_js.
Qed.

(** The rest of the script after the text, from each main state. *)
Lemma script_end_tail st :
  Html.script_end st (96 :: script_tail ++ document_tail)
  = if Html.double_escaped st then None else Some 341%nat.
Proof.
  cbn [Html.script_end]. rewrite (step_ordinary st 96) by reflexivity.
  destruct st; vm_compute; reflexivity.
Qed.

Lemma embedding_script_harmless o c m g f sg md :
  In o ORIENTATIONS ->
  Html.harmless md = true ->
  embedding_script (html_doc o c m g f sg md)
  = Some (md_js (Html.text md) ++ 96 :: script_tail, document_tail).
Proof.
  intros Ho Hh. unfold embedding_script.
  rewrite (embedded_from_doc _ _ _ _ _ _ _ Ho). cbn [mbind option_bind].
  unfold Html.script_data. rewrite after_literal_tails, script_end_app, states_md_js.
  unfold Html.harmless in Hh.
  destruct (Html.states Html.Data md) as [st|]; [|discriminate].
  rewrite script_end_tail. destruct (Html.double_escaped st); [discriminate|].
  cbn [fmap option_fmap option_map mbind option_bind].
  replace (length (md_js md) + 341 - 8)%nat with (length (md_js md) + 333)%nat by lia.
  rewrite take_app_add, drop_app_add. change (take 333 _) with (96 :: script_tail).
  rewrite text_md_js. reflexivity.
Qed.

Lemma script_intact_doc o c m g f sg md :
  In o ORIENTATIONS ->
  script_intact (html_doc o c m g f sg md) = Html.harmless md.
Proof.
  intros Ho. destruct (Html.harmless md) eqn:Hh.
  { unfold script_intact. rewrite (embedding_script_harmless _ _ _ _ _ _ _ Ho Hh).
    by apply bool_decide_eq_true. }
  unfold script_intact, embedding_script.
  rewrite (embedded_from_doc _ _ _ _ _ _ _ Ho). cbn [mbind option_bind].
  unfold Html.script_data. rewrite after_literal_tails, script_end_app, states_md_js.
  unfold Html.harmless in Hh.
  destruct (Html.states Html.Data md) as [st|] eqn:Hst.
  - rewrite script_end_tail. apply negb_false_iff in Hh. rewrite Hh. reflexivity.
  - rewrite <- states_md_js in Hst.
    destruct (script_end_inside _ _ Hst) as (n & -> & Hn).
    cbn [mbind option_bind]. apply bool_decide_eq_false. intros E.
    apply (f_equal length) in E. rewrite length_drop, length_app in E.
    change (length (96 :: script_tail ++ document_tail)) with 359%nat in E.
    change (length document_tail) with 26%nat in E. lia.
Qed.



(** ** Texts that do no harm *)












(** ** UTF-8 *)

Lemma all_from_spec k lo f :
  (all_from k lo f).2 = lo + 2 ^ Z.of_nat k
  /\ ((all_from k lo f).1 = true -> forall i, lo <= i < lo + 2 ^ Z.of_nat k -> f i = true).
Proof.
  revert lo. induction k as [|k IH]; intros lo; cbn [all_from].
  - split; [reflexivity|]. simpl. intros H i Hi. by replace i with lo by lia.
  - destruct (IH lo) as [E1 H1]. destruct (all_from k lo f) as [a mid].
    simpl in E1, H1. subst mid.
    destruct (IH (lo + 2 ^ Z.of_nat k)) as [E2 H2].
    destruct (all_from k (lo + 2 ^ Z.of_nat k) f) as [b hi].
    simpl in E2, H2. subst hi. cbn [fst snd].
    rewrite Nat2Z.inj_succ, Z.pow_succ_r by lia.
    split; [lia|]. intros [Ha Hb]%andb_true_iff i Hi.
    destruct (Z.lt_ge_cases i (lo + 2 ^ Z.of_nat k)).
    + apply H1; [done | lia].
    + apply H2; [done | lia].
Qed.

Lemma utf8_chars_low :
  (all_from 16 0 (fun c => negb (scalarb c) || utf8_char_ok c)).1 = true.
Proof. vm_cast_no_check (eq_refl true). Qed.

Lemma lor_add s b n :
  0 <= n -> 0 <= b < 2 ^ n -> s mod 2 ^ n = 0 -> Z.lor s b = s + b.
Proof.
  intros Hn Hb Hs.
  assert (Z.land s b = 0) as Hl.
  { apply Z.bits_inj'. intros i Hi. rewrite Z.land_spec, Z.bits_0.
    destruct (Z.lt_ge_cases i n).
    - rewrite (Z.div_mod s (2 ^ n)) by lia. rewrite Hs, Z.add_0_r, Z.mul_comm.
      rewrite Z.mul_pow2_bits_low by lia. reflexivity.
    - rewrite <- (Z.mod_small b (2 ^ n)) by lia.
      rewrite Z.mod_pow2_bits_high by lia. apply andb_false_r. }
  rewrite <- Z.lxor_lor by exact Hl. symmetry. by apply Z.add_nocarry_lxor.
Qed.

Lemma utf8_chars_high_range c : 65536 <= c < 1114112 -> utf8_char_ok c = true.
Proof.
  intros Hc. unfold utf8_char_ok, utf8_char.
  destruct (Z.ltb_spec c 0); [lia|]. destruct (Z.ltb_spec c 128); [lia|].
  destruct (Z.ltb_spec c 2048); [lia|]. destruct (Z.ltb_spec c 65536); [lia|].
  destruct (Z.ltb_spec c 1114112); [|lia].
  unfold continuation.
  change 63 with (Z.ones 6). change 7 with (Z.ones 3).
  rewrite !Z.land_ones, !Z.shiftr_div_pow2 by lia.
  change (2 ^ 18) with 262144. change (2 ^ 12) with 4096. change (2 ^ 6) with 64.
  change (2 ^ 3) with 8.
  rewrite (lor_add 240 _ 3), !(lor_add 128 _ 6)
    by (try (change (2 ^ 3) with 8); try (change (2 ^ 6) with 64);
        first [lia | reflexivity | Z.div_mod_to_equations; lia]).
  rewrite ?Z.land_ones, ?Z.shiftl_mul_pow2 by lia.
  change (2 ^ 18) with 262144. change (2 ^ 12) with 4096. change (2 ^ 6) with 64.
  change (2 ^ 3) with 8.
  set (A := (240 + c `div` 262144) `mod` 8).
  set (B := (128 + (c `div` 4096) `mod` 64) `mod` 64).
  set (C := (128 + (c `div` 64) `mod` 64) `mod` 64).
  set (D := (128 + c `mod` 64) `mod` 64).
  assert (0 <= A < 8 /\ 0 <= B < 64 /\ 0 <= C < 64 /\ 0 <= D < 64) as (HA & HB & HC & HD)
    by (subst A B C D; repeat split; try apply Z.mod_pos_bound; lia).
  rewrite (lor_add (A * 262144) (B * 4096) 18), (lor_add _ (C * 64) 12), (lor_add _ D 6)
    by (try (change (2 ^ 18) with 262144); try (change (2 ^ 12) with 4096);
        try (change (2 ^ 6) with 64);
        first [lia | Z.div_mod_to_equations; lia]).
  subst A B C D.
  repeat (apply andb_true_intro; split); try reflexivity;
    first [apply Z.leb_le | apply Z.ltb_lt | apply Z.eqb_eq];
    Z.div_mod_to_equations; lia.
Qed.

Lemma utf8_char_checked c : scalarb c = true -> utf8_char_ok c = true.
Proof.
  intros Hs.
  assert (0 <= c < 1114112) as Hc by (unfold scalarb in Hs; lia).
  assert (negb (scalarb c) || utf8_char_ok c = true) as H.
  { destruct (Z.lt_ge_cases c 65536).
    - apply (proj2 (all_from_spec 16 0 _) utf8_chars_low). simpl. lia.
    - rewrite utf8_chars_high_range by lia. apply orb_true_r. }
  rewrite Hs in H. exact H.
Qed.

Ltac bool_hyps :=
  repeat match goal with
  | H : _ && _ = true |- _ => apply andb_true_iff in H as [? ?]
  | H : (_ =? _) = true |- _ => apply Z.eqb_eq in H
  end.

(** Decoding what one character encodes to gives the character back. *)
Lemma decode_utf8_char c bs r :
  utf8_char c = Some bs ->
  utf8_char_ok c = true ->
  decode_utf8 (bs ++ r) = (c ::.) <$> decode_utf8 r.
Proof.
  intros Hb Hok. unfold utf8_char_ok in Hok. rewrite Hb in Hok.
  destruct bs as [|b0 [|b1 [|b2 [|b3 [|? ?]]]]]; try discriminate; bool_hyps.
  - subst b0. cbn [app decode_utf8].
    destruct (Z.ltb_spec c 0); [lia|]. destruct (Z.ltb_spec c 128); [|lia].
    by destruct (decode_utf8 r).
  - cbn [app decode_utf8].
    destruct (Z.ltb_spec b0 0); [lia|]. destruct (Z.ltb_spec b0 128); [lia|].
    destruct (Z.ltb_spec b0 192); [lia|]. destruct (Z.ltb_spec b0 224); [|lia].
    cbv zeta. subst c.
    match goal with H : continuation b1 = true |- _ => rewrite H end.
    match goal with H : (128 <=? _) = true |- _ => rewrite H end.
    by destruct (decode_utf8 r).
  - cbn [app decode_utf8].
    destruct (Z.ltb_spec b0 0); [lia|]. destruct (Z.ltb_spec b0 128); [lia|].
    destruct (Z.ltb_spec b0 192); [lia|]. destruct (Z.ltb_spec b0 224); [lia|].
    destruct (Z.ltb_spec b0 240); [|lia].
    cbv zeta. subst c.
    repeat match goal with H : _ = true |- _ => rewrite H; clear H end.
    by destruct (decode_utf8 r).
  - cbn [app decode_utf8].
    destruct (Z.ltb_spec b0 0); [lia|]. destruct (Z.ltb_spec b0 128); [lia|].
    destruct (Z.ltb_spec b0 192); [lia|]. destruct (Z.ltb_spec b0 224); [lia|].
    destruct (Z.ltb_spec b0 240); [lia|]. destruct (Z.ltb_spec b0 248); [|lia].
    cbv zeta. subst c.
    repeat match goal with H : _ = true |- _ => rewrite H; clear H end.
    by destruct (decode_utf8 r).
Qed.

Lemma utf8_char_scalar c : scalarb c = true -> is_Some (utf8_char c).
Proof.
  intros Hs. pose proof (utf8_char_checked c Hs) as H. unfold utf8_char_ok in H.
  destruct (utf8_char c); [eauto | discriminate].
Qed.

Lemma scalar_scalarb c : scalar c <-> scalarb c = true.
Proof. unfold scalar, scalarb. lia. Qed.

(** Text of scalar values can be encoded, and decoding gives it back. *)
Lemma utf8_round_trip s :
  Forall scalar s ->
  exists bytes, encode_utf8 s = Some bytes /\ decode_utf8 bytes = Some s.
Proof.
  induction 1 as [|c s Hc _ [bytes [He Hd]]]; [by exists []|].
  apply scalar_scalarb in Hc.
  destruct (utf8_char_scalar c Hc) as [bs Hbs].
  exists (bs ++ bytes). cbn [encode_utf8]. rewrite Hbs, He. split; [reflexivity|].
  rewrite (decode_utf8_char c bs bytes Hbs (utf8_char_checked c Hc)), Hd. reflexivity.
Qed.

(** ** Base64 *)

Lemma list_ind3 (P : list Z -> Prop) :
  P [] -> (forall a, P [a]) -> (forall a b, P [a; b]) ->
  (forall a b c r, P r -> P (a :: b :: c :: r)) ->
  forall l, P l.
Proof.
  intros H0 H1 H2 H3.
  refine (fix go l := match l with
                      | [] => H0
                      | [a] => H1 a
                      | [a; b] => H2 a b
                      | a :: b :: c :: r => H3 a b c r (go r)
                      end).
Qed.

Lemma b64_index_char_checked :
  (all_from 6 0 (fun i => bool_decide (b64_index (b64_char i) = Some i)
                          && negb (b64_char i =? 61))).1 = true.
Proof. vm_compute. reflexivity. Qed.

Lemma b64_index_char i : 0 <= i < 64 -> b64_index (b64_char i) = Some i.
Proof.
  intros Hi.
  pose proof (proj2 (all_from_spec 6 0 _) b64_index_char_checked i ltac:(simpl; lia)) as H.
  apply andb_true_iff in H as [H _]. by apply bool_decide_eq_true in H.
Qed.

Lemma b64_char_not_pad i : 0 <= i < 64 -> (b64_char i =? 61) = false.
Proof.
  intros Hi.
  pose proof (proj2 (all_from_spec 6 0 _) b64_index_char_checked i ltac:(simpl; lia)) as H.
  apply andb_true_iff in H as [_ H]. by apply negb_true_iff in H.
Qed.

Lemma sextets_checked :
  (all_from 16 0 (fun n => sextets_ok (Z.shiftr n 8) (Z.land n 255))).1 = true.
Proof. vm_compute. reflexivity. Qed.

Lemma sextets_bytes a b :
  byteb a = true -> byteb b = true -> sextets_ok a b = true.
Proof.
  unfold byteb. intros Ha Hb.
  pose proof (proj2 (all_from_spec 16 0 _) sextets_checked (a * 256 + b)
                ltac:(simpl; lia)) as H.
  cbv beta in H.
  replace (Z.shiftr (a * 256 + b) 8) with a in H.
  2:{ rewrite Z.shiftr_div_pow2 by lia. change (2 ^ 8) with 256.
      Z.div_mod_to_equations. lia. }
  replace (Z.land (a * 256 + b) 255) with b in H.
  2:{ change 255 with (Z.ones 8). rewrite Z.land_ones by lia. change (2 ^ 8) with 256.
      Z.div_mod_to_equations. lia. }
  exact H.
Qed.

Ltac sextet_facts a b :=
  let H := fresh "S" in
  assert (sextets_ok a b = true) as H by (by apply sextets_bytes);
  unfold sextets_ok in H; cbv zeta in H;
  repeat match type of H with
  | _ && _ = true => let H' := fresh "S" in apply andb_true_iff in H as [H H']
  end.

(** Decoding what [b64encode] produces gives the bytes back. *)
Lemma b64_round_trip bs :
  forallb byteb bs = true -> b64decode (b64encode bs) = Some bs.
Proof.
  induction bs as [|a|a b|a b c r IH] using list_ind3; cbn [forallb].
  - reflexivity.
  - intros [Ha _]%andb_true_iff. sextet_facts a a.
    cbn [b64encode b64decode].
    rewrite ?b64_index_char by lia. cbn [mbind option_bind].
    change (61 =? 61) with true. cbn [andb]. rewrite bool_decide_eq_true_2 by done.
    f_equal. f_equal. lia.
  - intros [Ha [Hb _]%andb_true_iff]%andb_true_iff.
    sextet_facts a b. sextet_facts b b.
    cbn [b64encode b64decode].
    rewrite ?b64_index_char by lia. cbn [mbind option_bind].
    rewrite ?b64_char_not_pad by lia.
    rewrite ?b64_index_char by lia. cbn [mbind option_bind].
    change (61 =? 61) with true. rewrite bool_decide_eq_true_2 by done.
    repeat match goal with H : (Z.land _ 15 =? _) = true |- _ =>
      apply Z.eqb_eq in H; rewrite ?H end.
    repeat f_equal; lia.
  - intros [Ha [Hb [Hc Hr]%andb_true_iff]%andb_true_iff]%andb_true_iff.
    sextet_facts a b. sextet_facts b c.
    cbn [b64encode b64decode].
    rewrite ?b64_index_char by lia. cbn [mbind option_bind].
    rewrite ?b64_char_not_pad by lia.
    rewrite ?b64_index_char by lia. cbn [mbind option_bind].
    rewrite ?b64_char_not_pad by lia.
    rewrite ?b64_index_char by lia. cbn [mbind option_bind].
    rewrite (IH Hr). cbn [mbind option_bind].
    repeat match goal with H : (Z.land _ 15 =? _) = true |- _ =>
      apply Z.eqb_eq in H; rewrite ?H end.
    repeat f_equal; lia.
Qed.

Lemma utf8_char_bytes c bs :
  utf8_char c = Some bs -> utf8_char_ok c = true -> forallb byteb bs = true.
Proof.
  intros Hb Hok. unfold utf8_char_ok in Hok. rewrite Hb in Hok.
  unfold continuation, byteb in *.
  destruct bs as [|b0 [|b1 [|b2 [|b3 [|? ?]]]]]; try discriminate;
    cbn [forallb]; lia.
Qed.

Lemma encode_utf8_bytes s bytes :
  Forall scalar s -> encode_utf8 s = Some bytes -> forallb byteb bytes = true.
Proof.
  intros Hs. revert bytes. induction Hs as [|c s Hc _ IH]; intros bytes.
  - intros; by simplify_eq/=.
  - cbn [encode_utf8]. apply scalar_scalarb in Hc.
    destruct (utf8_char c) as [bs|] eqn:Hbs; [|discriminate]. cbn [mbind option_bind].
    destruct (encode_utf8 s) as [r|]; [|discriminate]. cbn [mbind option_bind].
    intros; simplify_eq. rewrite forallb_app.
    rewrite (utf8_char_bytes c bs Hbs (utf8_char_checked c Hc)). by apply IH.
Qed.

(** ASCII text is its own encoding. *)
Lemma ascii_utf8 s :
  forallb (fun c => (0 <=? c) && (c <? 128)) s = true ->
  encode_utf8 s = Some s /\ decode_utf8 s = Some s.
Proof.
  induction s as [|c s IH]; [done|]. cbn [forallb].
  intros [Hc Hs]%andb_true_iff. destruct (IH Hs) as [He Hd].
  cbn [encode_utf8 decode_utf8]. unfold utf8_char.
  destruct (Z.ltb_spec c 0); [lia|]. destruct (Z.ltb_spec c 128); [|lia].
  cbn [mbind option_bind]. rewrite He, Hd. done.
Qed.

Lemma b64_char_all (P : Z -> bool) i :
  P 0 = true -> forallb P b64_alphabet = true -> P (b64_char i) = true.
Proof.
  intros H0 Ha. unfold b64_char.
  destruct (nth_in_or_default (Z.to_nat i) b64_alphabet 0) as [Hin | ->]; [|done].
  by apply (proj1 (forallb_forall P b64_alphabet) Ha).
Qed.

Lemma b64encode_all (P : Z -> bool) bs :
  P 0 = true -> P 61 = true -> forallb P b64_alphabet = true ->
  forallb P (b64encode bs) = true.
Proof.
  intros H0 Hp Ha.
  induction bs as [|a|a b|a b c r IH] using list_ind3;
    cbn [b64encode forallb]; rewrite ?(b64_char_all P) by done; rewrite ?Hp; done.
Qed.

Lemma b64encode_link_chars bs : forallb link_char (b64encode bs) = true.
Proof. apply b64encode_all; reflexivity. Qed.

Lemma link_char_ascii l :
  forallb link_char l = true -> forallb (fun c => (0 <=? c) && (c <? 128)) l = true.
Proof. apply forallb_impl. unfold link_char. intros c. lia. Qed.

Lemma link_char_no_paren l :
  forallb link_char l = true -> Forall (fun c => c <> 41) l.
Proof.
  intros H. apply forallb_Forall_ne. revert H. apply forallb_impl.
  unfold link_char. intros c. lia.
Qed.

(** The link for a text of scalar values, and what following it gives. *)
Lemma download_round_trip doc :
  Forall scalar doc ->
  exists bytes,
    encode_utf8 doc = Some bytes
    /\ download_markdown doc
       = Some (lit "[Download the HTML file](" ++ (lit "data:text/html;base64," ++ b64encode bytes)
               ++ lit ")")
    /\ b64decode (b64encode bytes) = Some bytes
    /\ decode_utf8 bytes = Some doc
    /\ open_link (lit "[Download the HTML file](" ++ (lit "data:text/html;base64," ++ b64encode bytes)
                  ++ lit ")") = Some doc.
Proof.
  intros Hs. destruct (utf8_round_trip doc Hs) as (bytes & He & Hd).
  exists bytes.
  pose proof (b64encode_link_chars bytes) as Hl.
  destruct (ascii_utf8 _ (link_char_ascii _ Hl)) as [Hae Had].
  pose proof (b64_round_trip bytes (encode_utf8_bytes _ _ Hs He)) as Hb.
  split; [exact He|]. split.
  { unfold download_markdown, download_href. rewrite He. cbn [mbind option_bind].
    rewrite Had. reflexivity. }
  split; [exact Hb|]. split; [exact Hd|].
  unfold open_link, link_target.
  rewrite (find_after_app (lit "](") (lit "[Download the HTML file](") [] _ eq_refl).
  cbn [mbind option_bind app].
  rewrite <- app_assoc, take_until_skip by (by vm_compute; repeat constructor).
  rewrite take_until_skip by (by apply link_char_no_paren).
  change (lit ")") with [41]. rewrite take_until_here, !app_nil_r.
  rewrite strip_prefix_self. cbn [mbind option_bind].
  rewrite Hae. cbn [mbind option_bind]. rewrite Hb. cbn [mbind option_bind].
  exact Hd.
Qed.

Lemma Forall_scalar_forallb l : Forall scalar l <-> forallb scalarb l = true.
Proof.
  induction l as [|c l IH]; [done|]. cbn [forallb].
  rewrite Forall_cons, andb_true_iff, IH, scalar_scalarb. done.
Qed.

Lemma str_int_scalar n : forallb scalarb (str_int n) = true.
Proof.
  apply str_int_all. intros c. unfold is_digit, scalarb. lia.
Qed.

Lemma md_js_scalar md : Forall scalar md -> forallb scalarb (md_js md) = true.
Proof.
  intros H. apply Forall_scalar_forallb. unfold md_js.
  repeat (apply replace_Forall;
          [repeat constructor; apply scalar_scalarb; reflexivity|]).
  exact H.
Qed.

Lemma html_doc_scalar o c m g f sg md :
  In o ORIENTATIONS -> Forall scalar md -> Forall scalar (html_doc o c m g f sg md).
Proof.
  intros Ho Hmd. apply Forall_scalar_forallb.
  unfold html_doc, html_template. apply unlines_all; [reflexivity|].
  unfold html_lines, piece_all. cbn [forallb render_piece].
  rewrite !str_int_scalar, (md_js_scalar md Hmd).
  destruct (orientation_cases o Ho) as [-> | ->]; destruct sg; vm_compute; reflexivity.
Qed.



(* ------------------------------------------------------------------ *)
(** * Further properties of the script *)

(** ** The escaping, character by character *)

(** X1: the three replacements of lines 177-181 act as one substitution
    applied to each character on its own: a backslash becomes four
    backslashes, a backtick and a dollar sign get one backslash in front, any
    other character stays; a backslash put in by a later replacement is
    never escaped again. *)
Theorem md_js_per_character (md : list Z) :
  md_js md = flat_map escaped md
  /\ escaped 92 = [92; 92; 92; 92]
  /\ escaped 96 = [92; 96]
  /\ escaped 36 = [92; 36]
  /\ forall c, plain c = true -> escaped c = [c].
Proof.
  split; [apply md_js_flat_map|]. repeat split.
  intros c Hc. unfold plain in Hc. unfold escaped.
  destruct (c =? 92), (c =? 96), (c =? 36); try discriminate. reflexivity.
Qed.

(** X2: escaping distributes over concatenation: the escaped form of a
    text followed by another is the two escaped forms, one after the other. *)
Theorem md_js_app (a b : list Z) : md_js (a ++ b) = md_js a ++ md_js b.
Proof. rewrite !md_js_flat_map. apply flat_map_app. Qed.

(** X3: a text without backslash, backtick or dollar sign is embedded as
    it is. *)
Theorem md_js_plain (md : list Z) :
  forallb plain md = true -> md_js md = md.
Proof.
  induction md as [|c md IH]; [reflexivity|]. cbn [forallb].
  intros [Hc Hmd]%andb_true_iff. rewrite md_js_cons, (IH Hmd).
  unfold plain in Hc. unfold escaped.
  destruct (c =? 92), (c =? 96), (c =? 36); try discriminate. reflexivity.
Qed.

Lemma md_js_plain_witness : md_js (lit "# Title") = lit "# Title".
Proof. apply (md_js_plain (lit "# Title")). reflexivity. Defined.

(** X4: escaping never shortens a text and at most quadruples it. *)
Theorem md_js_length (md : list Z) :
  (length md <= length (md_js md) <= 4 * length md)%nat.
Proof.
  induction md as [|c md IH]; [simpl; lia|].
  rewrite md_js_cons, length_app. unfold escaped.
  destruct (c =? 92), (c =? 96), (c =? 36); simpl; lia.
Qed.

(** X5: two different texts never have the same escaped form. *)
Theorem md_js_injective (a b : list Z) : md_js a = md_js b -> a = b.
Proof.
  revert b. induction a as [|c a IH]; intros [|d b].
  - reflexivity.
  - rewrite md_js_cons. unfold escaped.
    destruct (d =? 92), (d =? 96), (d =? 36); discriminate.
  - rewrite md_js_cons. unfold escaped.
    destruct (c =? 92), (c =? 96), (c =? 36); discriminate.
  - rewrite !md_js_cons. unfold escaped.
    destruct (Z.eqb_spec c 92), (Z.eqb_spec c 96), (Z.eqb_spec c 36),
      (Z.eqb_spec d 92), (Z.eqb_spec d 96), (Z.eqb_spec d 36);
      cbn [app]; intros H; simplify_eq; try (f_equal; by apply IH); try lia.
Qed.

Lemma md_js_injective_witness : lit "a\b" = lit "a\b".
Proof. apply (md_js_injective (lit "a\b") (lit "a\b")). reflexivity. Defined.

(** ** What the browser's script gets as [raw] *)

Lemma template_value_md_js md rest :
  Forall (fun c => c <> 13) md ->
  template_value (md_js md ++ 96 :: rest) = Some (replace 92 [92; 92] md).
Proof.
  induction 1 as [|c md Hc _ IH]; [reflexivity|].
  rewrite md_js_cons, <- app_assoc. unfold escaped. cbn [replace].
  destruct (Z.eqb_spec c 92) as [->|H92].
  { cbn. rewrite IH. reflexivity. }
  destruct (Z.eqb_spec c 96) as [->|H96].
  { cbn. rewrite IH. reflexivity. }
  destruct (Z.eqb_spec c 36) as [->|H36].
  { cbn. rewrite IH. reflexivity. }
  cbn [app template_value].
  destruct (Z.eqb_spec c 96); [done|]. destruct (Z.eqb_spec c 92); [done|].
  destruct (Z.eqb_spec c 36); [done|]. destruct (Z.eqb_spec c 13); [done|].
  rewrite IH. reflexivity.
Qed.

Lemma replace_absent old new s :
  Forall (fun c => c <> old) s -> replace old new s = s.
Proof.
  induction 1 as [|c s Hc _ IH]; [reflexivity|]. simpl.
  destruct (Z.eqb_spec c old); [done|]. by rewrite IH.
Qed.

Lemma newlines_no_cr cr s : Forall (fun c => c <> 13) (Html.newlines cr s).
Proof.
  revert cr. induction s as [|c s IH]; intros cr; cbn [Html.newlines]; [constructor|].
  destruct (Z.eqb_spec c 13); [by constructor|].
  destruct ((c =? 10) && cr); [apply IH | by constructor].
Qed.

Lemma text_no_cr s : Forall (fun c => c <> 13) (Html.text s).
Proof.
  unfold Html.text. apply Forall_map. eapply Forall_impl; [apply newlines_no_cr|].
  intros c Hc. unfold Html.text_char. cbn. by destruct (Z.eqb_spec c 0).
Qed.

Lemma newlines_id s : Forall (fun c => c <> 13) s -> Html.newlines false s = s.
Proof.
  induction 1 as [|c s Hc _ IH]; [reflexivity|]. cbn [Html.newlines].
  destruct (Z.eqb_spec c 13); [done|]. by rewrite andb_false_r, IH.
Qed.

Lemma text_id s :
  Forall (fun c => c <> 13) s -> Forall (fun c => c <> 0) s -> Html.text s = s.
Proof.
  intros Hcr Hnul. unfold Html.text. rewrite (newlines_id _ Hcr).
  induction Hnul as [|c s Hc _ IH]; [reflexivity|]. cbn [map].
  rewrite IH by (by inversion Hcr). unfold Html.text_char. by destruct (Z.eqb_spec c 0).
Qed.

(** X6: when the script element of the document is intact, the text its
    script hands to the Markdown parser is the editor's text, as the HTML
    parser passes it on (line ends as line feeds, null characters replaced),
    with every backslash doubled: the four backslashes written for one read
    as two.  For a text without carriage return and null character it is that
    text with its backslashes doubled, and the text itself when it has no
    backslash. *)
Theorem script_raw_doubles_backslashes (sc : scope) (md : list Z) :
  In (orientation sc) ORIENTATIONS ->
  script_intact (assemble sc md) = true ->
  script_raw (assemble sc md) = Some (replace 92 [92; 92] (Html.text md))
  /\ (Forall (fun c => c <> 13) md -> Forall (fun c => c <> 0) md ->
      script_raw (assemble sc md) = Some (replace 92 [92; 92] md)
      /\ (Forall (fun c => c <> 92) md -> script_raw (assemble sc md) = Some md)).
Proof.
  intros Ho Hi.
  assert (script_raw (assemble sc md) = Some (replace 92 [92; 92] (Html.text md))) as H.
  { unfold assemble in Hi. rewrite (script_intact_doc _ _ _ _ _ _ _ Ho) in Hi.
    unfold script_raw, assemble.
    rewrite (embedding_script_harmless _ _ _ _ _ _ _ Ho Hi).
    cbn [mbind option_bind]. apply template_value_md_js, text_no_cr. }
  split; [exact H|]. intros Hcr Hnul. rewrite H, (text_id _ Hcr Hnul).
  split; [reflexivity|]. intros Hb. by rewrite replace_absent.
Qed.

Lemma script_raw_doubles_backslashes_witness :
  script_raw (assemble (sample_scope ∅ "Blank" false false) (lit "a\b </p>"))
  = Some (replace 92 [92; 92] (lit "a\b </p>")).
Proof.
  destruct (script_raw_doubles_backslashes (sample_scope ∅ "Blank" false false)
              (lit "a\b </p>")) as [_ H]; [simpl; auto | reflexivity |].
  apply H; repeat constructor; discriminate.
Defined.

(** ** Presets *)

Lemma dict_update_preset_frame (ss : gmap string value) name p k :
  dict_get name PRESETS = Some p ->
  ~ In k preset_keys ->
  dict_update ss p !! k = ss !! k.
Proof.
  intros Hp Hk. simpl in Hp.
  assert (k <> "columns" /\ k <> "margin_mm" /\ k <> "gap_mm" /\ k <> "font_px"
          /\ k <> "show_guides") as (H1 & H2 & H3 & H4 & H5)
    by (simpl in Hk; intuition).
  repeat match type of Hp with
  | (if String.eqb name ?s then _ else _) = _ =>
      destruct (String.eqb_spec name s) as [->|?]
  end; simplify_eq; cbn; by rewrite !lookup_insert_ne.
Qed.

Lemma preset_button_frame clicked name ss ss' k :
  preset_button clicked name ss = Some ss' ->
  ~ In k preset_keys ->
  ss' !! k = ss !! k.
Proof.
  unfold preset_button. destruct clicked; [|intros; by simplify_eq].
  destruct (dict_get name PRESETS) as [p|] eqn:Hp; [|discriminate].
  cbn [mbind option_bind]. intros; simplify_eq. by eapply dict_update_preset_frame.
Qed.

(** X7: the preset buttons change nothing but columns, margin, gap, font
    size and guides: the orientation, the print-button switch, the document
    text and every other key of the store stay as they are. *)
Theorem presets_leave_other_keys (i : interaction) (ss : gmap string value) :
  exists ss',
    presets_section i ss = Some ss'
    /\ forall k, ~ In k preset_keys -> ss' !! k = ss !! k.
Proof.
  destruct (presets_section_Some i ss) as [ss' H]. exists ss'. split; [exact H|].
  intros k Hk. unfold presets_section in H.
  destruct (preset_button (click_2up i) "2-up" ss) as [s1|] eqn:E1; [|discriminate].
  cbn [mbind option_bind] in H.
  destruct (preset_button (click_3up i) "3-up" s1) as [s2|] eqn:E2; [|discriminate].
  cbn [mbind option_bind] in H.
  rewrite (preset_button_frame _ _ _ _ k H Hk), (preset_button_frame _ _ _ _ k E2 Hk).
  exact (preset_button_frame _ _ _ _ k E1 Hk).
Qed.

Lemma presets_leave_other_keys_witness :
  exists ss',
    presets_section
      {| click_2up := false; click_3up := true; click_4up := false;
         template_choice := None; click_replace := false; click_append := false;
         click_download := false |}
      {["md" := VStr default_md]} = Some ss'
    /\ forall k, ~ In k preset_keys -> ss' !! k = ({["md" := VStr default_md]} : gmap string value) !! k.
Proof. apply presets_leave_other_keys. Defined.

(** X8: when several preset buttons are signalled in one run, the one
    written last in the script wins: 4-up over 3-up over 2-up; with none
    signalled the store is left as it is. *)
Theorem presets_last_wins (i : interaction) (ss : gmap string value) :
  exists ss',
    presets_section i ss = Some ss'
    /\ (click_4up i = true -> preset_applied 4 10 6 10 ss')
    /\ (click_4up i = false -> click_3up i = true -> preset_applied 3 12 8 10 ss')
    /\ (click_4up i = false -> click_3up i = false -> click_2up i = true ->
        preset_applied 2 12 10 11 ss')
    /\ (click_4up i = false -> click_3up i = false -> click_2up i = false -> ss' = ss).
Proof.
  unfold presets_section, preset_button.
  destruct (click_2up i), (click_3up i), (click_4up i);
    cbn; (eexists; split; [reflexivity|]);
    repeat split; intros; try discriminate;
    unfold preset_applied; repeat split; by simplify_map_eq.
Qed.

Lemma presets_last_wins_witness :
  exists ss',
    presets_section
      {| click_2up := true; click_3up := false; click_4up := true;
         template_choice := None; click_replace := false; click_append := false;
         click_download := false |} ∅ = Some ss'
    /\ preset_applied 4 10 6 10 ss'.
Proof.
  destruct (presets_last_wins
              {| click_2up := true; click_3up := false; click_4up := true;
                 template_choice := None; click_replace := false; click_append := false;
                 click_download := false |} ∅) as (ss' & H & H4 & _).
  exists ss'. split; [exact H | apply H4; reflexivity].
Defined.

Lemma dict_update_again (ss : gmap string value) name p :
  dict_get name PRESETS = Some p ->
  dict_update (dict_update ss p) p = dict_update ss p.
Proof.
  intros Hp. simpl in Hp.
  repeat match type of Hp with
  | (if String.eqb name ?s then _ else _) = _ =>
      destruct (String.eqb_spec name s) as [->|?]
  end; simplify_eq; cbn;
  apply map_eq; intros k; rewrite !lookup_insert; repeat case_decide; done.
Qed.

(** X9: a preset applied twice is a preset applied once: clicking the same
    button again on the store it left changes nothing. *)
Theorem preset_idempotent (name : string) (ss ss' : gmap string value) :
  preset_button true name ss = Some ss' ->
  preset_button true name ss' = Some ss'.
Proof.
  unfold preset_button.
  destruct (dict_get name PRESETS) as [p|] eqn:Hp; [|discriminate].
  cbn [mbind option_bind]. intros; simplify_eq.
  by rewrite (dict_update_again ss name p Hp).
Qed.

Lemma preset_idempotent_witness :
  preset_button true "3-up"
    (<["show_guides" := VBool true]> (<["font_px" := VInt 10]>
      (<["gap_mm" := VInt 8]> (<["margin_mm" := VInt 12]>
      (<["columns" := VInt 3]> ∅)))))
  = Some (<["show_guides" := VBool true]> (<["font_px" := VInt 10]>
      (<["gap_mm" := VInt 8]> (<["margin_mm" := VInt 12]>
      (<["columns" := VInt 3]> ∅))))).
Proof. apply (preset_idempotent "3-up" ∅). reflexivity. Defined.

(** ** The sidebar's widgets and the store *)

Lemma register_lookup key v (ss : gmap string value) k :
  register key v ss !! k
  = match ss !! k with
    | Some w => Some w
    | None => if String.eqb k key then Some v else None
    end.
Proof.
  unfold register. destruct (ss !! key) as [w|] eqn:E.
  - destruct (ss !! k) as [w'|] eqn:E'; [done|].
    destruct (String.eqb_spec k key) as [->|]; [congruence | done].
  - rewrite lookup_insert. case_decide as Hk.
    + subst k. rewrite E. by rewrite String.eqb_refl.
    + destruct (ss !! k); [done|].
      destruct (String.eqb_spec k key); [congruence | done].
Qed.

Lemma register_keeps key v (ss : gmap string value) k w :
  ss !! k = Some w -> register key v ss !! k = Some w.
Proof. intros H. by rewrite register_lookup, H. Qed.

Lemma registered_lookup d (ss : gmap string value) k :
  foldl (fun m kv => register kv.1 kv.2 m) ss d !! k
  = match ss !! k with
    | Some w => Some w
    | None => dict_get k d
    end.
Proof.
  revert ss. induction d as [|[k' v'] d IH]; intros ss; cbn [foldl dict_get fst snd].
  - by destruct (ss !! k).
  - rewrite IH, register_lookup. destruct (ss !! k); [done|].
    by destruct (String.eqb k k').
Qed.

Lemma slider_register lo hi d key ss n ss' :
  slider lo hi (session_get key (VInt d) ss) key ss = Some (n, ss') ->
  ss' = register key (VInt d) ss /\ ss' !! key = Some (VInt n)
  /\ widened_ok lo hi n = true.
Proof.
  intros H. assert (widened_ok lo hi n = true) as Hw.
  { unfold slider, session_get, widened_ok in *.
    destruct (ss !! key) as [[v|b|s]|]; simpl in H; try discriminate;
      destruct (js_int _ && js_int _) eqn:E; by simplify_eq. }
  unfold register.
  destruct (slider_read _ _ _ _ _ _ _ H) as [[Hv ->]|(Hv & -> & ->)]; rewrite Hv.
  - done.
  - split; [done|]. split; [|done]. by rewrite lookup_insert_eq.
Qed.

Lemma checkbox_register (d : bool) v0 key ss b ss' :
  (ss !! key = None -> v0 = VBool d) ->
  checkbox v0 key ss = Some (b, ss') ->
  ss' = register key (VBool d) ss /\ ss' !! key = Some (VBool b).
Proof.
  intros H0. unfold checkbox, register.
  destruct (ss !! key) as [[n|c|s]|] eqn:E; try discriminate.
  - intros; by simplify_eq.
  - rewrite (H0 eq_refl). intros; simplify_eq. split; [done|]. by rewrite lookup_insert_eq.
Qed.

(** The orientation selector: a selection it does not offer is forgotten,
    then the widget acts like the others. *)
Lemma selectbox_register ss s ss' :
  selectbox ORIENTATIONS 0 "orientation" ss = Some (s, ss') ->
  ss' = register "orientation" (VStr (lit "portrait")) (without_stale ss)
  /\ ss' !! "orientation" = Some (VStr s)
  /\ In s ORIENTATIONS.
Proof.
  unfold selectbox, register, without_stale.
  destruct (ss !! "orientation") as [[n|c|t]|] eqn:E; try discriminate.
  - case_bool_decide as Hin.
    + intros; simplify_eq. rewrite E. split; [done|]. split; [done|].
      by apply list_elem_of_In.
    + cbn. intros; simplify_eq. rewrite lookup_delete_eq, insert_delete_eq.
      split; [done|]. split; [by rewrite lookup_insert_eq | simpl; auto].
  - cbn. intros; simplify_eq. rewrite E.
    split; [done|]. split; [by rewrite lookup_insert_eq | simpl; auto].
Qed.

Lemma stale_orientation_other k v : k <> "orientation" -> stale_orientation k v = false.
Proof.
  intros Hk. unfold stale_orientation. destruct v; try done.
  by rewrite (bool_decide_eq_false_2 (k = "orientation")).
Qed.

Lemma without_stale_lookup ss k :
  without_stale ss !! k
  = match ss !! k with
    | Some v => if stale_orientation k v then None else Some v
    | None => None
    end.
Proof.
  unfold without_stale. destruct (decide (k = "orientation")) as [->|Hk].
  - destruct (ss !! "orientation") as [[n|c|o]|] eqn:E; rewrite ?E; try done.
    unfold stale_orientation.
    rewrite (bool_decide_eq_true_2 ("orientation" = "orientation")) by done.
    case_bool_decide; cbn; [exact E | by rewrite lookup_delete_eq].
  - assert (without_stale ss !! k = ss !! k) as H.
    { unfold without_stale. destruct (ss !! "orientation") as [[n|c|o]|]; try done.
      case_bool_decide; [done|]. by rewrite lookup_delete_ne. }
    unfold without_stale in H. rewrite H.
    destruct (ss !! k) as [v|]; [|done]. by rewrite stale_orientation_other.
Qed.

Lemma without_stale_other ss k : k <> "orientation" -> without_stale ss !! k = ss !! k.
Proof.
  intros Hk. rewrite without_stale_lookup. destruct (ss !! k) as [v|]; [|done].
  by rewrite stale_orientation_other.
Qed.

(** The sidebar as a whole: the store it leaves and the values it reads. *)
Lemma controls_section_store i ss sc :
  controls_section i ss = Some sc ->
  session_state sc
  = foldl (fun m kv => register kv.1 kv.2 m) (without_stale ss) widget_defaults
  /\ mirrors sc
  /\ selectbox_nokey (map fst TEMPLATES) 1 (template_choice i) = Some (selected_template sc)
  /\ load_replace sc = click_replace i
  /\ load_append sc = click_append i
  /\ returned sc.
Proof.
  unfold controls_section. intros H.
  destruct (selectbox ORIENTATIONS 0 "orientation" ss) as [[o s0]|] eqn:E0; [|discriminate].
  cbn [mbind option_bind] in H.
  destruct (slider 1 4 (session_get "columns" (VInt 2) s0) "columns" s0)
    as [[c s1]|] eqn:E1; [|discriminate].
  cbn [mbind option_bind] in H.
  destruct (slider 5 25 (session_get "margin_mm" (VInt 12) s1) "margin_mm" s1)
    as [[m s2]|] eqn:E2; [|discriminate].
  cbn [mbind option_bind] in H.
  destruct (slider 4 20 (session_get "gap_mm" (VInt 8) s2) "gap_mm" s2)
    as [[g s3]|] eqn:E3; [|discriminate].
  cbn [mbind option_bind] in H.
  destruct (slider 9 16 (session_get "font_px" (VInt 11) s3) "font_px" s3)
    as [[f s4]|] eqn:E4; [|discriminate].
  cbn [mbind option_bind] in H.
  destruct (checkbox (session_get "show_guides" (VBool true) s4) "show_guides" s4)
    as [[sg s5]|] eqn:E5; [|discriminate].
  cbn [mbind option_bind] in H.
  destruct (checkbox (VBool true) "show_print_button" s5) as [[sp s6]|] eqn:E6; [|discriminate].
  cbn [mbind option_bind] in H.
  destruct (selectbox_nokey (map fst TEMPLATES) 1 (template_choice i)) as [sel|];
    [|discriminate].
  cbn [mbind option_bind] in H. simplify_eq.
  apply selectbox_register in E0 as (R0 & L0 & W0).
  apply slider_register in E1 as (R1 & L1 & W1). apply slider_register in E2 as (R2 & L2 & W2).
  apply slider_register in E3 as (R3 & L3 & W3). apply slider_register in E4 as (R4 & L4 & W4).
  apply (checkbox_register true) in E5 as [R5 L5];
    [|by intros E; unfold session_get; rewrite E].
  apply (checkbox_register true) in E6 as [R6 L6]; [|done].
  cbn. split; [by subst|]. split; [|done].
  unfold mirrors. cbn.
  repeat split; subst s6 s5 s4 s3 s2 s1;
    repeat first [assumption | apply register_keeps].
Qed.

(** X10: the widgets of the sidebar do not overwrite what the store holds,
    but for one case: an orientation in the store that the selector does not
    offer is replaced.  After lines 110-116 every other key that was in the
    store has its old value; a widget key that was missing, and the
    orientation key with a selection that is not offered, has the widget's
    initial value (portrait, 2, 12, 8, 11, guides on, print button on); no
    other key appears. *)
Theorem controls_keep_or_default (i : interaction) (ss : gmap string value) (sc : scope) :
  controls_section i ss = Some sc ->
  forall k,
    session_state sc !! k
    = match ss !! k with
      | Some v => if stale_orientation k v then dict_get k widget_defaults else Some v
      | None => dict_get k widget_defaults
      end.
Proof.
  intros H k. destruct (controls_section_store i ss sc H) as [-> _].
  rewrite registered_lookup, without_stale_lookup.
  destruct (ss !! k) as [v|]; [|done]. by destruct (stale_orientation k v).
Qed.

Lemma controls_keep_or_default_witness :
  session_state
    (sample_scope (dict_update ∅ widget_defaults) "Lecture Notes" false false)
    !! "orientation"
  = match ({["orientation" := VStr (lit "sideways")]} : gmap string value)
            !! "orientation" with
    | Some v =>
        if stale_orientation "orientation" v
        then dict_get "orientation" widget_defaults else Some v
    | None => dict_get "orientation" widget_defaults
    end.
Proof.
  apply (controls_keep_or_default (quiet None false)
           {["orientation" := VStr (lit "sideways")]}).
  reflexivity.
Defined.

(** X11: after the sidebar, the value the script holds for each widget is
    the value the store holds under that widget's key. *)
Theorem controls_mirror_store (i : interaction) (ss : gmap string value) (sc : scope) :
  controls_section i ss = Some sc -> mirrors sc.
Proof. intros H. by destruct (controls_section_store i ss sc H) as (_ & Hm & _). Qed.

Lemma controls_mirror_store_witness :
  mirrors (sample_scope (dict_update ∅ widget_defaults) "Lecture Notes" false false).
Proof. apply (controls_mirror_store (quiet None false) ∅). reflexivity. Defined.

Lemma selectbox_nokey_In options index choice sel :
  selectbox_nokey options index choice = Some sel -> In sel options.
Proof.
  unfold selectbox_nokey. destruct choice as [c|].
  - case_bool_decide as Hin; [|discriminate]. intros; simplify_eq.
    by apply list_elem_of_In.
  - intros H. apply list_elem_of_In. by eapply list_elem_of_lookup_2.
Qed.

(** X12: the template the load actions look up is always a key of
    TEMPLATES, so the lookups of lines 158 and 160 find a text; before any
    choice in the browser it is "Lecture Notes". *)
Theorem selected_template_is_key (i : interaction) (ss : gmap string value) (sc : scope) :
  controls_section i ss = Some sc ->
  In (selected_template sc) (map fst TEMPLATES)
  /\ is_Some (dict_get (selected_template sc) TEMPLATES)
  /\ (template_choice i = None -> selected_template sc = "Lecture Notes").
Proof.
  intros H. destruct (controls_section_store i ss sc H) as (_ & _ & Hsel & _).
  pose proof (selectbox_nokey_In _ _ _ _ Hsel) as Hin.
  split; [exact Hin|]. split; [by apply dict_get_In|].
  intros Hc. rewrite Hc in Hsel. cbn in Hsel. by simplify_eq.
Qed.

Lemma selected_template_is_key_witness :
  In "Lecture Notes" (map fst TEMPLATES)
  /\ is_Some (dict_get "Lecture Notes" TEMPLATES).
Proof.
  assert (controls_section (quiet None false) ∅
          = Some (sample_scope (dict_update ∅ widget_defaults) "Lecture Notes" false false))
    as H by reflexivity.
  destruct (selected_template_is_key _ _ _ H) as (H1 & H2 & _).
  split; assumption.
Defined.

(** ** The template actions, further *)

(** X13: load-replace sets the document text to the selected template's
    text, for every template and whatever the store held under the text's key
    before, nothing included. *)
Theorem load_replace_sets_template (sc : scope) (t : list Z) :
  load_replace sc = true ->
  dict_get (selected_template sc) TEMPLATES = Some t ->
  exists sc',
    md_section sc = Some sc'
    /\ text_area "md" (session_state sc') = Some t.
Proof.
  intros Hr Ht. destruct (init_md_flags sc) as (Hr' & _ & Hs').
  unfold md_section, load_step. rewrite Hr', Hr, Hs', Ht. cbn [mbind option_bind].
  eexists. split; [reflexivity|]. unfold text_area. cbn. by simplify_map_eq.
Qed.

Lemma load_replace_sets_template_witness :
  exists sc',
    md_section (sample_scope ∅ "Code Snippets" true false) = Some sc'
    /\ text_area "md" (session_state sc') = Some template_code_snippets.
Proof.
  apply (load_replace_sets_template (sample_scope ∅ "Code Snippets" true false));
    reflexivity.
Defined.

(** X14: in a session whose store has no document text yet, the text is
    the default content: as it is when no load button is clicked, and followed
    by the template when load-append is. *)
Theorem first_text_is_default (sc : scope) (t : list Z) :
  session_state sc !! "md" = None ->
  load_replace sc = false ->
  dict_get (selected_template sc) TEMPLATES = Some t ->
  exists sc',
    md_section sc = Some sc'
    /\ text_area "md" (session_state sc')
       = Some (if load_append sc then default_md ++ t else default_md).
Proof.
  intros Hmd Hr Ht. destruct (init_md_flags sc) as (Hr' & Ha' & Hs').
  unfold md_section, load_step. rewrite Hr', Hr, Ha', Hs', Ht.
  rewrite (init_md_absent sc Hmd). cbn [session_state set_session].
  rewrite lookup_insert_eq. cbn [mbind option_bind].
  destruct (load_append sc); (eexists; split; [reflexivity|]);
    unfold text_area; cbn [session_state set_session]; by rewrite lookup_insert_eq.
Qed.

Lemma first_text_is_default_witness :
  exists sc',
    md_section (sample_scope ∅ "Formula Sheet" false true) = Some sc'
    /\ text_area "md" (session_state sc') = Some (default_md ++ template_formula_sheet).
Proof.
  apply (first_text_is_default (sample_scope ∅ "Formula Sheet" false true)
           template_formula_sheet); reflexivity.
Defined.

Lemma md_section_append sc prior t :
  load_replace sc = false ->
  load_append sc = true ->
  session_state sc !! "md" = Some (VStr prior) ->
  dict_get (selected_template sc) TEMPLATES = Some t ->
  md_section sc = Some (set_session sc (<["md" := VStr (prior ++ t)]> (session_state sc))).
Proof.
  intros Hr Ha Hmd Ht. unfold md_section. rewrite (init_md_present _ _ Hmd).
  unfold load_step. by rewrite Hr, Ha, Hmd, Ht.
Qed.

(** X15: load-append in two successive runs appends in order: the text
    becomes the prior text, then the first template, then the second. *)
Theorem load_append_twice (sc1 sc1' sc2 : scope) (prior t1 t2 : list Z) :
  load_replace sc1 = false -> load_append sc1 = true ->
  session_state sc1 !! "md" = Some (VStr prior) ->
  dict_get (selected_template sc1) TEMPLATES = Some t1 ->
  md_section sc1 = Some sc1' ->
  session_state sc2 = session_state sc1' ->
  load_replace sc2 = false -> load_append sc2 = true ->
  dict_get (selected_template sc2) TEMPLATES = Some t2 ->
  exists sc2',
    md_section sc2 = Some sc2'
    /\ text_area "md" (session_state sc2') = Some (prior ++ t1 ++ t2).
Proof.
  intros Hr1 Ha1 Hmd1 Ht1 H1 Hss Hr2 Ha2 Ht2.
  rewrite (md_section_append sc1 prior t1 Hr1 Ha1 Hmd1 Ht1) in H1. simplify_eq.
  assert (session_state sc2 !! "md" = Some (VStr (prior ++ t1))) as Hmd2.
  { rewrite Hss. cbn. by simplify_map_eq. }
  rewrite (md_section_append sc2 (prior ++ t1) t2 Hr2 Ha2 Hmd2 Ht2).
  eexists. split; [reflexivity|]. unfold text_area. cbn.
  rewrite lookup_insert_eq. by rewrite <- app_assoc.
Qed.

Lemma load_append_twice_witness :
  exists sc2',
    md_section (sample_scope {["md" := VStr (lit "x" ++ template_formula_sheet)]}
                  "Code Snippets" false true) = Some sc2'
    /\ text_area "md" (session_state sc2')
       = Some (lit "x" ++ template_formula_sheet ++ template_code_snippets).
Proof.
  apply (load_append_twice
           (sample_scope {["md" := VStr (lit "x")]} "Formula Sheet" false true)
           (set_session (sample_scope {["md" := VStr (lit "x")]} "Formula Sheet" false true)
              {["md" := VStr (lit "x" ++ template_formula_sheet)]})
           (sample_scope {["md" := VStr (lit "x" ++ template_formula_sheet)]}
              "Code Snippets" false true)
           (lit "x") template_formula_sheet template_code_snippets); reflexivity.
Defined.

(** ** Whole runs of the script *)

Lemma presets_section_frame i ss ss' k :
  presets_section i ss = Some ss' -> ~ In k preset_keys -> ss' !! k = ss !! k.
Proof.
  intros H Hk. unfold presets_section in H.
  destruct (preset_button (click_2up i) "2-up" ss) as [s1|] eqn:E1; [|discriminate].
  cbn [mbind option_bind] in H.
  destruct (preset_button (click_3up i) "3-up" s1) as [s2|] eqn:E2; [|discriminate].
  cbn [mbind option_bind] in H.
  rewrite (preset_button_frame _ _ _ _ k H Hk), (preset_button_frame _ _ _ _ k E2 Hk).
  exact (preset_button_frame _ _ _ _ k E1 Hk).
Qed.

Lemma templates_scalar name t : dict_get name TEMPLATES = Some t -> Forall scalar t.
Proof.
  intros H. simpl in H.
  repeat match type of H with
  | (if String.eqb name ?s then _ else _) = _ =>
      destruct (String.eqb_spec name s) as [->|?]
  end; simplify_eq; apply Forall_scalar_forallb; vm_compute; reflexivity.
Qed.

Lemma default_md_scalar : Forall scalar default_md.
Proof. apply Forall_scalar_forallb. vm_compute. reflexivity. Qed.

Lemma store_wf_empty : store_wf ∅.
Proof.
  split; [apply store_typed_empty|]. split; [reflexivity|].
  intros ? H; by rewrite lookup_empty in H.
Qed.

Lemma presets_section_wf i ss ss' :
  store_wf ss -> presets_section i ss = Some ss' -> store_wf ss'.
Proof.
  intros (Ht & Hl & Hm) H.
  destruct (presets_section_total i ss Ht) as (ss'' & H' & Ht'). simplify_eq.
  split; [exact Ht'|]. split; [by apply (presets_section_layout i ss)|].
  intros x Hx.
  rewrite (presets_section_frame i ss ss' _ H) in Hx
    by (simpl; intuition discriminate); eauto.
Qed.

Lemma controls_section_wf i ss sc :
  store_wf ss -> controls_section i ss = Some sc ->
  store_wf (session_state sc) /\ returned sc.
Proof.
  intros (Ht & Hl & Hm) H.
  destruct (controls_section_store i ss sc H) as (Hs & Hmir & Hsel & _ & _ & Hret).
  assert (store_typed (session_state sc)) as Ht'.
  { destruct (controls_section_total i ss Ht Hl) as (sc' & H' & Ht' & _); [by eauto|].
    by simplify_eq. }
  split; [|exact Hret].
  split; [exact Ht'|]. split; [by apply (controls_section_layout i ss)|].
  intros s. rewrite Hs, registered_lookup, without_stale_other by done.
  destruct (ss !! "md") as [v|] eqn:E; [|discriminate].
  intros; simplify_eq. by apply Hm.
Qed.

Lemma md_section_wf sc sc' :
  store_wf (session_state sc) -> md_section sc = Some sc' ->
  store_wf (session_state sc').
Proof.
  intros (Ht & Hl & Hm) H.
  destruct (md_section_frame sc sc' H) as [_ Hfr].
  assert (exists md, session_state sc' !! "md" = Some (VStr md) /\ Forall scalar md)
    as (md & Hmd & Hsc).
  { unfold md_section in H.
    assert (exists prior, session_state (init_md sc) !! "md" = Some (VStr prior)
                          /\ Forall scalar prior) as (prior & Hp & Hps).
    { unfold init_md. destruct (session_state sc !! "md") as [v|] eqn:E.
      - pose proof (Ht _ _ E) as Hv. destruct v; try discriminate. eauto.
      - exists default_md. cbn. split; [by simplify_map_eq | apply default_md_scalar]. }
    unfold load_step in H. rewrite Hp in H.
    destruct (load_replace (init_md sc)).
    - destruct (dict_get _ TEMPLATES) as [t|] eqn:Et; [|discriminate].
      cbn in H. simplify_eq. exists t. cbn. split; [by simplify_map_eq|].
      by eapply templates_scalar.
    - destruct (load_append (init_md sc)).
      + destruct (dict_get _ TEMPLATES) as [t|] eqn:Et; [|discriminate].
        cbn in H. simplify_eq. exists (prior ++ t). cbn.
        split; [by simplify_map_eq|]. apply Forall_app. split; [done|].
        by eapply templates_scalar.
      + simplify_eq. eauto. }
  split; [|split].
  - intros k v Hk. destruct (decide (k = "md")) as [->|Hne].
    + rewrite Hmd in Hk. by simplify_eq.
    + rewrite (Hfr k Hne) in Hk. by apply (Ht k).
  - by apply (md_section_layout sc).
  - intros s Hk. rewrite Hmd in Hk. by simplify_eq.
Qed.

Lemma sent_scalar s : Forall scalar s -> sent s = Some s.
Proof. intros H. unfold sent. by rewrite (proj1 (Forall_scalar_forallb s) H). Qed.

Lemma sent_Some s t : sent s = Some t -> t = s.
Proof. unfold sent. destruct (forallb scalarb s); intros; by simplify_eq. Qed.

Lemma run_succeeds i ss :
  store_wf ss ->
  match template_choice i with
  | Some c => In c (map fst TEMPLATES)
  | None => True
  end ->
  exists ss' out,
    run i ss = Some (ss', out) /\ store_wf ss'
    /\ exists o, ss' !! "orientation" = Some (VStr o) /\ In o ORIENTATIONS.
Proof.
  intros Hwf Hch.
  assert (is_Some (selectbox_nokey (map fst TEMPLATES) 1 (template_choice i))) as Hsel.
  { unfold selectbox_nokey. destruct (template_choice i) as [c|]; [|by eexists].
    rewrite bool_decide_eq_true_2 by (by apply list_elem_of_In). by eexists. }
  unfold run.
  destruct (presets_section_total i ss (proj1 Hwf)) as (s1 & E1 & T1).
  pose proof (presets_section_wf i ss s1 Hwf E1) as W1.
  rewrite E1. cbn [mbind option_bind].
  destruct (controls_section_total i s1 T1 (proj1 (proj2 W1)) Hsel) as (sc & E2 & T2 & Hin).
  destruct (controls_section_wf i s1 sc W1 E2) as [W2 (Ho & _)].
  destruct (controls_section_store i s1 sc E2) as (_ & (Hmo & _) & _).
  rewrite E2. cbn [mbind option_bind].
  destruct (md_section_total sc T2 Hin) as (sc' & md & E3 & T3 & E4).
  pose proof (md_section_wf sc sc' W2 E3) as W3.
  destruct (md_section_frame sc sc' E3) as [(Hor & _) Hfr].
  rewrite E3. cbn [mbind option_bind]. rewrite E4. cbn [mbind option_bind].
  assert (Forall scalar md) as Hmd.
  { apply (proj2 (proj2 W3) md). unfold text_area in E4.
    destruct (session_state sc' !! "md") as [[| |s]|]; by simplify_eq. }
  rewrite (sent_scalar _ Hmd). cbn [mbind option_bind].
  assert (exists o, session_state sc' !! "orientation" = Some (VStr o)
                    /\ In o ORIENTATIONS) as Hos.
  { exists (orientation sc). split; [|exact Ho]. by rewrite (Hfr "orientation"). }
  destruct (click_download i); [|cbn [mbind option_bind]; eauto 6].
  assert (Forall scalar (assemble sc' md)) as Hdoc.
  { unfold assemble. apply html_doc_scalar; [by rewrite Hor | exact Hmd]. }
  destruct (download_round_trip _ Hdoc) as (bytes & _ & Hl & _).
  rewrite Hl. cbn [mbind option_bind]. eauto 6.
Qed.

(** X16: the script never raises on a store it can meet: starting from a
    store with values of the widgets' kinds, slider values within the
    sliders' bounds and a text of Unicode scalar values (the empty store of a
    new session is one), every interaction whose template choice is one of the
    offered names runs to the end, download included, and leaves such a store
    again, with an orientation the selector offers. *)
Theorem run_never_raises (i : interaction) (ss : gmap string value) :
  store_wf ∅
  /\ (store_wf ss ->
      match template_choice i with
      | Some c => In c (map fst TEMPLATES)
      | None => True
      end ->
      exists ss' out,
        run i ss = Some (ss', out) /\ store_wf ss'
        /\ exists o, ss' !! "orientation" = Some (VStr o) /\ In o ORIENTATIONS).
Proof. split; [apply store_wf_empty | apply run_succeeds]. Qed.

Lemma run_never_raises_witness :
  exists ss' out,
    run (quiet None true) ∅ = Some (ss', out) /\ store_wf ss'
    /\ exists o, ss' !! "orientation" = Some (VStr o) /\ In o ORIENTATIONS.
Proof.
  apply (proj2 (run_never_raises (quiet None true) ∅)); [apply store_wf_empty | exact I].
Defined.

Lemma set_session_same sc : set_session sc (session_state sc) = sc.
Proof. by destruct sc. Qed.

Lemma md_section_flags sc sc' :
  md_section sc = Some sc' ->
  load_replace sc' = load_replace sc /\ load_append sc' = load_append sc.
Proof.
  unfold md_section. intros H. destruct (init_md_flags sc) as (Hr & Ha & _).
  rewrite <- Hr, <- Ha. unfold load_step in H.
  destruct (load_replace (init_md sc)) eqn:Er.
  - destruct (dict_get _ TEMPLATES); [|discriminate].
    cbn [mbind option_bind] in H. simplify_eq. cbn. by rewrite Er.
  - destruct (load_append (init_md sc)) eqn:Eb; [|simplify_eq; by rewrite Er, Eb].
    destruct (session_state (init_md sc) !! "md") as [[| |prior]|]; try discriminate.
    destruct (dict_get _ TEMPLATES); [|discriminate].
    cbn [mbind option_bind] in H. simplify_eq. cbn. by rewrite Er, Eb.
Qed.

Ltac preset_key k s :=
  destruct (String.eqb_spec k s) as [->|?]; [by simplify_map_eq|].

(** What the three preset buttons leave in the store. *)
Lemma presets_section_lookup i ss ss' :
  presets_section i ss = Some ss' ->
  match winner i with
  | Some n =>
      exists p, dict_get n PRESETS = Some p
                /\ (dict_get "md" p = None /\ dict_get "orientation" p = None)
                /\ forall k, ss' !! k = match dict_get k p with
                                        | Some v => Some v
                                        | None => ss !! k
                                        end
  | None => ss' = ss
  end.
Proof.
  unfold presets_section, preset_button, winner.
  destruct (click_2up i), (click_3up i), (click_4up i); cbn; intros H; simplify_eq;
    try reflexivity;
    (eexists; split; [reflexivity|]; split; [split; reflexivity|]);
    intros k; cbn;
    preset_key k "columns"; preset_key k "margin_mm"; preset_key k "gap_mm";
    preset_key k "font_px"; preset_key k "show_guides";
    by rewrite !lookup_insert_ne.
Qed.

Lemma presets_section_Some_eq i ss r :
  presets_section i ss = Some r ->
  (forall k, r !! k = ss !! k) -> presets_section i ss = Some ss.
Proof. intros H Hk. rewrite H. f_equal. by apply map_eq. Qed.

(** The sidebar run again on the store it left reads the same values and
    leaves the store as it is. *)
Lemma slider_again lo hi d key ss v :
  ss !! key = Some (VInt v) -> widened_ok lo hi v = true ->
  slider lo hi (session_get key (VInt d) ss) key ss = Some (v, ss).
Proof.
  intros H W. unfold slider, session_get. rewrite H. simpl.
  unfold widened_ok in W. by rewrite W.
Qed.

Lemma checkbox_again d key ss b :
  ss !! key = Some (VBool b) -> checkbox d key ss = Some (b, ss).
Proof. intros H. unfold checkbox. by rewrite H. Qed.

Lemma selectbox_again options index key ss o :
  ss !! key = Some (VStr o) -> In o options ->
  selectbox options index key ss = Some (o, ss).
Proof.
  intros H Ho. unfold selectbox. rewrite H.
  by rewrite bool_decide_eq_true_2 by (by apply list_elem_of_In).
Qed.

Lemma controls_section_again i sc :
  mirrors sc ->
  returned sc ->
  selectbox_nokey (map fst TEMPLATES) 1 (template_choice i) = Some (selected_template sc) ->
  load_replace sc = click_replace i ->
  load_append sc = click_append i ->
  controls_section i (session_state sc) = Some sc.
Proof.
  intros (H0 & H1 & H2 & H3 & H4 & H5 & H6) (W0 & W1 & W2 & W3 & W4) Hsel Hr Ha.
  unfold controls_section.
  rewrite (selectbox_again _ _ _ _ _ H0 W0). cbn [mbind option_bind].
  rewrite (slider_again _ _ _ _ _ _ H1 W1). cbn [mbind option_bind].
  rewrite (slider_again _ _ _ _ _ _ H2 W2). cbn [mbind option_bind].
  rewrite (slider_again _ _ _ _ _ _ H3 W3). cbn [mbind option_bind].
  rewrite (slider_again _ _ _ _ _ _ H4 W4). cbn [mbind option_bind].
  rewrite (checkbox_again _ _ _ _ H5). cbn [mbind option_bind].
  rewrite (checkbox_again _ _ _ _ H6). cbn [mbind option_bind].
  rewrite Hsel. cbn [mbind option_bind].
  rewrite <- Hr, <- Ha. by destruct sc.
Qed.

Lemma mirrors_frame sc sc' :
  same_variables sc' sc ->
  same_but_md (session_state sc') (session_state sc) ->
  mirrors sc -> mirrors sc'.
Proof.
  intros (E0 & E1 & E2 & E3 & E4 & E5 & E6 & _) Hfr (H0 & H1 & H2 & H3 & H4 & H5 & H6).
  unfold mirrors. rewrite E0, E1, E2, E3, E4, E5, E6.
  rewrite !Hfr by done. done.
Qed.

Lemma returned_frame sc sc' : same_variables sc' sc -> returned sc -> returned sc'.
Proof.
  intros (E0 & E1 & E2 & E3 & E4 & _). unfold returned. by rewrite E0, E1, E2, E3, E4.
Qed.

(** The template step run again, without load-append, on what it left. *)
Lemma md_section_again sc sc' :
  load_append sc = false ->
  md_section sc = Some sc' ->
  md_section sc' = Some sc'.
Proof.
  intros Ha H.
  destruct (md_section_flags sc sc' H) as [Hr' Ha'].
  destruct (md_section_frame sc sc' H) as [(_ & _ & _ & _ & _ & _ & _ & Hs) _].
  assert (exists md, session_state sc' !! "md" = Some md
                     /\ (load_replace sc = true ->
                         exists t, dict_get (selected_template sc) TEMPLATES = Some t
                                   /\ md = VStr t)) as (md & Hmd & Hrep).
  { unfold md_section in H. destruct (init_md_flags sc) as (Hr0 & Ha0 & Hs0).
    unfold load_step in H. rewrite Hr0, Ha0, Hs0, Ha in H.
    destruct (load_replace sc).
    - destruct (dict_get _ TEMPLATES) as [t|]; [|discriminate]. cbn in H. simplify_eq.
      exists (VStr t). cbn. split; [by simplify_map_eq | eauto].
    - simplify_eq. unfold init_md.
      destruct (session_state sc !! "md") as [v|] eqn:E.
      + exists v. split; [done | discriminate].
      + eexists. cbn. split; [by simplify_map_eq | discriminate]. }
  unfold md_section. rewrite (init_md_present _ _ Hmd).
  unfold load_step. rewrite Hr', Ha', Ha, Hs.
  destruct (load_replace sc); [|reflexivity].
  destruct (Hrep eq_refl) as (t & -> & ->). cbn [mbind option_bind].
  rewrite (insert_id _ _ _ Hmd). by rewrite set_session_same.
Qed.

(** The first run of a new session, nothing clicked. *)
Lemma first_run : run (quiet None false) ∅ = Some (first_store, first_output).
Proof. vm_cast_no_check (@eq_refl _ (run (quiet None false) ∅)). Qed.

Lemma second_run : run (quiet None false) first_store = Some (first_store, first_output).
Proof. vm_cast_no_check (@eq_refl _ (run (quiet None false) first_store)). Qed.

Lemma stale_run : run (quiet None false) stale_store = Some (first_store, first_output).
Proof. vm_cast_no_check (@eq_refl _ (run (quiet None false) stale_store)). Qed.

Lemma first_run_3up : run click_3up_only ∅ = Some (store_3up, output_3up).
Proof. vm_cast_no_check (@eq_refl _ (run click_3up_only ∅)). Qed.

(** X17: run again with the same interaction, the script changes nothing,
    unless that interaction is load-append: the second run leaves the store
    of the first and shows the same document, link and print button. *)
Theorem rerun_changes_nothing (i : interaction) (ss ss' : gmap string value) (out : output) :
  click_append i = false ->
  run i ss = Some (ss', out) ->
  run i ss' = Some (ss', out).
Proof.
  intros Ha H. unfold run in H.
  destruct (presets_section i ss) as [s1|] eqn:E1; [|discriminate].
  cbn [mbind option_bind] in H.
  destruct (controls_section i s1) as [sc|] eqn:E2; [|discriminate].
  cbn [mbind option_bind] in H.
  destruct (md_section sc) as [sc'|] eqn:E3; [|discriminate].
  cbn [mbind option_bind] in H.
  destruct (text_area "md" (session_state sc')) as [md|] eqn:E4; [|discriminate].
  cbn [mbind option_bind] in H.
  destruct (sent md) as [md'|] eqn:E4'; [|discriminate].
  apply sent_Some in E4' as Hmd'. subst md'.
  cbn [mbind option_bind] in H.
  destruct (if click_download i then _ else _) as [link|] eqn:E5; [|discriminate].
  cbn [mbind option_bind] in H. simplify_eq.
  destruct (controls_section_store i s1 sc E2) as (Hst & Hmir & Hsel & Hlr & Hla & Hret).
  destruct (md_section_frame sc sc' E3) as [Hv Hfr].
  destruct (md_section_flags sc sc' E3) as [Hr' Ha'].
  assert (presets_section i (session_state sc') = Some (session_state sc')) as P.
  { destruct (presets_section_Some i (session_state sc')) as [r Hr].
    apply (presets_section_Some_eq _ _ r Hr). intros k.
    pose proof (presets_section_lookup i ss s1 E1) as W1.
    pose proof (presets_section_lookup i _ r Hr) as W2.
    destruct (winner i) as [n|]; [|by subst].
    destruct W1 as (p & Hp & (Hpmd & Hpo) & L1). destruct W2 as (p' & Hp' & _ & L2).
    simplify_eq. rewrite L2. destruct (dict_get k p) as [v|] eqn:Ek; [|done].
    assert (k <> "md") as Hne by (intros ->; congruence).
    assert (k <> "orientation") as Hno by (intros ->; congruence).
    rewrite (Hfr k Hne), Hst, registered_lookup, (without_stale_other _ _ Hno), L1, Ek.
    done. }
  assert (controls_section i (session_state sc') = Some sc') as C.
  { apply controls_section_again.
    - by apply (mirrors_frame sc sc').
    - by apply (returned_frame sc sc').
    - destruct Hv as (_ & _ & _ & _ & _ & _ & _ & ->). exact Hsel.
    - congruence.
    - congruence. }
  assert (md_section sc' = Some sc') as M
    by (apply (md_section_again sc sc'); [congruence | exact E3]).
  unfold run. rewrite P. cbn [mbind option_bind]. rewrite C. cbn [mbind option_bind].
  rewrite M. cbn [mbind option_bind]. rewrite E4. cbn [mbind option_bind].
  rewrite E4'. cbn [mbind option_bind]. rewrite E5. reflexivity.
Qed.

Lemma rerun_changes_nothing_witness :
  run (quiet None false) first_store = Some (first_store, first_output).
Proof.
  apply (rerun_changes_nothing (quiet None false) ∅); [reflexivity | exact first_run].
Defined.

(** X18: what a run shows is what its store says: the document is
    assembled from the orientation, columns, margin, gap, font size, guides
    and text the store holds when the run ends, the print button is shown as
    the store's switch says, and there is no download link unless the
    download button was clicked. *)
Theorem run_shows_the_store (i : interaction) (ss ss' : gmap string value) (out : output) :
  run i ss = Some (ss', out) ->
  exists o c m g f sg sp md,
    ss' !! "orientation" = Some (VStr o)
    /\ ss' !! "columns" = Some (VInt c)
    /\ ss' !! "margin_mm" = Some (VInt m)
    /\ ss' !! "gap_mm" = Some (VInt g)
    /\ ss' !! "font_px" = Some (VInt f)
    /\ ss' !! "show_guides" = Some (VBool sg)
    /\ ss' !! "show_print_button" = Some (VBool sp)
    /\ ss' !! "md" = Some (VStr md)
    /\ out_html out = html_doc o c m g f sg md
    /\ out_print_button out = sp
    /\ (click_download i = false -> out_link out = None).
Proof.
  intros H. unfold run in H.
  destruct (presets_section i ss) as [s1|] eqn:E1; [|discriminate].
  cbn [mbind option_bind] in H.
  destruct (controls_section i s1) as [sc|] eqn:E2; [|discriminate].
  cbn [mbind option_bind] in H.
  destruct (md_section sc) as [sc'|] eqn:E3; [|discriminate].
  cbn [mbind option_bind] in H.
  destruct (text_area "md" (session_state sc')) as [md|] eqn:E4; [|discriminate].
  cbn [mbind option_bind] in H.
  destruct (sent md) as [md'|] eqn:E4'; [|discriminate].
  apply sent_Some in E4' as Hmd'. subst md'.
  cbn [mbind option_bind] in H.
  destruct (if click_download i then _ else _) as [link|] eqn:E5; [|discriminate].
  cbn [mbind option_bind] in H. simplify_eq.
  destruct (controls_section_store i s1 sc E2) as (_ & Hmir & _).
  destruct (md_section_frame sc sc' E3) as [Hv Hfr].
  destruct (mirrors_frame sc sc' Hv Hfr Hmir) as (H0 & H1 & H2 & H3 & H4 & H5 & H6).
  exists (orientation sc'), (columns sc'), (margin_mm sc'), (gap_mm sc'), (font_px sc'),
    (show_guides sc'), (show_print_button sc'), md.
  repeat (split; [assumption|]).
  split.
  { unfold text_area in E4. destruct (session_state sc' !! "md") as [[| |s]|]; by simplify_eq. }
  split; [reflexivity|]. split; [reflexivity|].
  intros Hd. rewrite Hd in E5. cbn. by simplify_eq.
Qed.

Lemma run_shows_the_store_witness :
  exists o c m g f sg sp md,
    first_store !! "orientation" = Some (VStr o)
    /\ first_store !! "columns" = Some (VInt c)
    /\ first_store !! "margin_mm" = Some (VInt m)
    /\ first_store !! "gap_mm" = Some (VInt g)
    /\ first_store !! "font_px" = Some (VInt f)
    /\ first_store !! "show_guides" = Some (VBool sg)
    /\ first_store !! "show_print_button" = Some (VBool sp)
    /\ first_store !! "md" = Some (VStr md)
    /\ out_html first_output = html_doc o c m g f sg md
    /\ out_print_button first_output = sp
    /\ (click_download (quiet None false) = false -> out_link first_output = None).
Proof.
  apply (run_shows_the_store (quiet None false) ∅ first_store first_output).
  exact first_run.
Defined.

(** ** The document as a whole *)

Lemma html_doc_split o c m g f sg md :
  html_doc o c m g f sg md = doc_prefix o c m g f sg ++ md_js md ++ after_literal.
Proof.
  unfold html_doc, html_template, doc_prefix, after_literal.
  set (L := html_lines (page_w o) (page_h o) m g f c o (rule_css sg) (md_js md)).
  assert (L !! 40%nat = Some [T "    const raw = `"; F (md_js md); T "`;"]) as Hk
    by reflexivity.
  rewrite <- (take_drop_middle L 40 _ Hk).
  rewrite unlines_app, unlines_cons. cbn [render_line flat_map render_piece].
  rewrite <- !app_assoc. reflexivity.
Qed.

Lemma md_js_inj a b : md_js a = md_js b -> a = b.
Proof.
  revert b. induction a as [|c a IH]; intros [|d b].
  - reflexivity.
  - rewrite md_js_cons. unfold escaped.
    destruct (d =? 92), (d =? 96), (d =? 36); discriminate.
  - rewrite md_js_cons. unfold escaped.
    destruct (c =? 92), (c =? 96), (c =? 36); discriminate.
  - rewrite !md_js_cons. unfold escaped.
    destruct (Z.eqb_spec c 92), (Z.eqb_spec c 96), (Z.eqb_spec c 36),
      (Z.eqb_spec d 92), (Z.eqb_spec d 96), (Z.eqb_spec d 36);
      cbn [app]; intros H; simplify_eq; try (f_equal; by apply IH); try lia.
Qed.

(** X19: under one configuration two different texts never give the same
    document: the text can be told from the document. *)
Theorem html_doc_injective (o : list Z) (c m g f : Z) (sg : bool) (a b : list Z) :
  html_doc o c m g f sg a = html_doc o c m g f sg b -> a = b.
Proof.
  rewrite !html_doc_split. intros H.
  apply app_inv_head, app_inv_tail in H. by apply md_js_inj.
Qed.

Lemma html_doc_injective_witness : lit "x$y" = lit "x$y".
Proof.
  apply (html_doc_injective (lit "landscape") 3 12 8 10 true (lit "x$y") (lit "x$y")).
  reflexivity.
Defined.

Lemma document_head_before o c m g f sg md :
  before (lit "<style>") (html_doc o c m g f sg md) = Some document_head.
Proof.
  unfold html_doc, document_head. rewrite html_template_parts.
  rewrite before_skip by (vm_compute; reflexivity).
  rewrite before_here. cbn [fmap option_fmap option_map]. by rewrite app_nil_r.
Qed.

(** X20: whatever the configuration and the text, the document starts with
    the same head, and that head, before the style element, refers to the
    stylesheet and script of the syntax highlighter, to the HTML sanitizer, to
    the Markdown converter and to the math typesetter by their URLs. *)
Theorem head_refers_to_libraries (o : list Z) (c m g f : Z) (sg : bool) (md : list Z) :
  before (lit "<style>") (html_doc o c m g f sg md) = Some document_head
  /\ contains (lit "https://cdnjs.cloudflare.com/ajax/libs/highlight.js/11.9.0/styles/github.min.css")
       document_head = true
  /\ contains (lit "https://cdnjs.cloudflare.com/ajax/libs/highlight.js/11.9.0/highlight.min.js")
       document_head = true
  /\ contains (lit "https://cdn.jsdelivr.net/npm/dompurify@3.1.7/dist/purify.min.js")
       document_head = true
  /\ contains (lit "https://cdn.jsdelivr.net/npm/marked/marked.min.js") document_head = true
  /\ contains (lit "https://cdn.jsdelivr.net/npm/mathjax@3/es5/tex-svg.js") document_head = true.
Proof.
  split; [apply document_head_before|].
  repeat split; vm_compute; reflexivity.
Qed.

Lemma toolbar_line o c :
  contains (toolbar_text o c)
    (render_line [T "  <div class="; Q; T "toolbar"; Q; T ">A4 preview "; U 8226; T " ";
                  F o; T " "; U 8226; T " "; F (str_int c); T " column(s)</div>"]) = true.
Proof.
  unfold toolbar_text, render_line. cbn [flat_map render_piece].
  change (lit ">A4 preview ") with (lit ">" ++ lit "A4 preview ").
  change (lit " column(s)</div>") with (lit " column(s)" ++ lit "</div>").
  rewrite <- !app_assoc.
  do 5 apply contains_app_r.
  repeat rewrite (app_assoc _ _ (lit "</div>" ++ [])).
  apply contains_here.
Qed.

Lemma doc_has_toolbar o c m g f sg md :
  contains (toolbar_text o c) (html_doc o c m g f sg md) = true.
Proof.
  unfold html_doc, html_template. rewrite <- (app_nil_r (unlines _)).
  eapply contains_line with (k := 37%nat); [reflexivity | apply toolbar_line].
Qed.

(** X21: the orientation chosen is the one the document prints with and
    shows: the style's page rule names it as the A4 size, and the toolbar
    reads "A4 preview", the orientation and the number of columns. *)
Theorem orientation_in_page_rule_and_toolbar (sc : scope) (md : list Z) :
  In (orientation sc) ORIENTATIONS ->
  contains (toolbar_text (orientation sc) (columns sc)) (assemble sc md) = true
  /\ exists css,
       Css.style_text (assemble sc md) = Some css
       /\ contains (lit "@page { size: A4 " ++ orientation sc
                    ++ lit "; margin: var(--margin-mm); }") css = true.
Proof.
  intros Ho. unfold assemble. split; [apply doc_has_toolbar|].
  eexists. split; [by apply doc_style_text|].
  apply contains_app_r. eapply contains_line with (k := 8%nat); [reflexivity|].
  apply (line_declaration "    " "@page { size: A4 " "; margin: var(--margin-mm); }").
Qed.

Lemma orientation_in_page_rule_and_toolbar_witness :
  contains (toolbar_text (lit "portrait") 2)
    (assemble (sample_scope ∅ "Blank" false false) default_md) = true
  /\ exists css,
       Css.style_text (assemble (sample_scope ∅ "Blank" false false) default_md) = Some css
       /\ contains (lit "@page { size: A4 " ++ lit "portrait"
                    ++ lit "; margin: var(--margin-mm); }") css = true.
Proof.
  apply (orientation_in_page_rule_and_toolbar (sample_scope ∅ "Blank" false false) default_md).
  simpl. auto.
Defined.

(** X22: the page width and height the style declares are the dimensions
    chosen from the orientation: reading --page-w-mm and --page-h-mm back
    from the document gives [page_w] and [page_h] in millimetres. *)
Theorem page_dimensions_round_trip (sc : scope) (md : list Z) :
  In (orientation sc) ORIENTATIONS ->
  exists css,
    Css.style_text (assemble sc md) = Some css
    /\ Css.number "--page-w-mm" css = Some (page_w (orientation sc), lit "mm")
    /\ Css.number "--page-h-mm" css = Some (page_h (orientation sc), lit "mm").
Proof.
  intros Ho. unfold assemble. eexists. split; [by apply doc_style_text|].
  assert (0 < page_w (orientation sc) /\ 0 < page_h (orientation sc)) as [Hw Hh].
  { unfold page_w, page_h, A4_W, A4_H.
    destruct (str_eqb (orientation sc) (lit "portrait")); lia. }
  split; apply number_of_declared; try lia; try reflexivity.
  - apply declared_page_w; lia.
  - apply declared_page_h; lia.
Qed.

Lemma page_dimensions_round_trip_witness :
  exists css,
    Css.style_text (assemble (sample_scope ∅ "Blank" false false) default_md) = Some css
    /\ Css.number "--page-w-mm" css = Some (210, lit "mm")
    /\ Css.number "--page-h-mm" css = Some (297, lit "mm").
Proof.
  apply (page_dimensions_round_trip (sample_scope ∅ "Blank" false false) default_md).
  simpl. auto.
Defined.

(** ** Runs and the buttons *)

(** The steps of a run that reached its end. *)
Lemma run_steps i ss ss' out :
  run i ss = Some (ss', out) ->
  exists s1 sc sc' md,
    presets_section i ss = Some s1
    /\ controls_section i s1 = Some sc
    /\ md_section sc = Some sc'
    /\ text_area "md" (session_state sc') = Some md
    /\ ss' = session_state sc'
    /\ out_html out = assemble sc' md.
Proof.
  intros H. unfold run in H.
  destruct (presets_section i ss) as [s1|] eqn:E1; [|discriminate].
  cbn [mbind option_bind] in H.
  destruct (controls_section i s1) as [sc|] eqn:E2; [|discriminate].
  cbn [mbind option_bind] in H.
  destruct (md_section sc) as [sc'|] eqn:E3; [|discriminate].
  cbn [mbind option_bind] in H.
  destruct (text_area "md" (session_state sc')) as [md|] eqn:E4; [|discriminate].
  cbn [mbind option_bind] in H.
  destruct (sent md) as [md'|] eqn:E4'; [|discriminate].
  apply sent_Some in E4' as Hmd'. subst md'.
  cbn [mbind option_bind] in H.
  destruct (if click_download i then _ else _) as [link|] eqn:E5; [|discriminate].
  cbn [mbind option_bind] in H. simplify_eq.
  exists s1, sc, sc', md. repeat split; done.
Qed.

(** The values the sidebar reads after a preset is in force. *)
Lemma preset_read i ss s1 sc n p :
  presets_section i ss = Some s1 ->
  controls_section i s1 = Some sc ->
  winner i = Some n ->
  dict_get n PRESETS = Some p ->
  dict_get "columns" p = Some (VInt (columns sc))
  /\ dict_get "margin_mm" p = Some (VInt (margin_mm sc))
  /\ dict_get "gap_mm" p = Some (VInt (gap_mm sc))
  /\ dict_get "font_px" p = Some (VInt (font_px sc))
  /\ dict_get "show_guides" p = Some (VBool (show_guides sc)).
Proof.
  intros E1 E2 Hw Hp.
  pose proof (presets_section_lookup i ss s1 E1) as W. rewrite Hw in W.
  destruct W as (p' & Hp' & _ & L). simplify_eq.
  destruct (controls_section_store i s1 sc E2) as (Hst & Hmir & _).
  destruct Hmir as (_ & M1 & M2 & M3 & M4 & M5 & _).
  rewrite Hst, registered_lookup, without_stale_other, L in M1, M2, M3, M4, M5 by done.
  simpl in Hp.
  repeat match type of Hp with
  | (if String.eqb n ?s then _ else _) = _ =>
      destruct (String.eqb_spec n s) as [->|?]
  end; simplify_eq; cbn in *; simplify_eq; repeat split; congruence.
Qed.

(** X23: a preset shows in the very run in which its button is clicked:
    the document of that run is assembled with the columns, margin, gap, font
    size and guides of the preset in force (4-up over 3-up over 2-up). *)
Theorem preset_shows_in_document (i : interaction) (ss ss' : gmap string value)
    (out : output) :
  run i ss = Some (ss', out) ->
  exists o md,
    (click_4up i = true -> out_html out = html_doc o 4 10 6 10 true md)
    /\ (click_4up i = false -> click_3up i = true ->
        out_html out = html_doc o 3 12 8 10 true md)
    /\ (click_4up i = false -> click_3up i = false -> click_2up i = true ->
        out_html out = html_doc o 2 12 10 11 true md).
Proof.
  intros H. destruct (run_steps i ss ss' out H) as (s1 & sc & sc' & md & E1 & E2 & E3 & _ & _ & ->).
  destruct (md_section_frame sc sc' E3) as [(V0 & V1 & V2 & V3 & V4 & V5 & _) _].
  exists (orientation sc'), md. unfold assemble. rewrite V1, V2, V3, V4, V5.
  repeat split; intros.
  - edestruct (preset_read i ss s1 sc "4-up") as (P1 & P2 & P3 & P4 & P5);
      [exact E1 | exact E2 | unfold winner; by rewrite H0 | reflexivity |].
    cbn in P1, P2, P3, P4, P5. congruence.
  - edestruct (preset_read i ss s1 sc "3-up") as (P1 & P2 & P3 & P4 & P5);
      [exact E1 | exact E2 | unfold winner; by rewrite H0, H1 | reflexivity |].
    cbn in P1, P2, P3, P4, P5. congruence.
  - edestruct (preset_read i ss s1 sc "2-up") as (P1 & P2 & P3 & P4 & P5);
      [exact E1 | exact E2 | unfold winner; by rewrite H0, H1, H2 | reflexivity |].
    cbn in P1, P2, P3, P4, P5. congruence.
Qed.

Lemma preset_shows_in_document_witness :
  exists o md, out_html output_3up = html_doc o 3 12 8 10 true md.
Proof.
  destruct (preset_shows_in_document click_3up_only ∅ store_3up output_3up first_run_3up)
    as (o & md & _ & H3 & _).
  exists o, md. apply H3; reflexivity.
Defined.

(** X24: a run in which no preset and no load button is clicked changes no
    value the store holds, but for an orientation the selector does not offer,
    which becomes portrait: every other key keeps its value (the document text
    and the layout included); the run only adds the keys that were missing. *)
Theorem quiet_run_keeps_store (i : interaction) (ss ss' : gmap string value)
    (out : output) :
  run i ss = Some (ss', out) ->
  winner i = None ->
  click_replace i = false ->
  click_append i = false ->
  (forall k v, ss !! k = Some v -> stale_orientation k v = false -> ss' !! k = Some v)
  /\ (forall v, ss !! "orientation" = Some v ->
        stale_orientation "orientation" v = true ->
        ss' !! "orientation" = Some (VStr (lit "portrait"))).
Proof.
  intros H Hw Hr Ha.
  destruct (run_steps i ss ss' out H) as (s1 & sc & sc' & md & E1 & E2 & E3 & _ & -> & _).
  pose proof (presets_section_lookup i ss s1 E1) as W. rewrite Hw in W. subst s1.
  destruct (controls_section_store i ss sc E2) as (Hst & _ & _ & Hlr & Hla & _).
  assert (forall k w, session_state sc !! k = Some w -> session_state sc' !! k = Some w)
    as Hkeep.
  { intros k w Hk. unfold md_section in E3. destruct (init_md_flags sc) as (Hr0 & Ha0 & _).
    unfold load_step in E3. rewrite Hr0, Ha0, Hlr, Hla, Hr, Ha in E3. simplify_eq.
    unfold init_md. destruct (session_state sc !! "md") as [w'|] eqn:E; [exact Hk|].
    cbn. rewrite lookup_insert_ne; [exact Hk | congruence]. }
  split.
  - intros k v Hk Hs. apply Hkeep.
    by rewrite Hst, registered_lookup, without_stale_lookup, Hk, Hs.
  - intros v Hk Hs. apply Hkeep.
    by rewrite Hst, registered_lookup, without_stale_lookup, Hk, Hs.
Qed.

Lemma quiet_run_keeps_store_witness :
  first_store !! "md" = Some (VStr default_md)
  /\ first_store !! "orientation" = Some (VStr (lit "portrait")).
Proof.
  destruct (quiet_run_keeps_store (quiet None false) stale_store first_store
              first_output stale_run eq_refl eq_refl eq_refl) as [H1 H2].
  split; [apply (H1 "md" (VStr default_md)) | apply (H2 (VStr (lit "sideways")))];
    reflexivity.
Defined.
